(** * GenericFileFormat: tokenizer, serializer and line navigation

    A shallow embedding of [source/main/utils/GenericFileFormat.cpp]
    (Rigs of Rods).  The C++ code keeps one mutable [DocumentParser] and one
    mutable [GenericDocument]; here every handler is a state transformer on a
    record that holds both, and the statements of a handler are composed in
    the order in which the source executes them. *)

From Stdlib Require Import ZArith Bool Ascii String DecimalString List Lia.
From Stdlib Require Import Floats.SpecFloat.
Import ListNotations.

Local Open Scope Z_scope.

(** ** Characters *)

Definition NUL : ascii := "000"%char.
Definition TAB : ascii := "009"%char.
Definition LF : ascii := "010"%char.
Definition CR : ascii := "013"%char.
Definition DQUOTE : ascii := "034"%char.

Definition code (c : ascii) : Z := Z.of_N (N_of_ascii c).

(** [isdigit], [isalpha] and [isalnum] of <cctype> in the "C" locale; bytes
    above 127 belong to no class. *)
Definition isdigit (c : ascii) : bool := (48 <=? code c) && (code c <=? 57).
Definition isupper (c : ascii) : bool := (65 <=? code c) && (code c <=? 90).
Definition islower (c : ascii) : bool := (97 <=? code c) && (code c <=? 122).
Definition isalpha (c : ascii) : bool := isupper c || islower c.
Definition isalnum (c : ascii) : bool := isalpha c || isdigit c.

(** The three characters the handlers share one [case] group for. *)
Definition is_separator (c : ascii) : bool :=
  Ascii.eqb c " " || Ascii.eqb c "," || Ascii.eqb c TAB.

(** A C string: the bytes before the first NUL. *)
Fixpoint c_str (s : list ascii) : list ascii :=
  match s with
  | [] => []
  | c :: r => if Ascii.eqb c NUL then [] else c :: c_str r
  end.

(** ** Machine numbers *)

(** [size_t] is taken to be 64 bits wide. *)
Definition SIZE_MAX1 : Z := 2 ^ 64.
Definition size_incr (n : Z) : Z := (n + 1) mod SIZE_MAX1.

(** [float] is IEEE-754 binary32: 24 bits of precision, [emax] = 128. *)
Definition float : Type := spec_float.
Definition prec32 : Z := 24.
Definition emax32 : Z := 128.

(** [(float)n] for an unsigned integer [n], rounding to nearest even. *)
Definition float_of_size (n : Z) : float := binary_normalize prec32 emax32 n 0 false.

(** [(size_t)f]: truncation towards zero.  The conversion is undefined in C
    for negative, infinite and NaN operands; those map to 0 here. *)
Definition size_of_float (f : float) : Z :=
  match f with
  | S754_finite false m e =>
      if 0 <=? e then Z.pos m * 2 ^ e else Z.pos m / 2 ^ (- e)
  | _ => 0
  end.

(** The correctly rounded quotient of two positive integers. *)
Definition float_of_ratio (neg : bool) (n d : Z) : float :=
  if n =? 0 then S754_zero neg
  else
    let '(mz, ez, lz) := SFdiv_core_binary prec32 emax32 n 0 d 0 in
    binary_round_aux prec32 emax32 neg mz ez lz.

Definition float_eqb (a b : float) : bool := SFeqb a b.

Definition f_zero : float := S754_zero false.
Definition f_one : float := float_of_size 1.

(** ** Decimal text *)

Definition digit_val (c : ascii) : Z := code c - 48.

Fixpoint read_digits (s : list ascii) (acc : Z) (n : nat) : Z * nat * list ascii :=
  match s with
  | c :: r => if isdigit c then read_digits r (10 * acc + digit_val c) (S n)
              else (acc, n, s)
  | [] => (acc, n, s)
  end.

(** Modelled from the spec: [Ogre::StringConverter::parseReal] belongs to
    the Ogre library and is not part of this repository.  The spec calls it
    a locale-independent decimal parse into a floating-point value; the model
    reads an optional sign, integer digits, an optional ['.'] and fraction
    digits, stops at the first character that does not fit, and answers
    Ogre's default of zero when no digit was read. *)
Definition parseReal (s : list ascii) : float :=
  let '(neg, s1) :=
    match s with
    | c :: r => if Ascii.eqb c "-" then (true, r)
                else if Ascii.eqb c "+" then (false, r) else (false, s)
    | [] => (false, s)
    end in
  let '(ip, ni, s2) := read_digits s1 0 0%nat in
  let '(fp, nf) :=
    match s2 with
    | c :: r => if Ascii.eqb c "." then
                  let '(v, k, _) := read_digits r ip 0%nat in (v, k)
                else (ip, 0%nat)
    | [] => (ip, 0%nat)
    end in
  match ni, nf with
  | O, O => f_zero
  | _, _ => float_of_ratio neg fp (10 ^ Z.of_nat nf)
  end.

(** ** The document model *)

Module TokenType.

(** Modelled from the spec: the enumeration is declared in
    GenericFileFormat.h, which is not among the sources; these are the
    six kinds the spec lists and the code uses. *)
Inductive t : Set := LINEBREAK | COMMENT | STRING | NUMBER | BOOL | KEYWORD.

Definition eqb (a b : t) : bool :=
  match a, b with
  | LINEBREAK, LINEBREAK | COMMENT, COMMENT | STRING, STRING
  | NUMBER, NUMBER | BOOL, BOOL | KEYWORD, KEYWORD => true
  | _, _ => false
  end.

End TokenType.

Record Token : Type := mkToken { type : TokenType.t; data : float }.

Record GenericDocument : Type := mkDoc {
  tokens : list Token;
  string_pool : list ascii
}.

(** Modelled from the spec: the option bits are constants of
    GenericFileFormat.h; the spec only says that they are independent bits
    of one mask. *)
Definition BitMask_t : Type := Z.
Definition OPTION_ALLOW_NAKED_STRINGS : BitMask_t := 1.
Definition OPTION_ALLOW_SLASH_COMMENTS : BitMask_t := 2.
Definition OPTION_FIRST_LINE_IS_TITLE : BitMask_t := 4.

Definition has_option (options flag : BitMask_t) : bool :=
  negb (Z.land options flag =? 0).

(** [tokens.back().type == TokenType::LINEBREAK]; the source only asks
    after it has seen that the vector is not empty. *)
Definition back_type (l : list Token) : option TokenType.t :=
  match rev l with
  | [] => None
  | t :: _ => Some (type t)
  end.

Definition back_is_linebreak (l : list Token) : bool :=
  match back_type l with
  | Some ty => TokenType.eqb ty TokenType.LINEBREAK
  | None => false
  end.

Definition tokens_empty (l : list Token) : bool := Nat.eqb (length l) 0.

(** [tokens.size() == 0 || tokens.back().type == LINEBREAK] *)
Definition on_line_start (l : list Token) : bool :=
  tokens_empty l || back_is_linebreak l.

(** [tokens.size() != 0 && tokens.back().type != LINEBREAK] *)
Definition not_on_line_start (l : list Token) : bool :=
  negb (tokens_empty l) && negb (back_is_linebreak l).

(** ** The parser *)

Module PartialToken.

Inductive t : Set :=
| NONE
| COMMENT_SEMICOLON
| COMMENT_SLASH
| STRING_QUOTED
| STRING_NAKED
| TITLE_STRING
| NUMBER
| NUMBER_DOT
| KEYWORD
| BOOL_TRUE
| BOOL_FALSE
| GARBAGE.

Definition eqb (a b : t) : bool :=
  match a, b with
  | NONE, NONE | COMMENT_SEMICOLON, COMMENT_SEMICOLON
  | COMMENT_SLASH, COMMENT_SLASH | STRING_QUOTED, STRING_QUOTED
  | STRING_NAKED, STRING_NAKED | TITLE_STRING, TITLE_STRING
  | NUMBER, NUMBER | NUMBER_DOT, NUMBER_DOT | KEYWORD, KEYWORD
  | BOOL_TRUE, BOOL_TRUE | BOOL_FALSE, BOOL_FALSE | GARBAGE, GARBAGE => true
  | _, _ => false
  end.

End PartialToken.

(** The warnings the parser hands to the console.  Each carries the line
    number and column of the message and what the format string embeds;
    the name of the data stream, the same in all of them, is left out. *)
Inductive StrayWhere : Set :=
  InNone | InString | InNumber | InBoolean | InKeyword.

Inductive Message : Type :=
| stray_character (w : StrayWhere) (line pos : Z) (c : ascii)
| quoted_string_interrupted (line pos : Z)
| discarding_incomplete_boolean (line pos : Z) (text : list ascii)
| discarding_garbage (line pos : Z) (text : list ascii).

Record DocumentParser : Type := mkParser {
  doc : GenericDocument;
  options : BitMask_t;
  tok : list ascii;
  line_num : Z;
  line_pos : Z;
  partial_tok_type : PartialToken.t;
  title_found : bool;
  console : list Message
}.

Definition new_parser (opt : BitMask_t) : DocumentParser :=
  {| doc := mkDoc [] []; options := opt; tok := [];
     line_num := 0; line_pos := 0;
     partial_tok_type := PartialToken.NONE; title_found := false;
     console := [] |}.

(** *** Statements

    A handler body is a sequence of assignments to the parser's fields and
    to the document it refers to.  Each assignment is a function on
    [DocumentParser]; [a ;; b] runs [a], then [b]. *)

Definition Stmt : Type := DocumentParser -> DocumentParser.

Definition skip : Stmt := fun p => p.
Definition seq (a b : Stmt) : Stmt := fun p => b (a p).
Definition when (cond : DocumentParser -> bool) (a : Stmt) : Stmt :=
  fun p => if cond p then a p else p.
Definition ifelse (cond : DocumentParser -> bool) (a b : Stmt) : Stmt :=
  fun p => if cond p then a p else b p.

Declare Scope stmt_scope.
Delimit Scope stmt_scope with stmt.
Notation "a ;; b" := (seq a b) (at level 61, right associativity) : stmt_scope.
Local Open Scope stmt_scope.

Definition with_doc (d : GenericDocument) (p : DocumentParser) : DocumentParser :=
  mkParser d (options p) (tok p) (line_num p) (line_pos p)
           (partial_tok_type p) (title_found p) (console p).

Definition with_tok (b : list ascii) (p : DocumentParser) : DocumentParser :=
  mkParser (doc p) (options p) b (line_num p) (line_pos p)
           (partial_tok_type p) (title_found p) (console p).

(** [doc.tokens.push_back({ ty, v })] *)
Definition tokens_push_back (ty : TokenType.t) (v : float) : Stmt :=
  fun p => with_doc (mkDoc (tokens (doc p) ++ [mkToken ty v]) (string_pool (doc p))) p.

(** [doc.tokens.push_back({ ty, (float)doc.string_pool.size() })] *)
Definition tokens_push_back_offset (ty : TokenType.t) : Stmt :=
  fun p => tokens_push_back ty
             (float_of_size (Z.of_nat (length (string_pool (doc p))))) p.

(** [doc.tokens.push_back({ NUMBER, (float)parseReal(tok.data()) })] *)
Definition tokens_push_back_number : Stmt :=
  fun p => tokens_push_back TokenType.NUMBER (parseReal (c_str (tok p))) p.

(** [tok.push_back(c)] *)
Definition tok_push_back (c : ascii) : Stmt :=
  fun p => with_tok (tok p ++ [c]) p.

(** [tok.clear()] *)
Definition tok_clear : Stmt := with_tok [].

(** [std::copy(tok.begin(), tok.end(), std::back_inserter(doc.string_pool))] *)
Definition copy_tok_to_pool : Stmt :=
  fun p => with_doc (mkDoc (tokens (doc p)) (string_pool (doc p) ++ tok p)) p.

(** [partial_tok_type = s] *)
Definition set_partial (s : PartialToken.t) : Stmt :=
  fun p => mkParser (doc p) (options p) (tok p) (line_num p) (line_pos p)
                    s (title_found p) (console p).

(** [title_found = true] *)
Definition set_title_found : Stmt :=
  fun p => mkParser (doc p) (options p) (tok p) (line_num p) (line_pos p)
                    (partial_tok_type p) true (console p).

(** [line_pos++] *)
Definition line_pos_incr : Stmt :=
  fun p => mkParser (doc p) (options p) (tok p) (line_num p)
                    (size_incr (line_pos p))
                    (partial_tok_type p) (title_found p) (console p).

(** [line_num++; line_pos = 0] *)
Definition line_break : Stmt :=
  fun p => mkParser (doc p) (options p) (tok p) (size_incr (line_num p)) 0
                    (partial_tok_type p) (title_found p) (console p).

(** [App::GetConsole()->putMessage(..., fmt::format(...))] *)
Definition putMessage (m : DocumentParser -> Message) : Stmt :=
  fun p => mkParser (doc p) (options p) (tok p) (line_num p) (line_pos p)
                    (partial_tok_type p) (title_found p) (console p ++ [m p]).

(** The block every handler repeats to flush [tok] as pooled text. *)
Definition flush_text (ty : TokenType.t) : Stmt :=
  tokens_push_back_offset ty ;; tok_push_back NUL ;; copy_tok_to_pool ;;
  tok_clear ;; set_partial PartialToken.NONE.

(** "Break line" *)
Definition emit_linebreak : Stmt :=
  tokens_push_back TokenType.LINEBREAK f_zero ;; line_break.

Definition partial_is (s : PartialToken.t) (p : DocumentParser) : bool :=
  PartialToken.eqb (partial_tok_type p) s.

Definition opt_set (flag : BitMask_t) (p : DocumentParser) : bool :=
  has_option (options p) flag.

Definition tok_size_is (n : nat) (p : DocumentParser) : bool :=
  Nat.eqb (length (tok p)) n.

Definition not_first_on_line (p : DocumentParser) : bool :=
  not_on_line_start (tokens (doc p)).

Definition first_on_line (p : DocumentParser) : bool :=
  on_line_start (tokens (doc p)).

(** The trailing [if (partial_tok_type == GARBAGE) putMessage(...)]. *)
Definition warn_if_garbage (w : StrayWhere) (c : ascii) : Stmt :=
  when (partial_is PartialToken.GARBAGE)
       (putMessage (fun p => stray_character w (line_num p) (line_pos p) c)).

(** *** The handlers *)

Definition BeginToken (c : ascii) : Stmt :=
  (if Ascii.eqb c CR then skip
   else if is_separator c then line_pos_incr
   else if Ascii.eqb c LF then emit_linebreak
   else if Ascii.eqb c ";" then
     set_partial PartialToken.COMMENT_SEMICOLON ;; line_pos_incr
   else if Ascii.eqb c "/" then
     ifelse (opt_set OPTION_ALLOW_SLASH_COMMENTS)
       (set_partial PartialToken.COMMENT_SLASH)
       (ifelse (fun p => opt_set OPTION_ALLOW_NAKED_STRINGS p && not_first_on_line p)
          (tok_push_back c ;; set_partial PartialToken.STRING_NAKED)
          (set_partial PartialToken.GARBAGE ;; tok_push_back c)) ;;
     line_pos_incr
   else if Ascii.eqb c DQUOTE then
     set_partial PartialToken.STRING_QUOTED ;; line_pos_incr
   else if Ascii.eqb c "." then
     tok_push_back c ;; set_partial PartialToken.NUMBER_DOT ;; line_pos_incr
   else if Ascii.eqb c "-" then
     tok_push_back c ;; set_partial PartialToken.NUMBER ;; line_pos_incr
   else if Ascii.eqb c "t" then
     tok_push_back c ;; set_partial PartialToken.BOOL_TRUE ;; line_pos_incr
   else if Ascii.eqb c "f" then
     tok_push_back c ;; set_partial PartialToken.BOOL_FALSE ;; line_pos_incr
   else
     ifelse (fun _ => isdigit c)
       (tok_push_back c ;; set_partial PartialToken.NUMBER)
       (ifelse (fun p => isalpha c && first_on_line p)
          (tok_push_back c ;; set_partial PartialToken.KEYWORD)
          (ifelse (opt_set OPTION_ALLOW_NAKED_STRINGS)
             (tok_push_back c ;; set_partial PartialToken.STRING_NAKED)
             (set_partial PartialToken.GARBAGE ;; tok_push_back c))) ;;
     line_pos_incr) ;;
  when (fun p => opt_set OPTION_FIRST_LINE_IS_TITLE p
                 && negb (title_found p)
                 && first_on_line p
                 && negb (partial_is PartialToken.NONE p)
                 && negb (partial_is PartialToken.COMMENT_SEMICOLON p)
                 && negb (partial_is PartialToken.COMMENT_SLASH p))
       (set_title_found ;; set_partial PartialToken.TITLE_STRING) ;;
  warn_if_garbage InNone c.

Definition UpdateComment (c : ascii) : Stmt :=
  if Ascii.eqb c CR then skip
  else if Ascii.eqb c LF then
    flush_text TokenType.COMMENT ;; emit_linebreak
  else if Ascii.eqb c "/" then
    when (fun p => negb (partial_is PartialToken.COMMENT_SLASH p)
                   || Nat.ltb 0 (length (tok p)))
         (tok_push_back c) ;;
    line_pos_incr
  else
    tok_push_back c ;; line_pos_incr.

Definition UpdateString (c : ascii) : Stmt :=
  (if Ascii.eqb c CR then skip
   else if is_separator c then
     ifelse (partial_is PartialToken.STRING_QUOTED)
       (tok_push_back NUL)
       (flush_text TokenType.STRING) ;;
     line_pos_incr
   else if Ascii.eqb c LF then
     when (partial_is PartialToken.STRING_QUOTED)
          (putMessage (fun p => quoted_string_interrupted (line_num p) (line_pos p))) ;;
     flush_text TokenType.STRING ;; emit_linebreak
   else if Ascii.eqb c DQUOTE then
     ifelse (partial_is PartialToken.STRING_QUOTED)
       (flush_text TokenType.STRING)
       (set_partial PartialToken.GARBAGE ;; tok_push_back c) ;;
     line_pos_incr
   else
     tok_push_back c ;; line_pos_incr) ;;
  warn_if_garbage InString c.

(** The [switch] of [UpdateNumber] has no [default] label: a character that
    matches none of its cases leaves the parser as it is. *)
Definition UpdateNumber (c : ascii) : Stmt :=
  (if Ascii.eqb c CR then skip
   else if is_separator c then
     tok_push_back NUL ;; tokens_push_back_number ;; tok_clear ;;
     set_partial PartialToken.NONE ;; line_pos_incr
   else if Ascii.eqb c LF then
     tok_push_back NUL ;; tokens_push_back_number ;; tok_clear ;;
     set_partial PartialToken.NONE ;; emit_linebreak
   else if Ascii.eqb c "-" then
     set_partial PartialToken.GARBAGE ;; tok_push_back c ;; line_pos_incr
   else if Ascii.eqb c "." then
     ifelse (partial_is PartialToken.NUMBER)
       (tok_push_back c ;; set_partial PartialToken.NUMBER_DOT)
       (set_partial PartialToken.GARBAGE ;; tok_push_back c) ;;
     line_pos_incr
   else skip) ;;
  warn_if_garbage InNumber c.

(** The fallback of a boolean that stops matching. *)
Definition downgrade_bool : Stmt :=
  ifelse (opt_set OPTION_ALLOW_NAKED_STRINGS)
    (set_partial PartialToken.STRING_NAKED)
    (set_partial PartialToken.GARBAGE).

(** [case x: if (partial_tok_type != s || tok.size() != n) {...}
    tok.push_back(c); line_pos++;] *)
Definition bool_letter (s : PartialToken.t) (n : nat) (c : ascii) : Stmt :=
  when (fun p => negb (partial_is s p) || negb (tok_size_is n p)) downgrade_bool ;;
  tok_push_back c ;; line_pos_incr.

Definition discard_bool : Stmt :=
  tok_push_back NUL ;;
  putMessage (fun p => discarding_incomplete_boolean
                         (line_num p) (line_pos p) (c_str (tok p))) ;;
  tok_clear ;; set_partial PartialToken.NONE.

Definition UpdateBool (c : ascii) : Stmt :=
  (if Ascii.eqb c CR then skip
   else if is_separator c then discard_bool ;; line_pos_incr
   else if Ascii.eqb c LF then discard_bool ;; emit_linebreak
   else if Ascii.eqb c "r" then bool_letter PartialToken.BOOL_TRUE 1 c
   else if Ascii.eqb c "u" then bool_letter PartialToken.BOOL_TRUE 2 c
   else if Ascii.eqb c "a" then bool_letter PartialToken.BOOL_FALSE 1 c
   else if Ascii.eqb c "l" then bool_letter PartialToken.BOOL_FALSE 2 c
   else if Ascii.eqb c "s" then bool_letter PartialToken.BOOL_FALSE 3 c
   else if Ascii.eqb c "e" then
     ifelse (fun p => partial_is PartialToken.BOOL_TRUE p && tok_size_is 3 p)
       (tokens_push_back TokenType.BOOL f_one ;; tok_clear ;;
        set_partial PartialToken.NONE)
       (ifelse (fun p => partial_is PartialToken.BOOL_FALSE p && tok_size_is 4 p)
          (tokens_push_back TokenType.BOOL f_zero ;; tok_clear ;;
           set_partial PartialToken.NONE)
          (downgrade_bool ;; tok_push_back c)) ;;
     line_pos_incr
   else
     downgrade_bool ;; tok_push_back c) ;;
  warn_if_garbage InBoolean c.

Definition UpdateKeyword (c : ascii) : Stmt :=
  (if Ascii.eqb c CR then skip
   else if is_separator c then
     flush_text TokenType.KEYWORD ;; line_pos_incr
   else if Ascii.eqb c LF then
     flush_text TokenType.KEYWORD ;; emit_linebreak
   else
     when (fun _ => negb (isalnum c)) (set_partial PartialToken.GARBAGE) ;;
     tok_push_back c ;; line_pos_incr) ;;
  warn_if_garbage InKeyword c.

Definition UpdateTitle (c : ascii) : Stmt :=
  if Ascii.eqb c CR then skip
  else if Ascii.eqb c LF then
    flush_text TokenType.STRING ;; emit_linebreak
  else
    tok_push_back c ;; line_pos_incr.

(** A newline shares the [case] group of the separators here: the token is
    dropped and no LINEBREAK is pushed. *)
Definition UpdateGarbage (c : ascii) : Stmt :=
  if Ascii.eqb c CR then skip
  else if is_separator c || Ascii.eqb c LF then
    tok_push_back NUL ;;
    putMessage (fun p => discarding_garbage (line_num p) (line_pos p) (c_str (tok p))) ;;
    tok_clear ;; set_partial PartialToken.NONE ;; line_pos_incr
  else
    tok_push_back c ;; line_pos_incr.

(** *** Loading *)

(** The [switch (parser.partial_tok_type)] of the character loop. *)
Definition dispatch (c : ascii) : Stmt :=
  fun p =>
    match partial_tok_type p with
    | PartialToken.NONE => BeginToken c p
    | PartialToken.COMMENT_SEMICOLON | PartialToken.COMMENT_SLASH => UpdateComment c p
    | PartialToken.STRING_QUOTED | PartialToken.STRING_NAKED => UpdateString c p
    | PartialToken.NUMBER | PartialToken.NUMBER_DOT => UpdateNumber c p
    | PartialToken.BOOL_TRUE | PartialToken.BOOL_FALSE => UpdateBool c p
    | PartialToken.KEYWORD => UpdateKeyword c p
    | PartialToken.TITLE_STRING => UpdateTitle c p
    | PartialToken.GARBAGE => UpdateGarbage c p
    end.

(** The [for] loop over one buffer. *)
Definition parse_buffer (buf : list ascii) (p : DocumentParser) : DocumentParser :=
  fold_left (fun q c => dispatch c q) buf p.

Definition LINE_BUF_MAX : nat := 10 * 1024.

(** [while (!datastream->eof()) { buf_len = datastream->read(buf, chunk); ... }]
    over a stream whose unread bytes are [stream].  A read takes up to
    [chunk] bytes, at least one while the stream is not at its end, so the
    length of the stream bounds the number of rounds. *)
Fixpoint parse_chunks (chunk rounds : nat) (stream : list ascii) (p : DocumentParser)
  : DocumentParser :=
  match stream, rounds with
  | [], _ => p
  | _, O => p
  | _, S r =>
      parse_chunks chunk r (skipn chunk stream)
                   (parse_buffer (firstn chunk stream) p)
  end.

Definition parse_stream (stream : list ascii) (p : DocumentParser) : DocumentParser :=
  parse_chunks LINE_BUF_MAX (length stream) stream p.

(** "Ensure newline at end of file" *)
Definition ensure_final_linebreak (d : GenericDocument) : GenericDocument :=
  if tokens_empty (tokens d) || negb (back_is_linebreak (tokens d))
  then mkDoc (tokens d ++ [mkToken TokenType.LINEBREAK f_zero]) (string_pool d)
  else d.

Definition LoadFromDataStream (datastream : list ascii) (opt : BitMask_t)
  : GenericDocument :=
  ensure_final_linebreak
    (doc (parse_stream datastream (new_parser opt))).

(** ** Saving *)

(** [OGRE_PLATFORM == OGRE_PLATFORM_WIN32] or not. *)
Inductive Platform : Set := PLATFORM_WIN32 | PLATFORM_OTHER.

Definition EOL_STR (pf : Platform) : list ascii :=
  match pf with
  | PLATFORM_WIN32 => [CR; LF]
  | PLATFORM_OTHER => [LF]
  end.

(** [string_pool.data() + (size_t)data], read as a C string.  An offset
    past the end of the pool, which the source would read out of bounds,
    gives the empty string. *)
Definition pool_str (pool : list ascii) (v : float) : list ascii :=
  c_str (skipn (Z.to_nat (size_of_float v)) pool).

Definition decimal (n : Z) : list ascii :=
  list_ascii_of_string (NilZero.string_of_uint (N.to_uint (Z.to_N n))).

Definition pad6 (s : list ascii) : list ascii :=
  repeat "0"%char (6 - length s) ++ s.

(** The nearest integer to [n / d], ties to even. *)
Definition round_div (n d : Z) : Z :=
  let q := n / d in
  match 2 * (n mod d) ?= d with
  | Lt => q
  | Gt => q + 1
  | Eq => if Z.even q then q else q + 1
  end.

Definition BUF_MAX : nat := 100.

(** [snprintf(buf, BUF_MAX, "%f", v)]: the float is promoted to double
    without change of value and printed with six digits after the point,
    rounded to nearest. *)
Definition format_f (v : float) : list ascii :=
  let sign (neg : bool) : list ascii := if neg then ["-"%char] else [] in
  let text :=
    match v with
    | S754_zero neg => sign neg ++ list_ascii_of_string "0.000000"
    | S754_infinity neg => sign neg ++ list_ascii_of_string "inf"
    | S754_nan => list_ascii_of_string "nan"
    | S754_finite neg m e =>
        let micro :=
          if 0 <=? e then Z.pos m * 2 ^ e * 1000000
          else round_div (Z.pos m * 1000000) (2 ^ (- e)) in
        sign neg ++ decimal (micro / 1000000) ++ ["."%char]
             ++ pad6 (decimal (micro mod 1000000))
    end in
  firstn (BUF_MAX - 1) text.

(** [snprintf(buf, BUF_MAX, "%s", v == 1.f ? "true" : "false")] *)
Definition format_bool (v : float) : list ascii :=
  list_ascii_of_string (if float_eqb v f_one then "true" else "false").

(** What has been written to the stream, and the local [separator]. *)
Record Writer : Type := mkWriter {
  written : list ascii;
  separator : list ascii
}.

Definition write (bytes : list ascii) (w : Writer) : Writer :=
  mkWriter (written w ++ bytes) (separator w).

Definition set_separator (sep : list ascii) (w : Writer) : Writer :=
  mkWriter (written w) sep.

(** One round of [for (Token& tok : tokens) switch (tok.type)]. *)
Definition save_token (pf : Platform) (pool : list ascii) (w : Writer) (t : Token)
  : Writer :=
  match type t with
  | TokenType.LINEBREAK => set_separator [] (write (EOL_STR pf) w)
  | TokenType.COMMENT => write (pool_str pool (data t)) (write [";"%char] w)
  | TokenType.STRING =>
      set_separator [","%char] (write (pool_str pool (data t)) (write (separator w) w))
  | TokenType.NUMBER =>
      set_separator [","%char] (write (format_f (data t)) (write (separator w) w))
  | TokenType.BOOL =>
      set_separator [","%char] (write (format_bool (data t)) (write (separator w) w))
  | TokenType.KEYWORD =>
      set_separator [" "%char] (write (pool_str pool (data t)) w)
  end.

Definition SaveToDataStream (pf : Platform) (d : GenericDocument) : list ascii :=
  written (fold_left (save_token pf (string_pool d)) (tokens d) (mkWriter [] [])).

(** ** Reading a document line by line *)

(** Modelled from the spec: [GenericDocReader] is declared in
    GenericFileFormat.h together with the bodies of [EndOfFile] and
    [GetTokType].  The spec gives a reader as a document and a cursor that
    indexes its token list, with the end of the stream at and after the
    length of the list. *)
Record GenericDocReader : Type := mkReader {
  reader_doc : GenericDocument;
  token_pos : N
}.

Definition EndOfFile (r : GenericDocReader) (offset : Z) : bool :=
  Z.of_nat (length (tokens (reader_doc r))) <=? Z.of_N (token_pos r) + offset.

Definition GetTokType (r : GenericDocReader) (offset : Z) : option TokenType.t :=
  if EndOfFile r offset then None
  else option_map type
         (nth_error (tokens (reader_doc r))
                    (Z.to_nat (Z.of_N (token_pos r) + offset))).

Definition is_linebreak (ty : option TokenType.t) : bool :=
  match ty with
  | Some ty => TokenType.eqb ty TokenType.LINEBREAK
  | None => false
  end.

(** The largest value of an [int]. *)
Definition INT_MAX : Z := 2147483647.

(** [count++] on an [int]: at [INT_MAX] the increment overflows, which the
    language leaves undefined; the model then has no result. *)
Definition int_incr (n : Z) : option Z :=
  if n <? INT_MAX then Some (n + 1) else None.

(** [while (!EndOfFile(count) && GetTokType(count) != LINEBREAK) count++;] *)
Fixpoint CountLineArgs_loop (rounds : nat) (r : GenericDocReader) (count : Z)
  : option Z :=
  match rounds with
  | O => Some count
  | S k =>
      if negb (EndOfFile r count) && negb (is_linebreak (GetTokType r count))
      then match int_incr count with
           | Some count' => CountLineArgs_loop k r count'
           | None => None
           end
      else Some count
  end.

(** The count and the reader as the call leaves it, or no result when the
    [int] counter overflows.  Every round of the loop stops or finds one
    more token, so the length of the token list bounds the rounds. *)
Definition CountLineArgs (r : GenericDocReader) : option (Z * GenericDocReader) :=
  option_map (fun count => (count, r))
             (CountLineArgs_loop (length (tokens (reader_doc r))) r 0).

(** ** Reading tokens back *)

(** A token with its pooled text looked up: [KEYWORD("key")], [NUMBER(2.5)]. *)
Inductive TokenValue : Type :=
| VLinebreak
| VComment (text : list ascii)
| VString (text : list ascii)
| VNumber (v : float)
| VBool (v : float)
| VKeyword (text : list ascii).

Definition token_value (pool : list ascii) (t : Token) : TokenValue :=
  match type t with
  | TokenType.LINEBREAK => VLinebreak
  | TokenType.COMMENT => VComment (pool_str pool (data t))
  | TokenType.STRING => VString (pool_str pool (data t))
  | TokenType.NUMBER => VNumber (data t)
  | TokenType.BOOL => VBool (data t)
  | TokenType.KEYWORD => VKeyword (pool_str pool (data t))
  end.

Definition token_values (d : GenericDocument) : list TokenValue :=
  map (token_value (string_pool d)) (tokens d).

Definition text (s : string) : list ascii := list_ascii_of_string s.

(** The float nearest to a decimal numeral. *)
Definition decimal_float (s : string) : float := parseReal (text s).


(** * Vocabulary of the properties *)

(** A separator or a newline: what ends a token that is not quoted. *)
Definition ends_token (c : ascii) : bool := is_separator c || Ascii.eqb c LF.

Definition no_token_end (s : list ascii) : bool :=
  forallb (fun c => negb (ends_token c)) s.

Definition no_newline (s : list ascii) : bool :=
  forallb (fun c => negb (Ascii.eqb c LF)) s.

(** The parser is inside a partial token: its state is not NONE. *)
Definition inside_token (p : DocumentParser) : bool :=
  negb (partial_is PartialToken.NONE p).

(** A run of the parser over [s] in which [P] holds of the parser after
    every character. *)
Fixpoint stays (P : DocumentParser -> bool) (s : list ascii)
         (p : DocumentParser) : bool :=
  match s with
  | [] => true
  | c :: r => P (dispatch c p) && stays P r (dispatch c p)
  end.

(** What the final check of the loader adds to a token list: a LINEBREAK
    when the list is empty or does not end in one. *)
Definition final_linebreak (l : list Token) : list Token :=
  if tokens_empty l || negb (back_is_linebreak l)
  then [mkToken TokenType.LINEBREAK f_zero]
  else [].

(** Every handler skips carriage returns. *)
Definition drop_cr (s : list ascii) : list ascii :=
  filter (fun c => negb (Ascii.eqb c CR)) s.

Definition in_comment (p : DocumentParser) : bool :=
  partial_is PartialToken.COMMENT_SEMICOLON p
  || partial_is PartialToken.COMMENT_SLASH p.

(** Every COMMENT of the list has a LINEBREAK right after it. *)
Fixpoint comments_closed (l : list Token) : bool :=
  match l with
  | [] => true
  | t :: r =>
      match type t, r with
      | TokenType.COMMENT, [] => false
      | TokenType.COMMENT, t' :: _ =>
          TokenType.eqb (type t') TokenType.LINEBREAK && comments_closed r
      | _, _ => comments_closed r
      end
  end.

(** A character with which [BeginToken] starts a token and which it stores
    in [tok]: not skipped, not a line break, not the start of a comment and
    not the opening quote. *)
Definition begins_stored_token (opt : BitMask_t) (c : ascii) : bool :=
  negb (Ascii.eqb c CR) && negb (ends_token c) && negb (Ascii.eqb c ";")
  && negb (Ascii.eqb c DQUOTE)
  && negb (Ascii.eqb c "/" && has_option opt OPTION_ALLOW_SLASH_COMMENTS).

(** How often a run of the parser enters TITLE_STRING from another state. *)
Definition enters_title (p q : DocumentParser) : bool :=
  negb (partial_is PartialToken.TITLE_STRING p)
  && partial_is PartialToken.TITLE_STRING q.

Fixpoint title_entries (s : list ascii) (p : DocumentParser) : nat :=
  match s with
  | [] => 0
  | c :: r =>
      (if enters_title p (dispatch c p) then 1 else 0)
      + title_entries r (dispatch c p)
  end.

Definition comment_or_linebreak (t : Token) : bool :=
  TokenType.eqb (type t) TokenType.COMMENT
  || TokenType.eqb (type t) TokenType.LINEBREAK.

(** The tokens of a line: those before the first LINEBREAK. *)
Fixpoint line_prefix (l : list Token) : list Token :=
  match l with
  | [] => []
  | t :: r =>
      if TokenType.eqb (type t) TokenType.LINEBREAK then []
      else t :: line_prefix r
  end.

(** While the title is still to come. *)
Definition awaiting_title (p : DocumentParser) : bool :=
  has_option (options p) OPTION_FIRST_LINE_IS_TITLE && negb (title_found p).

(** What holds of the parser until the title line begins: it is between
    tokens or inside a comment, at the start of a line, and has emitted
    comments and line breaks only. *)
Definition before_title (p : DocumentParser) : Prop :=
  (partial_tok_type p = PartialToken.NONE /\ tok p = [] \/ in_comment p = true)
  /\ on_line_start (tokens (doc p)) = true
  /\ forallb comment_or_linebreak (tokens (doc p)) = true.

(** Text without NUL and without carriage return. *)
Definition plain_text (s : list ascii) : bool :=
  forallb (fun c => negb (Ascii.eqb c NUL) && negb (Ascii.eqb c CR)) s.

(** The line [key 1 2.5 "a b" true false]. *)
Definition example_line : list ascii :=
  text "key 1 2.5 " ++ DQUOTE :: text "a b" ++ DQUOTE :: text " true false".

(** The line ["My" Title]. *)
Definition quoted_title_line : list ascii :=
  DQUOTE :: text "My" ++ DQUOTE :: text " Title".

(** ** Proof steps *)

(** Choose the handler of the current state. *)
Ltac pick_handler :=
  cbv beta iota delta [dispatch partial_tok_type];
  unfold BeginToken, UpdateComment, UpdateString, UpdateNumber,
    UpdateBool, UpdateKeyword, UpdateTitle, UpdateGarbage.

(** Run one statement on a parser given by its fields.  A sequence is
    taken apart first, so that a condition is settled before the next
    statement reads the parser. *)
Ltac run_statement :=
  match goal with
  | |- context [seq ?a ?b ?p] => change (seq a b p) with (b (a p))
  | |- context [?f (mkParser ?d ?o ?b ?ln ?lp ?st ?tf ?cs)] =>
      let t := constr:(f (mkParser d o b ln lp st tf cs)) in
      let r := eval cbv beta iota delta
                 [bool_letter discard_bool downgrade_bool flush_text
                  emit_linebreak warn_if_garbage when ifelse skip
                  tokens_push_back_offset tokens_push_back_number
                  tokens_push_back tok_push_back tok_clear copy_tok_to_pool
                  set_partial set_title_found line_pos_incr line_break
                  putMessage with_doc with_tok partial_is opt_set tok_size_is
                  first_on_line not_first_on_line
                  doc tokens string_pool tok partial_tok_type title_found
                  options line_num line_pos console PartialToken.eqb
                  negb andb orb] in t in
      progress change t with r
  end.

(** Split on a condition that contains no other condition. *)
Ltac split_if :=
  match goal with
  | |- context [if ?b then _ else _] =>
      lazymatch b with
      | context [if _ then _ else _] => fail
      | _ => destruct b eqn:?
      end
  end.

(** Rewrite with a known truth value of a condition. *)
Ltac rewrite_fact :=
  match goal with
  | E : ?b = true |- context [?b] =>
      lazymatch b with
      | true => fail
      | false => fail
      | _ => rewrite E
      end
  | E : ?b = false |- context [?b] =>
      lazymatch b with
      | true => fail
      | false => fail
      | _ => rewrite E
      end
  end.

Ltac settle :=
  repeat first
    [ run_statement
    | rewrite_fact
    | progress (cbv beta iota delta [negb andb orb])
    | split_if ].

(** Split on the tests of the character that a handler starts with. *)
Ltac split_char :=
  match goal with
  | |- context [if Ascii.eqb ?c ?x then _ else _] =>
      destruct (Ascii.eqb c x) eqn:?
  | |- context [if is_separator ?c then _ else _] =>
      destruct (is_separator c) eqn:?
  end.

Ltac char_cases :=
  repeat first
    [ rewrite_fact
    | progress (cbv beta iota delta [orb])
    | split_char ].

Ltac handler_step := pick_handler; char_cases; settle.


(** Decide the tests of a character that is given. *)
Ltac decide_test t :=
  let v := eval vm_compute in t in
  lazymatch v with
  | true => change t with true
  | false => change t with false
  end.

Ltac known_char :=
  match goal with
  | |- context [Ascii.eqb ?a ?b] => decide_test (Ascii.eqb a b)
  | |- context [is_separator ?a] => decide_test (is_separator a)
  | |- context [isdigit ?a] => decide_test (isdigit a)
  | |- context [isalpha ?a] => decide_test (isalpha a)
  | |- context [isalnum ?a] => decide_test (isalnum a)
  end.

(** Settle a conjunction of closed facts by evaluation. *)
Ltac evaluate :=
  repeat match goal with |- _ /\ _ => split end;
  vm_compute; first [reflexivity | discriminate].

(** * More of the file: seeking the next line *)

(** Modelled from the spec: [MoveNext] and the [IsTok...] tests have their
    bodies in GenericFileFormat.h.  The spec has the cursor advance by one
    token, and names the tokens with content as those of kind STRING,
    NUMBER, BOOL and KEYWORD. *)
Definition MoveNext (r : GenericDocReader) : GenericDocReader :=
  mkReader (reader_doc r) (token_pos r + 1)%N.

Definition tok_type_is (ty : TokenType.t) (r : GenericDocReader) : bool :=
  match GetTokType r 0 with
  | Some t => TokenType.eqb t ty
  | None => false
  end.

Definition IsTokString : GenericDocReader -> bool := tok_type_is TokenType.STRING.
Definition IsTokFloat : GenericDocReader -> bool := tok_type_is TokenType.NUMBER.
Definition IsTokBool : GenericDocReader -> bool := tok_type_is TokenType.BOOL.
Definition IsTokKeyword : GenericDocReader -> bool := tok_type_is TokenType.KEYWORD.

(** "Skip current line":
    [while (!EndOfFile() && GetTokType() != LINEBREAK) MoveNext();] *)
Fixpoint skip_current_line (rounds : nat) (r : GenericDocReader) : GenericDocReader :=
  match rounds with
  | O => r
  | S k =>
      if negb (EndOfFile r 0) && negb (is_linebreak (GetTokType r 0))
      then skip_current_line k (MoveNext r)
      else r
  end.

(** "Skip comments":
    [while (!EndOfFile() && !IsTokString() && !IsTokFloat() && !IsTokBool()
            && !IsTokKeyword()) MoveNext();] *)
Fixpoint skip_comments (rounds : nat) (r : GenericDocReader) : GenericDocReader :=
  match rounds with
  | O => r
  | S k =>
      if negb (EndOfFile r 0) && negb (IsTokString r) && negb (IsTokFloat r)
         && negb (IsTokBool r) && negb (IsTokKeyword r)
      then skip_comments k (MoveNext r)
      else r
  end.

(** The answer and the reader as the call leaves it.  A round of either
    loop stops or moves the cursor one token on, and stops at the end of
    the token list, so the length of the list bounds the rounds of each. *)
Definition SeekNextLine (r : GenericDocReader) : bool * GenericDocReader :=
  let rounds := length (tokens (reader_doc r)) in
  let r' := skip_comments rounds (skip_current_line rounds r) in
  (EndOfFile r' 0, r').

(** * Vocabulary of the further properties *)

(** The tokens whose payload is an offset into the pool. *)
Definition textual (t : Token) : bool :=
  match type t with
  | TokenType.COMMENT | TokenType.STRING | TokenType.KEYWORD => true
  | _ => false
  end.

Definition terminated (x : list ascii) : list ascii := x ++ [NUL].

(** A pool made of the given texts, each with its terminator. *)
Definition flat (texts : list (list ascii)) : list ascii :=
  concat (map terminated texts).

(** Where each text of such a pool starts, the first one at [s]. *)
Fixpoint starts (texts : list (list ascii)) (s : nat) : list Z :=
  match texts with
  | [] => []
  | x :: xs => Z.of_nat s :: starts xs (s + length x + 1)
  end.

Definition laid_out (d : GenericDocument) (texts : list (list ascii)) : Prop :=
  string_pool d = flat texts
  /\ map data (filter textual (tokens d)) = map float_of_size (starts texts 0).

Definition linebreaks (l : list Token) : nat :=
  length (filter (fun t => TokenType.eqb (type t) TokenType.LINEBREAK) l).

Definition line_counted (p : DocumentParser) : Prop :=
  line_num p = Z.of_nat (linebreaks (tokens (doc p))) mod SIZE_MAX1.

Definition payload_ok (t : Token) : Prop :=
  match type t with
  | TokenType.LINEBREAK => data t = f_zero
  | TokenType.BOOL => data t = f_one \/ data t = f_zero
  | _ => True
  end.

Fixpoint drop_slashes (s : list ascii) : list ascii :=
  match s with
  | c :: r => if Ascii.eqb c "/" then drop_slashes r else s
  | [] => []
  end.

(** The title override would fire on the next token. *)
Definition title_pending (p : DocumentParser) : bool :=
  has_option (options p) OPTION_FIRST_LINE_IS_TITLE && negb (title_found p)
  && on_line_start (tokens (doc p)).

(** A letter other than [t] and [f]. *)
Definition keyword_start (c : ascii) : bool :=
  isalpha c && negb (Ascii.eqb c "t") && negb (Ascii.eqb c "f").

(** What a quoted string takes and keeps as it is (but for the carriage
    return, which is skipped). *)
Definition quotable (c : ascii) : bool :=
  negb (Ascii.eqb c LF) && negb (Ascii.eqb c DQUOTE) && negb (is_separator c).

(** What a naked string takes after its first character. *)
Definition naked_char (c : ascii) : bool :=
  negb (ends_token c) && negb (Ascii.eqb c DQUOTE).

(** The beginnings of [true] and [false] that are not the whole word. *)
Definition bool_prefixes : list (list ascii) :=
  map text ["t"; "tr"; "tru"; "f"; "fa"; "fal"; "fals"]%string.

(** Two parsers that differ in line, column and console at most. *)
Definition same_tokens_ahead (p q : DocumentParser) : Prop :=
  doc p = doc q /\ options p = options q /\ tok p = tok q
  /\ partial_tok_type p = partial_tok_type q /\ title_found p = title_found q.

(** A token that carries a value: a string, a number or a boolean. *)
Definition is_value (t : Token) : bool :=
  match type t with
  | TokenType.STRING | TokenType.NUMBER | TokenType.BOOL => true
  | _ => false
  end.

(** The text that the writer gives a value. *)
Definition render (pool : list ascii) (t : Token) : list ascii :=
  match type t with
  | TokenType.NUMBER => format_f (data t)
  | TokenType.BOOL => format_bool (data t)
  | _ => pool_str pool (data t)
  end.

(** Values in a row: the first after [sep], the others after a comma. *)
Definition joined (sep : list ascii) (pool : list ascii) (args : list Token)
  : list ascii :=
  match args with
  | [] => []
  | a :: r => sep ++ render pool a
              ++ concat (map (fun t => ","%char :: render pool t) r)
  end.

(** The loop of [SaveToDataStream], from any state of the writer. *)
Definition save_tokens (pf : Platform) (pool : list ascii) (l : list Token)
           (w : Writer) : Writer :=
  fold_left (save_token pf pool) l w.

(** A token with content: what [SeekNextLine] stops at. *)
Definition is_content (t : Token) : bool :=
  match type t with
  | TokenType.STRING | TokenType.NUMBER | TokenType.BOOL | TokenType.KEYWORD => true
  | _ => false
  end.

(** The tokens before the first one with content. *)
Fixpoint blank_prefix (l : list Token) : list Token :=
  match l with
  | [] => []
  | t :: r => if is_content t then [] else t :: blank_prefix r
  end.

Definition reader_at (d : GenericDocument) (pos : nat) : GenericDocReader :=
  mkReader d (N.of_nat pos).
(** * Properties *)

(** ** Basic facts *)

Lemma PartialToken_eqb_eq (a b : PartialToken.t) :
  PartialToken.eqb a b = true <-> a = b.
Proof. destruct a, b; simpl; split; intro H; try reflexivity; discriminate. Qed.

Lemma TokenType_eqb_eq (a b : TokenType.t) :
  TokenType.eqb a b = true <-> a = b.
Proof. destruct a, b; simpl; split; intro H; try reflexivity; discriminate. Qed.

Lemma parse_buffer_app (a b : list ascii) (p : DocumentParser) :
  parse_buffer (a ++ b) p = parse_buffer b (parse_buffer a p).
Proof. unfold parse_buffer. apply fold_left_app. Qed.

Lemma parse_buffer_cons (c : ascii) (s : list ascii) (p : DocumentParser) :
  parse_buffer (c :: s) p = parse_buffer s (dispatch c p).
Proof. reflexivity. Qed.

(** Feed the next character of the buffer to the parser. *)
Ltac feed :=
  rewrite parse_buffer_cons; pick_handler; repeat known_char;
  cbv beta iota; settle.

(** Reading the stream in chunks feeds the characters to [dispatch] in
    their order, whatever the size of a chunk. *)
Lemma parse_chunks_all (chunk : nat) :
  (0 < chunk)%nat ->
  forall (rounds : nat) (stream : list ascii) (p : DocumentParser),
    (length stream <= rounds)%nat ->
    parse_chunks chunk rounds stream p = parse_buffer stream p.
Proof.
  intros Hc rounds.
  induction rounds as [|r IH]; intros stream p Hlen.
  - destruct stream; [reflexivity | simpl in Hlen; lia].
  - destruct stream as [|c s]; [reflexivity|].
    cbn [parse_chunks].
    rewrite IH.
    + rewrite <- parse_buffer_app. now rewrite firstn_skipn.
    + rewrite length_skipn. simpl length in *. lia.
Qed.

Lemma parse_stream_all (stream : list ascii) (p : DocumentParser) :
  parse_stream stream p = parse_buffer stream p.
Proof.
  unfold parse_stream. apply parse_chunks_all.
  - unfold LINE_BUF_MAX. lia.
  - lia.
Qed.

Lemma LoadFromDataStream_eq (s : list ascii) (opt : BitMask_t) :
  LoadFromDataStream s opt =
  ensure_final_linebreak (doc (parse_buffer s (new_parser opt))).
Proof. unfold LoadFromDataStream. now rewrite parse_stream_all. Qed.

Lemma back_type_app (l : list Token) (t : Token) :
  back_type (l ++ [t]) = Some (type t).
Proof. unfold back_type. now rewrite rev_unit. Qed.

Lemma back_is_linebreak_inv (l : list Token) :
  back_is_linebreak l = true ->
  exists init t, l = init ++ [t] /\ type t = TokenType.LINEBREAK.
Proof.
  unfold back_is_linebreak, back_type. intro H.
  destruct (rev l) as [|t r] eqn:E; [discriminate|].
  exists (rev r), t. split.
  - rewrite <- (rev_involutive l), E. reflexivity.
  - now apply TokenType_eqb_eq.
Qed.

Lemma parse_buffer_snoc (s : list ascii) (c : ascii) (p : DocumentParser) :
  parse_buffer (s ++ [c]) p = dispatch c (parse_buffer s p).
Proof. now rewrite parse_buffer_app. Qed.

Lemma on_line_start_app (l : list Token) (t : Token) :
  on_line_start (l ++ [t]) = TokenType.eqb (type t) TokenType.LINEBREAK.
Proof.
  unfold on_line_start, tokens_empty, back_is_linebreak.
  rewrite back_type_app, length_app. cbn [length].
  replace (length l + 1)%nat with (S (length l)) by lia. reflexivity.
Qed.

Lemma not_on_line_start_negb (l : list Token) :
  not_on_line_start l = negb (on_line_start l).
Proof.
  unfold not_on_line_start, on_line_start.
  now destruct (tokens_empty l), (back_is_linebreak l).
Qed.

Lemma ends_token_false (c : ascii) :
  ends_token c = false -> is_separator c = false /\ Ascii.eqb c LF = false.
Proof. unfold ends_token. intro H. now apply orb_false_iff in H. Qed.

Lemma ends_token_cases (d : ascii) :
  ends_token d = true -> d = " "%char \/ d = ","%char \/ d = TAB \/ d = LF.
Proof.
  unfold ends_token, is_separator. intro H.
  repeat (apply orb_true_iff in H; destruct H as [H | H]);
    apply Ascii.eqb_eq in H; auto.
Qed.

Lemma c_str_terminated (s : list ascii) : c_str (s ++ [NUL]) = c_str s.
Proof.
  induction s as [|c s IH]; [reflexivity|].
  cbn [app c_str]. now rewrite IH.
Qed.

Lemma drop_cr_cons (c : ascii) (s : list ascii) :
  drop_cr (c :: s) = drop_cr [c] ++ drop_cr s.
Proof. unfold drop_cr. cbn [filter]. now destruct (negb (Ascii.eqb c CR)). Qed.

Lemma plain_text_drop_cr (s : list ascii) :
  plain_text s = true -> drop_cr s = s /\ c_str s = s.
Proof.
  induction s as [|c s IH]; intro H; [split; reflexivity|].
  cbn in H. apply andb_true_iff in H. destruct H as [H Hs].
  apply andb_true_iff in H. destruct H as [Hn Hc].
  destruct (IH Hs) as [I1 I2].
  unfold drop_cr in *. cbn [filter c_str]. rewrite Hc.
  apply negb_true_iff in Hn. rewrite Hn, I1, I2. split; reflexivity.
Qed.

Lemma pool_str_appended (pool s : list ascii) (v : float) :
  size_of_float v = Z.of_nat (length pool) ->
  pool_str (pool ++ s ++ [NUL]) v = c_str s.
Proof.
  intro H. unfold pool_str. rewrite H, Nat2Z.id, skipn_app, skipn_all.
  rewrite Nat.sub_diag. cbn [skipn app]. apply c_str_terminated.
Qed.

Lemma dispatch_options (c : ascii) (p : DocumentParser) :
  options (dispatch c p) = options p.
Proof.
  destruct p as [[tk pool] o b ln lp st tf cs].
  destruct st; handler_step; reflexivity.
Qed.

Lemma parse_buffer_options (s : list ascii) :
  forall p, options (parse_buffer s p) = options p.
Proof.
  induction s as [|c s IH]; intro p; [reflexivity|].
  rewrite parse_buffer_cons, IH. apply dispatch_options.
Qed.

(** ** The last token *)

(** C4: for every input and every option mask the token list of the loaded
    document is not empty and its last token is a LINEBREAK. *)
Theorem C4_tokens_end_with_linebreak (s : list ascii) (opt : BitMask_t) :
  exists (init : list Token) (t : Token),
    tokens (LoadFromDataStream s opt) = init ++ [t]
    /\ type t = TokenType.LINEBREAK.
Proof.
  rewrite LoadFromDataStream_eq.
  set (d := doc (parse_buffer s (new_parser opt))).
  unfold ensure_final_linebreak.
  destruct (tokens_empty (tokens d) || negb (back_is_linebreak (tokens d))) eqn:E.
  - exists (tokens d), (mkToken TokenType.LINEBREAK f_zero). split; reflexivity.
  - apply orb_false_iff in E. destruct E as [_ E].
    apply negb_false_iff in E. now apply back_is_linebreak_inv.
Qed.

(** ** The end of the input *)

(** A character pushes a token only when it ends one: whenever it leaves
    the parser inside a partial token, the document is as it was.  A
    transition from one partial token to another (a keyword or a number
    that turns into garbage, a boolean that turns into a naked string)
    pushes nothing. *)
Lemma dispatch_none_or_same (c : ascii) (p : DocumentParser) :
  partial_tok_type (dispatch c p) = PartialToken.NONE
  \/ doc (dispatch c p) = doc p.
Proof.
  destruct p as [[tk pool] o b ln lp st tf cs].
  destruct st; handler_step;
    first [left; reflexivity | right; reflexivity].
Qed.

Lemma dispatch_inside (c : ascii) (p : DocumentParser) :
  inside_token (dispatch c p) = true -> doc (dispatch c p) = doc p.
Proof.
  unfold inside_token, partial_is. intro H.
  destruct (dispatch_none_or_same c p) as [E | E]; [|exact E].
  rewrite E in H. discriminate H.
Qed.

Lemma stays_inside_doc (s : list ascii) :
  forall p, stays inside_token s p = true -> doc (parse_buffer s p) = doc p.
Proof.
  induction s as [|c s IH]; intros p H; [reflexivity|].
  cbn [stays] in H. apply andb_true_iff in H. destruct H as [Hc Hs].
  rewrite parse_buffer_cons, IH by assumption.
  now apply dispatch_inside.
Qed.

Lemma stays_snoc (P : DocumentParser -> bool) (s : list ascii) (c : ascii) :
  forall p, stays P (s ++ [c]) p
            = stays P s p && P (parse_buffer (s ++ [c]) p).
Proof.
  induction s as [|a s IH]; intro p.
  - cbn. now rewrite andb_true_r.
  - cbn [app stays]. rewrite IH, parse_buffer_cons, andb_assoc. reflexivity.
Qed.

Lemma stays_weaken (P Q : DocumentParser -> bool) :
  (forall p, P p = true -> Q p = true) ->
  forall s p, stays P s p = true -> stays Q s p = true.
Proof.
  intros HPQ s. induction s as [|c s IH]; intros p H; [reflexivity|].
  cbn [stays] in *. apply andb_true_iff in H. destruct H as [Hc Hs].
  now rewrite (HPQ _ Hc), (IH _ Hs).
Qed.

(** A run that ends where [P] holds and began where it did not has a last
    character at which [P] came to hold. *)
Lemma last_entry (P : DocumentParser -> bool) (p : DocumentParser) :
  P p = false ->
  forall s, P (parse_buffer s p) = true ->
  exists (s1 : list ascii) (c : ascii) (s2 : list ascii),
    s = s1 ++ c :: s2
    /\ P (parse_buffer s1 p) = false
    /\ stays P (c :: s2) (parse_buffer s1 p) = true.
Proof.
  intros Hp s. induction s as [|x s IH] using rev_ind; intro H.
  - cbn in H. congruence.
  - destruct (P (parse_buffer s p)) eqn:E.
    + destruct (IH eq_refl) as (s1 & c & s2 & -> & H1 & H2).
      exists s1, c, (s2 ++ [x]). split; [now rewrite <- app_assoc|].
      split; [exact H1|].
      change (c :: s2 ++ [x]) with ((c :: s2) ++ [x]).
      rewrite stays_snoc, H2, <- parse_buffer_app, app_assoc.
      exact H.
    + exists s, x, []. split; [reflexivity|]. split; [exact E|].
      cbn [stays]. rewrite <- parse_buffer_snoc, H. reflexivity.
Qed.

Lemma LoadFromDataStream_tokens (s : list ascii) (opt : BitMask_t) :
  tokens (LoadFromDataStream s opt)
  = tokens (doc (parse_buffer s (new_parser opt)))
    ++ final_linebreak (tokens (doc (parse_buffer s (new_parser opt))))
  /\ string_pool (LoadFromDataStream s opt)
     = string_pool (doc (parse_buffer s (new_parser opt))).
Proof.
  rewrite LoadFromDataStream_eq. unfold ensure_final_linebreak, final_linebreak.
  destruct (tokens_empty _ || negb _); cbn [tokens string_pool];
    rewrite ?app_nil_r; split; reflexivity.
Qed.

(** C3, as the code has it: the loader does not flush at the end of the
    input.  Whenever the input ends while the parser is inside a partial
    token, of whatever kind, there is a character [c] of the input at which
    that token began - the parser was between tokens before it and has been
    inside a partial token ever since - and the loaded document is the one
    loaded from the input cut off before [c]: its tokens are those pushed
    before the token began, followed by the final LINEBREAK where the list
    is empty or does not end in one, and its pool is the pool as it was.
    The bytes [key] load as a sole LINEBREAK. *)
Theorem C3_unfinished_token_is_dropped (opt : BitMask_t) (s : list ascii) :
  inside_token (parse_buffer s (new_parser opt)) = true ->
  exists (s1 : list ascii) (c : ascii) (s2 : list ascii),
    s = s1 ++ c :: s2
    /\ partial_tok_type (parse_buffer s1 (new_parser opt)) = PartialToken.NONE
    /\ stays inside_token (c :: s2) (parse_buffer s1 (new_parser opt)) = true
    /\ LoadFromDataStream s opt = LoadFromDataStream s1 opt
    /\ tokens (LoadFromDataStream s opt)
       = tokens (doc (parse_buffer s1 (new_parser opt)))
         ++ final_linebreak (tokens (doc (parse_buffer s1 (new_parser opt))))
    /\ string_pool (LoadFromDataStream s opt)
       = string_pool (doc (parse_buffer s1 (new_parser opt))).
Proof.
  intro H.
  destruct (last_entry inside_token (new_parser opt) eq_refl s H)
    as (s1 & c & s2 & -> & H1 & H2).
  exists s1, c, s2.
  assert (E : LoadFromDataStream (s1 ++ c :: s2) opt = LoadFromDataStream s1 opt).
  { rewrite !LoadFromDataStream_eq, parse_buffer_app.
    now rewrite stays_inside_doc. }
  split; [reflexivity|]. split.
  { unfold inside_token, partial_is in H1. apply negb_false_iff in H1.
    now apply PartialToken_eqb_eq. }
  split; [exact H2|]. split; [exact E|].
  rewrite E. apply LoadFromDataStream_tokens.
Qed.

Lemma C3_unfinished_token_is_dropped_witness :
  (exists (s1 : list ascii) (c : ascii) (s2 : list ascii),
      text "set test" = s1 ++ c :: s2
      /\ partial_tok_type (parse_buffer s1 (new_parser OPTION_ALLOW_NAKED_STRINGS))
         = PartialToken.NONE
      /\ stays inside_token (c :: s2)
               (parse_buffer s1 (new_parser OPTION_ALLOW_NAKED_STRINGS)) = true
      /\ LoadFromDataStream (text "set test") OPTION_ALLOW_NAKED_STRINGS
         = LoadFromDataStream s1 OPTION_ALLOW_NAKED_STRINGS
      /\ tokens (LoadFromDataStream (text "set test") OPTION_ALLOW_NAKED_STRINGS)
         = tokens (doc (parse_buffer s1 (new_parser OPTION_ALLOW_NAKED_STRINGS)))
           ++ final_linebreak
                (tokens (doc (parse_buffer s1
                                (new_parser OPTION_ALLOW_NAKED_STRINGS))))
      /\ string_pool (LoadFromDataStream (text "set test") OPTION_ALLOW_NAKED_STRINGS)
         = string_pool (doc (parse_buffer s1
                               (new_parser OPTION_ALLOW_NAKED_STRINGS))))
  /\ token_values (LoadFromDataStream (text "set test") OPTION_ALLOW_NAKED_STRINGS)
     = [VKeyword (text "set"); VLinebreak]
  /\ token_values (LoadFromDataStream (text "set 1 24.5") 0)
     = [VKeyword (text "set"); VNumber (decimal_float "1"); VLinebreak]
  /\ token_values (LoadFromDataStream (text "te") 0) = [VLinebreak]
  /\ token_values (LoadFromDataStream (text "feet") 0) = [VLinebreak].
Proof.
  split.
  - exact (C3_unfinished_token_is_dropped
             OPTION_ALLOW_NAKED_STRINGS (text "set test") eq_refl).
  - repeat split; vm_compute; reflexivity.
Defined.

(** C3, as the spec has it, fails on the bytes [key]: the document holds a
    LINEBREAK and no KEYWORD. *)
Lemma C3_keyword_at_end_of_input :
  token_values (LoadFromDataStream (text "key") 0) = [VLinebreak]
  /\ token_values (LoadFromDataStream (text "key") 0)
     <> [VKeyword (text "key"); VLinebreak].
Proof. evaluate. Qed.

(** ** Comments *)

Lemma comments_closed_app (a b : list Token) :
  comments_closed a = true -> comments_closed b = true ->
  comments_closed (a ++ b) = true.
Proof.
  induction a as [|t r IH]; intros Ha Hb; [assumption|].
  cbn [app comments_closed] in *.
  destruct (type t); destruct r as [|t' r']; cbn [app] in *;
    try discriminate; try (apply IH; assumption); try assumption.
  apply andb_true_iff in Ha. destruct Ha as [H1 H2].
  rewrite H1. cbn. apply IH; assumption.
Qed.

(** What one character appends to the token list never ends in a COMMENT. *)
Lemma dispatch_emits (c : ascii) (p : DocumentParser) :
  exists ext, tokens (doc (dispatch c p)) = tokens (doc p) ++ ext
              /\ comments_closed ext = true.
Proof.
  destruct p as [[tk pool] o b ln lp st tf cs].
  destruct st; handler_step; rewrite <- ?app_assoc; cbn [app];
    first [ exists []; rewrite app_nil_r; split; reflexivity
          | eexists; split; [reflexivity | reflexivity] ].
Qed.

Lemma parse_buffer_emits (s : list ascii) :
  forall p, exists ext,
    tokens (doc (parse_buffer s p)) = tokens (doc p) ++ ext
    /\ comments_closed ext = true.
Proof.
  induction s as [|c s IH]; intro p.
  - exists []. now rewrite app_nil_r.
  - rewrite parse_buffer_cons.
    destruct (IH (dispatch c p)) as [e2 [E2 C2]].
    destruct (dispatch_emits c p) as [e1 [E1 C1]].
    exists (e1 ++ e2). rewrite E2, E1, app_assoc. split; [reflexivity|].
    now apply comments_closed_app.
Qed.

Lemma comments_closed_nth (l : list Token) :
  comments_closed l = true ->
  forall i t, nth_error l i = Some t -> type t = TokenType.COMMENT ->
  exists t', nth_error l (S i) = Some t' /\ type t' = TokenType.LINEBREAK.
Proof.
  induction l as [|a r IH]; intros H i t Hn Ht.
  - destruct i; discriminate.
  - destruct i as [|i].
    + cbn in Hn. injection Hn as ->. cbn [comments_closed] in H. rewrite Ht in H.
      destruct r as [|t' r']; [discriminate|].
      apply andb_true_iff in H. destruct H as [H _].
      exists t'. split; [reflexivity | now apply TokenType_eqb_eq].
    + cbn [nth_error] in Hn. apply (IH) in Hn; [exact Hn| |assumption].
      cbn [comments_closed] in H.
      destruct (type a); destruct r; try assumption; try discriminate;
        try reflexivity.
      apply andb_true_iff in H. apply H.
Qed.

Lemma comment_continues (c : ascii) (p : DocumentParser) :
  in_comment p = true -> Ascii.eqb c LF = false ->
  doc (dispatch c p) = doc p /\ in_comment (dispatch c p) = true.
Proof.
  destruct p as [[tk pool] o b ln lp st tf cs].
  unfold in_comment. intros H Hc.
  destruct st; try discriminate H; handler_step; split; reflexivity.
Qed.

Lemma comment_stays_open (s : list ascii) :
  no_newline s = true ->
  forall p, in_comment p = true -> doc (parse_buffer s p) = doc p.
Proof.
  induction s as [|c s IH]; intros Hs p Hp; [reflexivity|].
  cbn in Hs. apply andb_true_iff in Hs. destruct Hs as [Hc Hs].
  apply negb_true_iff in Hc.
  destruct (comment_continues c p Hp Hc) as [Hd Hi].
  rewrite parse_buffer_cons, IH by assumption. exact Hd.
Qed.

(** A comment begins between tokens, at a semicolon or a slash, and that
    character pushes nothing. *)
Lemma comment_entered (c : ascii) (p : DocumentParser) :
  in_comment p = false -> in_comment (dispatch c p) = true ->
  partial_tok_type p = PartialToken.NONE
  /\ (c = ";"%char \/ c = "/"%char).
Proof.
  destruct p as [[tk pool] o b ln lp st tf cs].
  unfold in_comment. intro H0.
  destruct st; try discriminate H0; handler_step; intro H;
    try discriminate H; split; try reflexivity;
    first [ left; now apply Ascii.eqb_eq
          | right; now apply Ascii.eqb_eq ].
Qed.

(** The newline closes a comment. *)
Lemma comment_closed_by_newline (p : DocumentParser) :
  in_comment p = true -> in_comment (dispatch LF p) = false.
Proof.
  destruct p as [[tk pool] o b ln lp st tf cs].
  unfold in_comment. intro H.
  destruct st; try discriminate H;
    pick_handler; repeat known_char; cbv beta iota; settle; reflexivity.
Qed.

Lemma comment_run_has_no_newline (s : list ascii) :
  forall p, in_comment p = true -> stays in_comment s p = true ->
            no_newline s = true.
Proof.
  induction s as [|c s IH]; intros p Hp H; [reflexivity|].
  cbn [stays] in H. apply andb_true_iff in H. destruct H as [Hc Hs].
  cbn [no_newline forallb]. fold (no_newline s).
  rewrite (IH _ Hc Hs), andb_true_r.
  destruct (Ascii.eqb_spec c LF) as [->|]; [|reflexivity].
  rewrite (comment_closed_by_newline p Hp) in Hc. discriminate Hc.
Qed.

Lemma in_comment_inside (p : DocumentParser) :
  in_comment p = true -> inside_token p = true.
Proof.
  destruct p as [d o b ln lp st tf cs].
  unfold in_comment, inside_token, partial_is. cbn [partial_tok_type].
  now destruct st.
Qed.

(** A COMMENT is pushed by the newline that ends the comment, together
    with the LINEBREAK of that newline, and by nothing else. *)
Lemma comment_flushed_with_linebreak (c : ascii) (p : DocumentParser) :
  exists ext,
    tokens (doc (dispatch c p)) = tokens (doc p) ++ ext
    /\ (forallb (fun t => negb (TokenType.eqb (type t) TokenType.COMMENT)) ext
        = true
        \/ c = LF /\ in_comment p = true
           /\ map type ext = [TokenType.COMMENT; TokenType.LINEBREAK]).
Proof.
  destruct p as [[tk pool] o b ln lp st tf cs].
  destruct st; handler_step; rewrite <- ?app_assoc; cbn [app];
    first [ exists []; rewrite app_nil_r; split;
            [reflexivity | left; reflexivity]
          | eexists; split;
            [ reflexivity
            | first [ left; reflexivity
                    | right; split; [now apply Ascii.eqb_eq|];
                      split; reflexivity ] ] ].
Qed.

(** C10: in the token list of every loaded document a COMMENT token is
    followed at once by a LINEBREAK token; a character that pushes a COMMENT
    is the newline that ends an open comment, and it pushes the COMMENT and
    the LINEBREAK together; while a comment is open, characters other than
    the newline leave the document as it is; and a comment that is still
    open when the input ends is not emitted: the
    comment began between tokens at a semicolon or slash [c], no newline
    came after it, and the loaded document is the one loaded from the input
    cut off before [c] - the tokens pushed before the comment began,
    followed by the final LINEBREAK where the list is empty or does not end
    in one, and no COMMENT for the open comment. *)
Theorem C10_comment_then_linebreak (s : list ascii) (opt : BitMask_t) :
  (forall (i : nat) (t : Token),
      nth_error (tokens (LoadFromDataStream s opt)) i = Some t ->
      type t = TokenType.COMMENT ->
      exists t', nth_error (tokens (LoadFromDataStream s opt)) (S i) = Some t'
                 /\ type t' = TokenType.LINEBREAK)
  /\ (forall rest : list ascii,
         in_comment (parse_buffer s (new_parser opt)) = true ->
         no_newline rest = true ->
         LoadFromDataStream (s ++ rest) opt = LoadFromDataStream s opt)
  /\ (in_comment (parse_buffer s (new_parser opt)) = true ->
      exists (s1 : list ascii) (c : ascii) (s2 : list ascii),
        s = s1 ++ c :: s2
        /\ partial_tok_type (parse_buffer s1 (new_parser opt)) = PartialToken.NONE
        /\ (c = ";"%char \/ c = "/"%char)
        /\ no_newline s2 = true
        /\ LoadFromDataStream s opt = LoadFromDataStream s1 opt
        /\ tokens (LoadFromDataStream s opt)
           = tokens (doc (parse_buffer s1 (new_parser opt)))
             ++ final_linebreak
                  (tokens (doc (parse_buffer s1 (new_parser opt)))))
  /\ (forall (c : ascii) (p : DocumentParser),
         exists ext,
           tokens (doc (dispatch c p)) = tokens (doc p) ++ ext
           /\ (forallb (fun t => negb (TokenType.eqb (type t) TokenType.COMMENT))
                       ext = true
               \/ c = LF /\ in_comment p = true
                  /\ map type ext = [TokenType.COMMENT; TokenType.LINEBREAK])).
Proof.
  split; [|split; [|split]].
  4:{ exact comment_flushed_with_linebreak. }
  - apply comments_closed_nth.
    rewrite LoadFromDataStream_eq.
    destruct (parse_buffer_emits s (new_parser opt)) as [ext [E C]].
    cbn [new_parser doc tokens app] in E.
    unfold ensure_final_linebreak.
    destruct (tokens_empty _ || negb _); cbn [tokens]; rewrite E; [|exact C].
    now apply comments_closed_app.
  - intros rest Hc Hr.
    rewrite !LoadFromDataStream_eq, parse_buffer_app.
    now rewrite comment_stays_open.
  - intro H.
    destruct (last_entry in_comment (new_parser opt) eq_refl s H)
      as (s1 & c & s2 & -> & H1 & H2).
    exists s1, c, s2.
    assert (H3 := H2). cbn [stays] in H3.
    apply andb_true_iff in H3. destruct H3 as [Hc Hs].
    destruct (comment_entered c _ H1 Hc) as [Hn Hsc].
    assert (E : LoadFromDataStream (s1 ++ c :: s2) opt
                = LoadFromDataStream s1 opt).
    { rewrite !LoadFromDataStream_eq, parse_buffer_app.
      rewrite stays_inside_doc; [reflexivity|].
      revert H2. apply stays_weaken. exact in_comment_inside. }
    split; [reflexivity|]. split; [exact Hn|]. split; [exact Hsc|].
    split; [exact (comment_run_has_no_newline s2 _ Hc Hs)|].
    split; [exact E|].
    rewrite E. apply LoadFromDataStream_tokens.
Qed.

Lemma C10_comment_then_linebreak_witness :
  LoadFromDataStream (text "set 1 ; note" ++ text " more") 0
  = LoadFromDataStream (text "set 1 ; note") 0
  /\ (exists (s1 : list ascii) (c : ascii) (s2 : list ascii),
        text "set 1 ; note" = s1 ++ c :: s2
        /\ partial_tok_type (parse_buffer s1 (new_parser 0)) = PartialToken.NONE
        /\ (c = ";"%char \/ c = "/"%char)
        /\ no_newline s2 = true
        /\ LoadFromDataStream (text "set 1 ; note") 0 = LoadFromDataStream s1 0
        /\ tokens (LoadFromDataStream (text "set 1 ; note") 0)
           = tokens (doc (parse_buffer s1 (new_parser 0)))
             ++ final_linebreak
                  (tokens (doc (parse_buffer s1 (new_parser 0)))))
  /\ token_values (LoadFromDataStream (text "set 1 ; note") 0)
     = [VKeyword (text "set"); VNumber (decimal_float "1"); VLinebreak].
Proof.
  split; [|split].
  - apply (proj1 (proj2 (C10_comment_then_linebreak (text "set 1 ; note") 0)));
      reflexivity.
  - exact (proj1 (proj2 (proj2 (C10_comment_then_linebreak
                                  (text "set 1 ; note") 0)))
             eq_refl).
  - vm_compute. reflexivity.
Defined.

(** ** Garbage *)

Lemma garbage_continues (c : ascii) (p : DocumentParser) :
  partial_tok_type p = PartialToken.GARBAGE -> ends_token c = false ->
  partial_tok_type (dispatch c p) = PartialToken.GARBAGE
  /\ doc (dispatch c p) = doc p
  /\ tok (dispatch c p) = tok p ++ drop_cr [c]
  /\ console (dispatch c p) = console p
  /\ line_num (dispatch c p) = line_num p.
Proof.
  destruct p as [[tk pool] o b ln lp st tf cs]. cbn [partial_tok_type].
  intros -> H. apply ends_token_false in H. destruct H as [Hs Hl].
  unfold drop_cr. cbn [filter].
  handler_step; rewrite ?app_nil_r; repeat split; reflexivity.
Qed.

Lemma garbage_run (s : list ascii) :
  no_token_end s = true ->
  forall p, partial_tok_type p = PartialToken.GARBAGE ->
    partial_tok_type (parse_buffer s p) = PartialToken.GARBAGE
    /\ doc (parse_buffer s p) = doc p
    /\ tok (parse_buffer s p) = tok p ++ drop_cr s
    /\ console (parse_buffer s p) = console p
    /\ line_num (parse_buffer s p) = line_num p.
Proof.
  induction s as [|c s IH]; intros Hs p Hp.
  - cbn. now rewrite app_nil_r.
  - cbn in Hs. apply andb_true_iff in Hs. destruct Hs as [Hc Hs].
    apply negb_true_iff in Hc.
    destruct (garbage_continues c p Hp Hc) as (G1 & G2 & G3 & G4 & G5).
    destruct (IH Hs (dispatch c p) G1) as (I1 & I2 & I3 & I4 & I5).
    rewrite parse_buffer_cons.
    repeat split; try congruence.
    rewrite (drop_cr_cons c s), I3, G3, <- app_assoc. reflexivity.
Qed.

Lemma garbage_discarded (d : ascii) (p : DocumentParser) :
  partial_tok_type p = PartialToken.GARBAGE -> ends_token d = true ->
  partial_tok_type (dispatch d p) = PartialToken.NONE
  /\ doc (dispatch d p) = doc p
  /\ tok (dispatch d p) = []
  /\ console (dispatch d p) =
     console p ++ [discarding_garbage (line_num p) (line_pos p) (c_str (tok p))].
Proof.
  destruct p as [[tk pool] o b ln lp st tf cs]. cbn [partial_tok_type].
  intros -> H.
  assert (Hcr : Ascii.eqb d CR = false).
  { destruct (Ascii.eqb_spec d CR) as [->|]; [discriminate H | reflexivity]. }
  unfold ends_token in H.
  handler_step; rewrite ?c_str_terminated; repeat split; reflexivity.
Qed.

(** ** Keywords *)

(** C5, as the code has it: a character that is not alphanumeric (and is
    neither a carriage return, a separator nor a newline) arriving in state
    KEYWORD is accumulated, reported as a stray character and turns the
    token into GARBAGE; the next separator or newline then discards the
    whole token with a second message, and no KEYWORD token is pushed. *)
Theorem C5_malformed_keyword_is_discarded
    (p : DocumentParser) (c d : ascii) (rest : list ascii) :
  partial_tok_type p = PartialToken.KEYWORD ->
  isalnum c = false ->
  Ascii.eqb c CR = false ->
  ends_token c = false ->
  no_token_end rest = true ->
  ends_token d = true ->
  let p1 := dispatch c p in
  let p2 := parse_buffer (rest ++ [d]) p1 in
  partial_tok_type p1 = PartialToken.GARBAGE
  /\ tok p1 = tok p ++ [c]
  /\ doc p1 = doc p
  /\ console p1 =
     console p ++ [stray_character InKeyword (line_num p) (size_incr (line_pos p)) c]
  /\ partial_tok_type p2 = PartialToken.NONE
  /\ tok p2 = []
  /\ doc p2 = doc p
  /\ exists pos,
       console p2 =
       console p1 ++ [discarding_garbage (line_num p) pos
                        (c_str (tok p ++ c :: drop_cr rest))].
Proof.
  intros Hk Hal Hcr Hend Hrest Hd p1 p2.
  assert (S1 : partial_tok_type p1 = PartialToken.GARBAGE
               /\ tok p1 = tok p ++ [c] /\ doc p1 = doc p
               /\ console p1 = console p ++
                    [stray_character InKeyword (line_num p) (size_incr (line_pos p)) c]
               /\ line_num p1 = line_num p).
  { subst p1 p2. destruct p as [[tk pool] o b ln lp st tf cs].
    cbn [partial_tok_type] in Hk. subst st.
    apply ends_token_false in Hend. destruct Hend as [Hs Hl].
    handler_step; repeat split; reflexivity. }
  destruct S1 as (A1 & A2 & A3 & A4 & A5).
  destruct (garbage_run rest Hrest p1 A1) as (B1 & B2 & B3 & B4 & B5).
  destruct (garbage_discarded d _ B1 Hd) as (C1 & C2 & C3 & C4).
  assert (E : p2 = dispatch d (parse_buffer rest p1)).
  { subst p2. now rewrite parse_buffer_app. }
  rewrite E.
  repeat split; try assumption; try congruence.
  exists (line_pos (parse_buffer rest p1)).
  rewrite C4, B4, B5, A5, B3, A2, <- app_assoc. reflexivity.
Qed.

Lemma C5_malformed_keyword_is_discarded_witness :
  let p := parse_buffer (text "k") (new_parser 0) in
  doc (parse_buffer (text "y" ++ [" "%char]) (dispatch "#"%char p)) = doc p.
Proof.
  intro p.
  exact (proj1 (proj2 (proj2 (proj2 (proj2 (proj2 (proj2
           (C5_malformed_keyword_is_discarded p "#"%char " "%char (text "y")
              eq_refl eq_refl eq_refl eq_refl eq_refl eq_refl)))))))).
Defined.

(** C5, as the spec has it, fails on [k#y]: the keyword state is left at
    the [#], and the separator after [k#y] pushes no token at all. *)
Lemma C5_malformed_keyword_not_flushed :
  partial_tok_type (parse_buffer (text "k") (new_parser 0)) = PartialToken.KEYWORD
  /\ isalnum "#"%char = false
  /\ tokens (doc (parse_buffer (text "k#y ") (new_parser 0))) = []
  /\ token_values (LoadFromDataStream (text "k#y 1" ++ [LF]) 0)
     = [VNumber (decimal_float "1"); VLinebreak].
Proof. evaluate. Qed.

(** ** The title line *)

Lemma begins_stored_token_inv (opt : BitMask_t) (c : ascii) :
  begins_stored_token opt c = true ->
  Ascii.eqb c CR = false /\ is_separator c = false /\ Ascii.eqb c LF = false
  /\ Ascii.eqb c ";" = false /\ Ascii.eqb c DQUOTE = false
  /\ (Ascii.eqb c "/" = true -> has_option opt OPTION_ALLOW_SLASH_COMMENTS = false).
Proof.
  unfold begins_stored_token, ends_token. intro H.
  repeat (apply andb_true_iff in H; destruct H as [H ?]).
  repeat match goal with
         | E : negb _ = true |- _ => apply negb_true_iff in E
         end.
  apply orb_false_iff in H3. destruct H3.
  repeat split; try assumption.
  intro E. rewrite E in H0. exact H0.
Qed.

(** The first stored character of the first content line starts the title. *)
Lemma title_begins (c : ascii) (p : DocumentParser) :
  partial_tok_type p = PartialToken.NONE ->
  tok p = [] ->
  title_found p = false ->
  has_option (options p) OPTION_FIRST_LINE_IS_TITLE = true ->
  on_line_start (tokens (doc p)) = true ->
  begins_stored_token (options p) c = true ->
  partial_tok_type (dispatch c p) = PartialToken.TITLE_STRING
  /\ tok (dispatch c p) = [c]
  /\ doc (dispatch c p) = doc p.
Proof.
  destruct p as [[tk pool] o b ln lp st tf cs].
  cbn [partial_tok_type tok title_found options doc tokens].
  intros -> -> -> Ho Hl Hc.
  apply begins_stored_token_inv in Hc.
  destruct Hc as (C1 & C2 & C3 & C4 & C5 & C6).
  destruct (Ascii.eqb c "/") eqn:Eslash.
  - specialize (C6 eq_refl). handler_step; repeat split; reflexivity.
  - clear C6. handler_step; repeat split; reflexivity.
Qed.

Lemma title_continues (c : ascii) (p : DocumentParser) :
  partial_tok_type p = PartialToken.TITLE_STRING -> Ascii.eqb c LF = false ->
  partial_tok_type (dispatch c p) = PartialToken.TITLE_STRING
  /\ doc (dispatch c p) = doc p
  /\ tok (dispatch c p) = tok p ++ drop_cr [c].
Proof.
  destruct p as [[tk pool] o b ln lp st tf cs]. cbn [partial_tok_type].
  intros -> H. unfold drop_cr. cbn [filter].
  handler_step; rewrite ?app_nil_r; repeat split; reflexivity.
Qed.

Lemma title_run (s : list ascii) :
  no_newline s = true ->
  forall p, partial_tok_type p = PartialToken.TITLE_STRING ->
    partial_tok_type (parse_buffer s p) = PartialToken.TITLE_STRING
    /\ doc (parse_buffer s p) = doc p
    /\ tok (parse_buffer s p) = tok p ++ drop_cr s.
Proof.
  induction s as [|c s IH]; intros Hs p Hp.
  - cbn. now rewrite app_nil_r.
  - cbn in Hs. apply andb_true_iff in Hs. destruct Hs as [Hc Hs].
    apply negb_true_iff in Hc.
    destruct (title_continues c p Hp Hc) as (G1 & G2 & G3).
    destruct (IH Hs (dispatch c p) G1) as (I1 & I2 & I3).
    rewrite parse_buffer_cons.
    repeat split; try congruence.
    rewrite (drop_cr_cons c s), I3, G3, <- app_assoc. reflexivity.
Qed.

Lemma title_flushed (p : DocumentParser) :
  partial_tok_type p = PartialToken.TITLE_STRING ->
  tokens (doc (dispatch LF p)) =
    tokens (doc p)
    ++ [mkToken TokenType.STRING
          (float_of_size (Z.of_nat (length (string_pool (doc p)))));
        mkToken TokenType.LINEBREAK f_zero]
  /\ string_pool (doc (dispatch LF p)) = string_pool (doc p) ++ tok p ++ [NUL].
Proof.
  destruct p as [[tk pool] o b ln lp st tf cs]. cbn [partial_tok_type].
  intros ->. pick_handler. repeat known_char. cbv beta iota.
  settle. rewrite <- app_assoc. split; reflexivity.
Qed.

(** TITLE_STRING is entered only by the override, which sets the flag that
    disables it. *)
Lemma title_entry_once (c : ascii) (p : DocumentParser) :
  (enters_title p (dispatch c p) = true -> title_found (dispatch c p) = true)
  /\ (title_found p = true ->
      title_found (dispatch c p) = true /\ enters_title p (dispatch c p) = false).
Proof.
  destruct p as [[tk pool] o b ln lp st tf cs].
  unfold enters_title.
  destruct st; handler_step; cbn [title_found];
    (split; [ intro; try reflexivity; try discriminate
            | intro; try discriminate; split; try reflexivity; try assumption ]).
Qed.

Lemma title_entries_after_flag (s : list ascii) :
  forall p, title_found p = true -> title_entries s p = 0%nat.
Proof.
  induction s as [|c s IH]; intros p Hp; [reflexivity|].
  cbn [title_entries].
  destruct (proj2 (title_entry_once c p) Hp) as [H1 H2].
  rewrite H2, IH by assumption. reflexivity.
Qed.

Lemma title_entries_le_1 (s : list ascii) :
  forall p, (title_entries s p <= 1)%nat.
Proof.
  induction s as [|c s IH]; intro p; [cbn; lia|].
  cbn [title_entries].
  destruct (enters_title p (dispatch c p)) eqn:E.
  - apply (proj1 (title_entry_once c p)) in E.
    rewrite title_entries_after_flag by assumption. lia.
  - specialize (IH (dispatch c p)). lia.
Qed.

Lemma before_title_step (c : ascii) (p : DocumentParser) :
  awaiting_title p = true -> before_title p ->
  awaiting_title (dispatch c p) = true -> before_title (dispatch c p).
Proof.
  destruct p as [[tk pool] o b ln lp st tf cs].
  unfold awaiting_title, before_title, in_comment.
  cbn [options title_found partial_tok_type tok doc tokens partial_is].
  intros Ha (Hs & Hl & Hf).
  apply andb_true_iff in Ha. destruct Ha as [Ho Ht].
  apply negb_true_iff in Ht. subst tf.
  destruct st;
    (destruct Hs as [[Hs Hb] | Hs]; try discriminate Hs; try subst b);
    handler_step; intro Ha; try discriminate Ha;
    cbn [tokens]; rewrite ?on_line_start_app, ?forallb_app, ?Hf;
    (split; [ first [ left; split; reflexivity | right; reflexivity ]
            | split; first [ assumption | reflexivity ] ]).
Qed.

(** Until the title is found, a parser that looks for one has seen blank
    lines and comment lines only. *)
Lemma before_title_reached (opt : BitMask_t) (pre : list ascii) :
  has_option opt OPTION_FIRST_LINE_IS_TITLE = true ->
  title_found (parse_buffer pre (new_parser opt)) = false ->
  before_title (parse_buffer pre (new_parser opt)).
Proof.
  intro Ho. induction pre as [|c pre IH] using rev_ind; intro Hf.
  - unfold before_title. cbn. auto.
  - rewrite parse_buffer_snoc in *.
    set (p := parse_buffer pre (new_parser opt)) in *.
    assert (Hp : title_found p = false).
    { destruct (title_found p) eqn:E; [|reflexivity].
      destruct (proj2 (title_entry_once c p) E) as [H _]. congruence. }
    apply before_title_step.
    + unfold awaiting_title. subst p.
      rewrite parse_buffer_options, Hp. cbn [new_parser options]. now rewrite Ho.
    + now apply IH.
    + unfold awaiting_title. rewrite dispatch_options, Hf. subst p.
      rewrite parse_buffer_options. cbn [new_parser options]. now rewrite Ho.
Qed.

(** C6, as the code has it: with the title option set, let the parser be
    between tokens with no title found yet — which can only be after blank
    lines and comment lines.  If the next character [c] is one that
    [BeginToken] stores (not a carriage return, a separator, a newline, a
    semicolon or a double quote, and not a slash that starts a comment) and
    [line] runs up to the newline, then [c] and [line], carriage returns
    skipped, are pushed as one STRING token followed by a LINEBREAK; the
    pooled text is the whole of [c :: line], spaces included, when it holds
    no NUL or carriage return; and in no document is TITLE_STRING entered
    more than once. *)
Theorem C6_title_line (opt : BitMask_t) (pre line : list ascii) (c : ascii) :
  has_option opt OPTION_FIRST_LINE_IS_TITLE = true ->
  title_found (parse_buffer pre (new_parser opt)) = false ->
  partial_tok_type (parse_buffer pre (new_parser opt)) = PartialToken.NONE ->
  begins_stored_token opt c = true ->
  no_newline line = true ->
  let p := parse_buffer pre (new_parser opt) in
  let q := parse_buffer (c :: line ++ [LF]) p in
  let off := float_of_size (Z.of_nat (length (string_pool (doc p)))) in
  forallb comment_or_linebreak (tokens (doc p)) = true
  /\ tokens (doc q) =
     tokens (doc p)
     ++ [mkToken TokenType.STRING off; mkToken TokenType.LINEBREAK f_zero]
  /\ string_pool (doc q) = string_pool (doc p) ++ (c :: drop_cr line) ++ [NUL]
  /\ (size_of_float off = Z.of_nat (length (string_pool (doc p))) ->
      plain_text (c :: line) = true ->
      pool_str (string_pool (doc q)) off = c :: line)
  /\ forall input : list ascii,
       (title_entries input (new_parser opt) <= 1)%nat.
Proof.
  intros Ho Hf Hn Hc Hl p q off.
  destruct (before_title_reached opt pre Ho Hf) as (Hs & Hst & Hall).
  fold p in Hs, Hst, Hall, Hf, Hn.
  assert (Hb : tok p = []).
  { destruct Hs as [[_ Hb] | Hs]; [exact Hb|].
    unfold in_comment, partial_is in Hs. rewrite Hn in Hs. discriminate Hs. }
  assert (Hop : options p = opt).
  { subst p. now rewrite parse_buffer_options. }
  destruct (title_begins c p Hn Hb Hf) as (T1 & T2 & T3);
    try (rewrite Hop; assumption); try assumption.
  destruct (title_run line Hl (dispatch c p) T1) as (R1 & R2 & R3).
  destruct (title_flushed _ R1) as (F1 & F2).
  assert (Eq : q = dispatch LF (parse_buffer line (dispatch c p))).
  { subst q. now rewrite parse_buffer_cons, parse_buffer_snoc. }
  assert (Pool : string_pool (doc q)
                 = string_pool (doc p) ++ (c :: drop_cr line) ++ [NUL]).
  { rewrite Eq, F2, R2, T3, R3, T2. reflexivity. }
  repeat split.
  - exact Hall.
  - rewrite Eq, F1, R2, T3. reflexivity.
  - exact Pool.
  - intros Hoff Hplain. rewrite Pool, pool_str_appended by exact Hoff.
    assert (Hd : c_str (c :: line) = c :: line)
      by now apply plain_text_drop_cr.
    assert (D3 : c :: drop_cr line = c :: line).
    { cbn in Hplain. apply andb_true_iff in Hplain. destruct Hplain as [_ Hp].
      now rewrite (proj1 (plain_text_drop_cr line Hp)). }
    rewrite D3. exact Hd.
  - intro input. apply title_entries_le_1.
Qed.

Lemma C6_title_line_witness :
  let pre := text "; old format" ++ [LF; LF] in
  let p := parse_buffer pre (new_parser OPTION_FIRST_LINE_IS_TITLE) in
  let q := parse_buffer (text "My Title Has Spaces" ++ [LF]) p in
  pool_str (string_pool (doc q))
           (float_of_size (Z.of_nat (length (string_pool (doc p)))))
  = text "My Title Has Spaces".
Proof.
  intros pre p q.
  exact (proj1 (proj2 (proj2 (proj2
           (C6_title_line OPTION_FIRST_LINE_IS_TITLE pre
              (text "y Title Has Spaces") "M"%char
              eq_refl eq_refl eq_refl eq_refl eq_refl))))
           eq_refl eq_refl).
Defined.

(** C6, as the spec has it, fails on a line with a leading space and on a
    line that opens with a double quote: neither character reaches the
    pooled text, which is then not the entire line. *)
Lemma C6_title_loses_leading_characters :
  token_values
    (LoadFromDataStream (text " My Title" ++ [LF]) OPTION_FIRST_LINE_IS_TITLE)
  = [VString (text "My Title"); VLinebreak]
  /\ token_values
       (LoadFromDataStream (text " My Title" ++ [LF]) OPTION_FIRST_LINE_IS_TITLE)
     <> [VString (text " My Title"); VLinebreak]
  /\ token_values
       (LoadFromDataStream (quoted_title_line ++ [LF]) OPTION_FIRST_LINE_IS_TITLE)
     = [VString (text "My" ++ DQUOTE :: text " Title"); VLinebreak]
  /\ token_values
       (LoadFromDataStream (quoted_title_line ++ [LF]) OPTION_FIRST_LINE_IS_TITLE)
     <> [VString quoted_title_line; VLinebreak].
Proof.
  evaluate.
Qed.

(** ** Naked strings *)

Lemma naked_string_flushed (c : ascii) (p : DocumentParser) :
  partial_tok_type p = PartialToken.STRING_NAKED -> is_separator c = true ->
  tokens (doc (dispatch c p)) =
    tokens (doc p)
    ++ [mkToken TokenType.STRING
          (float_of_size (Z.of_nat (length (string_pool (doc p)))))]
  /\ string_pool (doc (dispatch c p)) = string_pool (doc p) ++ tok p ++ [NUL]
  /\ partial_tok_type (dispatch c p) = PartialToken.NONE
  /\ tok (dispatch c p) = [].
Proof.
  destruct p as [[tk pool] o b ln lp st tf cs]. cbn [partial_tok_type].
  intros -> H.
  assert (Hcr : Ascii.eqb c CR = false).
  { destruct (Ascii.eqb_spec c CR) as [->|]; [discriminate H | reflexivity]. }
  handler_step; repeat split; reflexivity.
Qed.

Lemma naked_string_keeps_slash (p : DocumentParser) :
  partial_tok_type p = PartialToken.STRING_NAKED ->
  partial_tok_type (dispatch "/"%char p) = PartialToken.STRING_NAKED
  /\ tok (dispatch "/"%char p) = tok p ++ ["/"%char]
  /\ doc (dispatch "/"%char p) = doc p.
Proof.
  destruct p as [[tk pool] o b ln lp st tf cs]. cbn [partial_tok_type].
  intros ->. pick_handler. repeat known_char. cbv beta iota.
  settle. repeat split; reflexivity.
Qed.

(** [foo bar/baz] read to its last character: the first string is pushed
    at the space, the second one is still in the buffer. *)
Lemma naked_string_open (p : DocumentParser) :
  partial_tok_type p = PartialToken.NONE ->
  tok p = [] ->
  has_option (options p) OPTION_ALLOW_NAKED_STRINGS = true ->
  not_on_line_start (tokens (doc p)) = true ->
  let q := parse_buffer (text "foo bar/baz") p in
  tokens (doc q) =
    tokens (doc p)
    ++ [mkToken TokenType.STRING
          (float_of_size (Z.of_nat (length (string_pool (doc p)))))]
  /\ string_pool (doc q) = string_pool (doc p) ++ text "foo" ++ [NUL]
  /\ partial_tok_type q = PartialToken.STRING_NAKED
  /\ tok q = text "bar/baz".
Proof.
  intros Hst Hb Hn Hl q. subst q. revert Hst Hb Hn Hl.
  destruct p as [[tk pool] o b ln lp st tf cs].
  cbn [partial_tok_type tok options doc tokens string_pool].
  intros -> -> Hn Hl.
  assert (L0 : on_line_start tk = false).
  { rewrite not_on_line_start_negb in Hl. now apply negb_true_iff in Hl. }
  assert (L1 : on_line_start
                 (tk ++ [mkToken TokenType.STRING
                           (float_of_size (Z.of_nat (length pool)))]) = false).
  { now rewrite on_line_start_app. }
  let l := eval vm_compute in (text "foo bar/baz") in
  change (text "foo bar/baz") with l.
  let l := eval vm_compute in (text "foo") in change (text "foo") with l in *.
  let l := eval vm_compute in (text "bar/baz") in change (text "bar/baz") with l.
  cbn [app] in *.
  do 4 feed; cbn [app]; do 7 feed;
    change (parse_buffer [] ?x) with x;
    cbn [doc tokens string_pool partial_tok_type tok app];
    rewrite <- ?app_assoc; cbn [app]; repeat split; reflexivity.
Qed.

(** C7, as the code has it: with naked strings allowed, [foo bar/baz] read
    between tokens after the first token of a line, up to the separator or
    newline that ends it, pushes STRING("foo") and STRING("bar/baz") (and
    the LINEBREAK of a newline); whatever the other options are.  In general
    a separator flushes a naked string as a STRING token, and a slash that
    arrives inside a naked string is accumulated like any other character.
    Up to the last character of [foo bar/baz] only STRING("foo") is pushed:
    the second string waits in the buffer for the character that ends it. *)
Theorem C7_naked_strings (p : DocumentParser) (d : ascii) :
  partial_tok_type p = PartialToken.NONE ->
  tok p = [] ->
  has_option (options p) OPTION_ALLOW_NAKED_STRINGS = true ->
  not_on_line_start (tokens (doc p)) = true ->
  ends_token d = true ->
  let q := parse_buffer (text "foo bar/baz" ++ [d]) p in
  let n := Z.of_nat (length (string_pool (doc p))) in
  (tokens (doc q) =
     tokens (doc p)
     ++ [mkToken TokenType.STRING (float_of_size n);
         mkToken TokenType.STRING (float_of_size (n + 4))]
     ++ (if Ascii.eqb d LF then [mkToken TokenType.LINEBREAK f_zero] else [])
   /\ string_pool (doc q) =
      string_pool (doc p) ++ text "foo" ++ [NUL] ++ text "bar/baz" ++ [NUL]
   /\ partial_tok_type q = PartialToken.NONE)
  /\ (forall (r : DocumentParser) (c : ascii),
         partial_tok_type r = PartialToken.STRING_NAKED ->
         is_separator c = true ->
         tokens (doc (dispatch c r)) =
           tokens (doc r)
           ++ [mkToken TokenType.STRING
                 (float_of_size (Z.of_nat (length (string_pool (doc r)))))]
         /\ string_pool (doc (dispatch c r)) = string_pool (doc r) ++ tok r ++ [NUL]
         /\ partial_tok_type (dispatch c r) = PartialToken.NONE)
  /\ (forall r : DocumentParser,
         partial_tok_type r = PartialToken.STRING_NAKED ->
         partial_tok_type (dispatch "/"%char r) = PartialToken.STRING_NAKED
         /\ tok (dispatch "/"%char r) = tok r ++ ["/"%char]
         /\ doc (dispatch "/"%char r) = doc r)
  /\ (let q0 := parse_buffer (text "foo bar/baz") p in
      tokens (doc q0) =
        tokens (doc p) ++ [mkToken TokenType.STRING (float_of_size n)]
      /\ string_pool (doc q0) = string_pool (doc p) ++ text "foo" ++ [NUL]
      /\ partial_tok_type q0 = PartialToken.STRING_NAKED
      /\ tok q0 = text "bar/baz").
Proof.
  intros Hst Hb Hn Hl Hd q n. split; [|split; [|split]].
  2:{ intros r c Hr Hc.
      destruct (naked_string_flushed c r Hr Hc) as (A1 & A2 & A3 & _). auto. }
  2:{ intros r Hr. now apply naked_string_keeps_slash. }
  2:{ now apply naked_string_open. }
  subst q n. revert Hst Hb Hn Hl.
  destruct p as [[tk pool] o b ln lp st tf cs].
  cbn [partial_tok_type tok options doc tokens string_pool].
  intros -> -> Hn Hl.
  assert (L0 : on_line_start tk = false).
  { rewrite not_on_line_start_negb in Hl. now apply negb_true_iff in Hl. }
  assert (L1 : on_line_start
                 (tk ++ [mkToken TokenType.STRING
                           (float_of_size (Z.of_nat (length pool)))]) = false).
  { now rewrite on_line_start_app. }
  assert (N4 : Z.of_nat (length (pool ++ text "foo" ++ [NUL]))
               = Z.of_nat (length pool) + 4).
  { rewrite length_app. cbn [text list_ascii_of_string length app]. lia. }
  let l := eval vm_compute in (text "foo bar/baz") in
  change (text "foo bar/baz") with l.
  let l := eval vm_compute in (text "foo") in change (text "foo") with l in *.
  let l := eval vm_compute in (text "bar/baz") in change (text "bar/baz") with l.
  cbn [app] in *.
  apply ends_token_cases in Hd.
  destruct Hd as [-> | [-> | [-> | ->]]]; repeat known_char; cbv beta iota;
    do 4 feed; cbn [app]; do 8 feed;
    change (parse_buffer [] ?x) with x;
    cbn [doc tokens string_pool partial_tok_type app];
    rewrite N4, <- ?app_assoc; cbn [app]; repeat split; reflexivity.
Qed.

Lemma C7_naked_strings_witness :
  let p := parse_buffer (text "set ") (new_parser OPTION_ALLOW_NAKED_STRINGS) in
  let q := parse_buffer (text "foo bar/baz" ++ [LF]) p in
  token_values (doc q)
  = [VKeyword (text "set"); VString (text "foo"); VString (text "bar/baz");
     VLinebreak]
  /\ tokens (doc q) =
     tokens (doc p)
     ++ [mkToken TokenType.STRING (float_of_size 4);
         mkToken TokenType.STRING (float_of_size 8);
         mkToken TokenType.LINEBREAK f_zero].
Proof.
  intros p q. split; [vm_compute; reflexivity|].
  exact (proj1 (proj1 (C7_naked_strings p LF
                         eq_refl eq_refl eq_refl eq_refl eq_refl))).
Defined.

(** C7, as the spec has it, fails when the input ends with [foo bar/baz]:
    the loaded document holds STRING("foo") and no STRING("bar/baz"). *)
Lemma C7_second_string_at_end_of_input :
  token_values (LoadFromDataStream (text "set foo bar/baz")
                                   OPTION_ALLOW_NAKED_STRINGS)
  = [VKeyword (text "set"); VString (text "foo"); VLinebreak]
  /\ token_values (LoadFromDataStream (text "set foo bar/baz")
                                      OPTION_ALLOW_NAKED_STRINGS)
     <> [VKeyword (text "set"); VString (text "foo");
         VString (text "bar/baz"); VLinebreak]
  /\ token_values
       (doc (parse_buffer (text "foo bar/baz")
               (parse_buffer (text "set ")
                  (new_parser OPTION_ALLOW_NAKED_STRINGS))))
     = [VKeyword (text "set"); VString (text "foo")].
Proof. evaluate. Qed.

(** ** Numbers *)

Lemma digit_is_no_case (c : ascii) :
  isdigit c = true ->
  Ascii.eqb c CR = false /\ is_separator c = false /\ Ascii.eqb c LF = false
  /\ Ascii.eqb c "-" = false /\ Ascii.eqb c "." = false.
Proof.
  destruct c as [[] [] [] [] [] [] [] []]; intro H;
    try discriminate H; repeat split; reflexivity.
Qed.

(** A digit matches no [case] of [UpdateNumber]. *)
Lemma UpdateNumber_ignores_digit (c : ascii) (p : DocumentParser) :
  partial_tok_type p = PartialToken.NUMBER
  \/ partial_tok_type p = PartialToken.NUMBER_DOT ->
  isdigit c = true ->
  dispatch c p = p.
Proof.
  destruct p as [[tk pool] o b ln lp st tf cs]. cbn [partial_tok_type].
  intros Hst Hc. apply digit_is_no_case in Hc.
  destruct Hc as (C1 & C2 & C3 & C4 & C5).
  destruct Hst as [-> | ->]; handler_step; reflexivity.
Qed.

(** The cases that [UpdateNumber] does have: the point, the minus sign and
    the end of the token. *)
Lemma UpdateNumber_point (p : DocumentParser) :
  (partial_tok_type p = PartialToken.NUMBER ->
   partial_tok_type (dispatch "."%char p) = PartialToken.NUMBER_DOT
   /\ tok (dispatch "."%char p) = tok p ++ ["."%char]
   /\ console (dispatch "."%char p) = console p)
  /\ (partial_tok_type p = PartialToken.NUMBER_DOT ->
      partial_tok_type (dispatch "."%char p) = PartialToken.GARBAGE
      /\ tok (dispatch "."%char p) = tok p ++ ["."%char]
      /\ console (dispatch "."%char p) =
         console p ++ [stray_character InNumber (line_num p)
                         (size_incr (line_pos p)) "."%char]).
Proof.
  destruct p as [[tk pool] o b ln lp st tf cs]. cbn [partial_tok_type].
  split; intros ->; pick_handler; repeat known_char; cbv beta iota; settle;
    repeat split; reflexivity.
Qed.

Lemma UpdateNumber_minus (p : DocumentParser) :
  partial_tok_type p = PartialToken.NUMBER
  \/ partial_tok_type p = PartialToken.NUMBER_DOT ->
  partial_tok_type (dispatch "-"%char p) = PartialToken.GARBAGE
  /\ tok (dispatch "-"%char p) = tok p ++ ["-"%char]
  /\ console (dispatch "-"%char p) =
     console p ++ [stray_character InNumber (line_num p)
                     (size_incr (line_pos p)) "-"%char].
Proof.
  destruct p as [[tk pool] o b ln lp st tf cs]. cbn [partial_tok_type].
  intros [-> | ->]; pick_handler; repeat known_char; cbv beta iota; settle;
    repeat split; reflexivity.
Qed.

Lemma UpdateNumber_flush (d : ascii) (p : DocumentParser) :
  partial_tok_type p = PartialToken.NUMBER
  \/ partial_tok_type p = PartialToken.NUMBER_DOT ->
  ends_token d = true ->
  tokens (doc (dispatch d p)) =
    tokens (doc p)
    ++ [mkToken TokenType.NUMBER (parseReal (c_str (tok p)))]
    ++ (if Ascii.eqb d LF then [mkToken TokenType.LINEBREAK f_zero] else [])
  /\ partial_tok_type (dispatch d p) = PartialToken.NONE
  /\ tok (dispatch d p) = [].
Proof.
  destruct p as [[tk pool] o b ln lp st tf cs]. cbn [partial_tok_type].
  intros Hst Hd. apply ends_token_cases in Hd.
  destruct Hst as [-> | ->]; destruct Hd as [-> | [-> | [-> | ->]]];
    pick_handler; repeat known_char; cbv beta iota; settle;
    rewrite ?c_str_terminated, <- ?app_assoc; repeat split; reflexivity.
Qed.

(** C2, where the code departs from it: a digit that arrives in state
    NUMBER or NUMBER_DOT leaves the parser as it was, so it is not
    appended; [set 12.75] loads as the number 1, not 12.75. *)
Theorem C2_later_digits_are_dropped :
  (forall (c : ascii) (p : DocumentParser),
      partial_tok_type p = PartialToken.NUMBER
      \/ partial_tok_type p = PartialToken.NUMBER_DOT ->
      isdigit c = true ->
      dispatch c p = p)
  /\ tok (parse_buffer (text "12.75") (new_parser 0)) = text "1."
  /\ token_values (LoadFromDataStream (text "set 12.75" ++ [LF]) 0)
     = [VKeyword (text "set"); VNumber (decimal_float "1.0"); VLinebreak]
  /\ decimal_float "1.0" <> decimal_float "12.75".
Proof.
  split; [exact UpdateNumber_ignores_digit|].
  evaluate.
Qed.

Lemma C2_later_digits_are_dropped_witness :
  let p := parse_buffer (text "4") (new_parser 0) in
  dispatch "2"%char p = p.
Proof.
  intro p.
  exact (proj1 C2_later_digits_are_dropped "2"%char p (or_introl eq_refl) eq_refl).
Defined.

(** ** The example line *)

(** C1, where the code departs from it: the line
    [key 1 2.5 "a b" true false] loads as KEYWORD("key"), NUMBER(1),
    NUMBER(2), STRING("a"), BOOL(1), BOOL(0), LINEBREAK.  The digit after
    the point is dropped, and the space inside the quotes is pooled as a
    NUL, which ends the text of the string after [a]. *)
Theorem C1_example_line_tokens :
  token_values (LoadFromDataStream example_line 0)
  = [VKeyword (text "key"); VNumber (decimal_float "1.0");
     VNumber (decimal_float "2.0"); VString (text "a");
     VBool (decimal_float "1.0"); VBool (decimal_float "0.0"); VLinebreak]
  /\ string_pool (LoadFromDataStream example_line 0)
     = text "key" ++ [NUL] ++ text "a" ++ [NUL] ++ text "b" ++ [NUL]
  /\ token_values (LoadFromDataStream example_line 0)
     <> [VKeyword (text "key"); VNumber (decimal_float "1.0");
         VNumber (decimal_float "2.5"); VString (text "a b");
         VBool (decimal_float "1.0"); VBool (decimal_float "0.0"); VLinebreak]
  /\ LoadFromDataStream (example_line ++ [LF]) 0
     = LoadFromDataStream example_line 0.
Proof.
  evaluate.
Qed.

(** ** Saving *)



(** ** Counting the tokens of a line *)

Lemma skipn_nth_error {A : Type} (l : list A) (k : nat) (x : A) :
  nth_error l k = Some x -> skipn k l = x :: skipn (S k) l.
Proof.
  revert k. induction l as [|a l IH]; intros [|k] H; try discriminate.
  - cbn in H. now injection H as ->.
  - cbn [nth_error] in H. cbn [skipn]. now apply IH.
Qed.

(** The loop counts the tokens of [line_prefix], given rounds enough for
    the tokens that are left; it has a result as long as the count fits
    an [int]. *)
Lemma CountLineArgs_loop_counts (r : GenericDocReader) :
  forall (rounds k : nat),
    (length (skipn (N.to_nat (token_pos r) + k) (tokens (reader_doc r)))
     <= rounds)%nat ->
    Z.of_nat k <= INT_MAX ->
    CountLineArgs_loop rounds r (Z.of_nat k) =
    (let n := Z.of_nat (k + length (line_prefix
                                      (skipn (N.to_nat (token_pos r) + k)
                                             (tokens (reader_doc r))))) in
     if n <=? INT_MAX then Some n else None).
Proof.
  set (l := tokens (reader_doc r)). set (pos := N.to_nat (token_pos r)).
  assert (Hidx : forall k, Z.to_nat (Z.of_N (token_pos r) + Z.of_nat k)
                           = (pos + k)%nat) by (intro; subst pos; lia).
  induction rounds as [|n IH]; intros k Hlen Hk.
  - assert (E : skipn (pos + k) l = []) by (apply length_zero_iff_nil; lia).
    rewrite E. cbn [CountLineArgs_loop line_prefix length].
    rewrite Nat.add_0_r. apply Z.leb_le in Hk. now rewrite Hk.
  - cbn [CountLineArgs_loop]. unfold GetTokType, EndOfFile. fold l.
    destruct (Z.of_nat (length l) <=? Z.of_N (token_pos r) + Z.of_nat k) eqn:E.
    + apply Z.leb_le in E. cbn [negb andb].
      rewrite skipn_all2 by (subst pos; lia). cbn [line_prefix length].
      rewrite Nat.add_0_r. apply Z.leb_le in Hk. now rewrite Hk.
    + apply Z.leb_gt in E. cbn [negb andb]. rewrite Hidx.
      destruct (nth_error l (pos + k)) as [t|] eqn:En.
      2:{ apply nth_error_None in En. subst pos. lia. }
      rewrite (skipn_nth_error _ _ _ En) in *.
      cbn [option_map is_linebreak line_prefix].
      destruct (TokenType.eqb (type t) TokenType.LINEBREAK).
      * cbn [negb length]. rewrite Nat.add_0_r.
        apply Z.leb_le in Hk. now rewrite Hk.
      * cbn [negb length]. unfold int_incr.
        destruct (Z.of_nat k <? INT_MAX) eqn:Ek.
        -- apply Z.ltb_lt in Ek.
           replace (Z.of_nat k + 1) with (Z.of_nat (S k)) by lia.
           rewrite (IH (S k)).
           2:{ rewrite Nat.add_succ_r. cbn [length] in Hlen. lia. }
           2:{ lia. }
           rewrite Nat.add_succ_r.
           replace (S k + length (line_prefix (skipn (S (pos + k)) l)))%nat
             with (k + S (length (line_prefix (skipn (S (pos + k)) l))))%nat
             by lia.
           reflexivity.
        -- apply Z.ltb_ge in Ek.
           destruct (Z.leb_spec
                       (Z.of_nat (k + S (length (line_prefix
                                                   (skipn (S (pos + k)) l)))))
                       INT_MAX); [lia | reflexivity].
Qed.

(** The call has a result exactly when the rest of the line fits an [int]. *)
Lemma CountLineArgs_result (r : GenericDocReader) :
  CountLineArgs r =
  (let n := Z.of_nat (length (line_prefix
                                (skipn (N.to_nat (token_pos r))
                                       (tokens (reader_doc r))))) in
   if n <=? INT_MAX then Some (n, r) else None).
Proof.
  unfold CountLineArgs. change 0 with (Z.of_nat 0).
  rewrite CountLineArgs_loop_counts.
  - rewrite Nat.add_0_r. cbn [Nat.add].
    destruct (_ <=? INT_MAX); reflexivity.
  - rewrite Nat.add_0_r, length_skipn. lia.
  - unfold INT_MAX. lia.
Qed.

(** [line_prefix] holds no LINEBREAK and stops at the first one or at the
    end of the list. *)
Lemma line_prefix_spec (l : list Token) :
  forallb (fun t => negb (TokenType.eqb (type t) TokenType.LINEBREAK))
          (line_prefix l) = true
  /\ exists rest, l = line_prefix l ++ rest
       /\ match rest with
          | [] => True
          | t :: _ => type t = TokenType.LINEBREAK
          end.
Proof.
  induction l as [|t l [IH1 (rest & IH2 & IH3)]].
  - split; [reflexivity | exists []; split; [reflexivity | exact I]].
  - cbn [line_prefix].
    destruct (TokenType.eqb (type t) TokenType.LINEBREAK) eqn:E.
    + split; [reflexivity|]. exists (t :: l). split; [reflexivity|].
      now apply TokenType_eqb_eq.
    + split; [cbn; now rewrite E, IH1|].
      exists rest. split; [cbn; now rewrite <- IH2 | exact IH3].
Qed.

(** C9, as the code has it: for every document and cursor, as long as the
    tokens from the cursor to the end of its line are no more than an [int]
    can count, [CountLineArgs] leaves the reader as it was and returns the
    number of tokens from the cursor up to, and without, the next LINEBREAK
    or the end of the token list; it returns 0 when the token at the cursor
    is a LINEBREAK. *)
Theorem C9_count_line_args (r : GenericDocReader) :
  let rest := skipn (N.to_nat (token_pos r)) (tokens (reader_doc r)) in
  Z.of_nat (length (line_prefix rest)) <= INT_MAX ->
  CountLineArgs r = Some (Z.of_nat (length (line_prefix rest)), r)
  /\ forallb (fun t => negb (TokenType.eqb (type t) TokenType.LINEBREAK))
             (line_prefix rest) = true
  /\ (exists after, rest = line_prefix rest ++ after
        /\ match after with
           | [] => True
           | t :: _ => type t = TokenType.LINEBREAK
           end)
  /\ (forall t,
         nth_error (tokens (reader_doc r)) (N.to_nat (token_pos r)) = Some t ->
         type t = TokenType.LINEBREAK ->
         CountLineArgs r = Some (0, r)).
Proof.
  intros rest Hfit.
  assert (Hcount : CountLineArgs r = Some (Z.of_nat (length (line_prefix rest)), r)).
  { rewrite CountLineArgs_result. fold rest. cbv zeta.
    apply Z.leb_le in Hfit. now rewrite Hfit. }
  destruct (line_prefix_spec rest) as [H1 H2].
  repeat split; try assumption.
  intros t Hn Ht. rewrite Hcount. subst rest.
  rewrite (skipn_nth_error _ _ _ Hn). cbn [line_prefix].
  rewrite Ht. reflexivity.
Qed.

Lemma C9_count_line_args_witness :
  let d := LoadFromDataStream (text "set 1 2" ++ [LF; LF] ++ text "end" ++ [LF]) 0 in
  CountLineArgs (mkReader d 0) = Some (3, mkReader d 0)
  /\ CountLineArgs (mkReader d 4) = Some (0, mkReader d 4).
Proof.
  intro d. split.
  - refine (proj1 (C9_count_line_args (mkReader d 0) _)).
    vm_compute. discriminate.
  - refine (proj2 (proj2 (proj2 (C9_count_line_args (mkReader d 4) _)))
              (mkToken TokenType.LINEBREAK f_zero) eq_refl eq_refl).
    vm_compute. discriminate.
Defined.

Lemma line_prefix_repeat (t : Token) (n : nat) :
  TokenType.eqb (type t) TokenType.LINEBREAK = false ->
  line_prefix (repeat t n) = repeat t n.
Proof.
  intro H. induction n as [|n IH]; [reflexivity|].
  cbn [repeat line_prefix]. now rewrite H, IH.
Qed.

(** C9, as the spec has it, fails on a line of more tokens than an [int]
    can count: with 2147483648 NUMBER tokens at the cursor the number of
    tokens on the line is above [INT_MAX], the counter overflows before the
    end of the line is reached, and the call has no result. *)
Lemma C9_count_overflows_on_long_line :
  INT_MAX
  < Z.of_nat (length (line_prefix
                        (repeat (mkToken TokenType.NUMBER f_zero)
                                (Z.to_nat 2147483648))))
  /\ CountLineArgs
       (mkReader (mkDoc (repeat (mkToken TokenType.NUMBER f_zero)
                                (Z.to_nat 2147483648)) []) 0)
     = None.
Proof.
  assert (Hn : Z.of_nat (Z.to_nat 2147483648) = 2147483648)
    by (apply Z2Nat.id; lia).
  revert Hn. generalize (Z.to_nat 2147483648). intros n Hn.
  assert (L : Z.of_nat (length (line_prefix
                                  (repeat (mkToken TokenType.NUMBER f_zero) n)))
              = 2147483648).
  { rewrite line_prefix_repeat by reflexivity. now rewrite repeat_length. }
  split.
  - rewrite L. unfold INT_MAX. lia.
  - rewrite CountLineArgs_result.
    cbn [token_pos reader_doc tokens].
    change (N.to_nat 0) with 0%nat. cbn [skipn]. cbv zeta.
    rewrite L. reflexivity.
Qed.

(** * Further properties *)

(** Decide the tests of the size of a buffer that is given. *)
Ltac known_size :=
  match goal with
  | |- context [Nat.eqb (length ?l) ?n] => decide_test (Nat.eqb (length l) n)
  | |- context [Nat.ltb ?n (length ?l)] => decide_test (Nat.ltb n (length l))
  end.

Ltac settle_sizes :=
  repeat first
    [ run_statement
    | rewrite_fact
    | known_size
    | progress (cbv beta iota delta [negb andb orb])
    | split_if ].

Ltac feed_sizes :=
  rewrite parse_buffer_cons; pick_handler; repeat known_char;
  cbv beta iota; settle_sizes.

Lemma dispatch_cr (p : DocumentParser) : dispatch CR p = p.
Proof.
  destruct p as [[tk pool] o b ln lp st tf cs].
  destruct st; pick_handler; repeat known_char; cbv beta iota; settle;
    reflexivity.
Qed.

Lemma parse_buffer_drop_cr (s : list ascii) :
  forall p, parse_buffer (drop_cr s) p = parse_buffer s p.
Proof.
  induction s as [|c s IH]; intro p; [reflexivity|].
  unfold drop_cr in *. cbn [filter].
  destruct (Ascii.eqb_spec c CR) as [->|Hc]; cbn [negb].
  - rewrite parse_buffer_cons, dispatch_cr. apply IH.
  - rewrite !parse_buffer_cons. apply IH.
Qed.

(** X1: carriage returns never reach the document.  In every state a
    carriage return leaves the whole parser as it is, so an input and the
    same input without its carriage returns give the same parser and the
    same loaded document. *)
Theorem X1_carriage_returns_are_ignored (s : list ascii) (opt : BitMask_t) :
  parse_buffer (drop_cr s) (new_parser opt) = parse_buffer s (new_parser opt)
  /\ LoadFromDataStream (drop_cr s) opt = LoadFromDataStream s opt.
Proof.
  split; [apply parse_buffer_drop_cr|].
  now rewrite !LoadFromDataStream_eq, parse_buffer_drop_cr.
Qed.

Lemma parse_buffer_invariant (P : DocumentParser -> Prop) :
  (forall c p, P p -> P (dispatch c p)) ->
  forall s p, P p -> P (parse_buffer s p).
Proof.
  intros Hstep s. induction s as [|c s IH]; intros p Hp; [exact Hp|].
  rewrite parse_buffer_cons. apply IH, Hstep, Hp.
Qed.

Lemma starts_app (a : list (list ascii)) (x : list ascii) :
  forall s, starts (a ++ [x]) s = starts a s ++ [Z.of_nat (s + length (flat a))].
Proof.
  induction a as [|y a IH]; intro s.
  - cbn. now rewrite Nat.add_0_r.
  - cbn [app starts]. rewrite IH. cbn [app]. do 3 f_equal.
    unfold flat, terminated. cbn [map concat]. rewrite !length_app. cbn [length].
    fold terminated. fold (flat a). lia.
Qed.

Lemma flat_app (a : list (list ascii)) (x : list ascii) :
  flat (a ++ [x]) = flat a ++ x ++ [NUL].
Proof.
  unfold flat. rewrite map_app, concat_app. cbn. now rewrite app_nil_r.
Qed.

Lemma laid_out_text (tk : list Token) (pool b : list ascii) (texts : list (list ascii))
      (t : Token) :
  laid_out (mkDoc tk pool) texts -> textual t = true ->
  data t = float_of_size (Z.of_nat (length pool)) ->
  laid_out (mkDoc (tk ++ [t]) (pool ++ b ++ [NUL])) (texts ++ [b]).
Proof.
  unfold laid_out. cbn [string_pool tokens]. intros [Hp Ht] Hx Hd. split.
  - now rewrite flat_app, Hp.
  - rewrite filter_app, map_app, starts_app, map_app, Ht. cbn [filter].
    rewrite Hx. cbn [map]. now rewrite Hd, Hp.
Qed.

Lemma laid_out_other (tk : list Token) (pool : list ascii) (texts : list (list ascii))
      (t : Token) :
  laid_out (mkDoc tk pool) texts -> textual t = false ->
  laid_out (mkDoc (tk ++ [t]) pool) texts.
Proof.
  unfold laid_out. cbn [string_pool tokens]. intros [Hp Ht] Hx. split; [exact Hp|].
  rewrite filter_app. cbn [filter]. rewrite Hx. now rewrite app_nil_r.
Qed.

Lemma dispatch_laid_out (c : ascii) (p : DocumentParser) :
  (exists texts, laid_out (doc p) texts) ->
  exists texts, laid_out (doc (dispatch c p)) texts.
Proof.
  destruct p as [[tk pool] o b ln lp st tf cs]. cbn [doc].
  intros [texts H].
  destruct st; handler_step;
    first
      [ exists texts; exact H
      | exists texts; apply laid_out_other; [exact H | reflexivity]
      | exists texts; apply laid_out_other;
        [apply laid_out_other; [exact H | reflexivity] | reflexivity]
      | exists (texts ++ [b]); apply laid_out_other;
        [apply laid_out_text; [exact H | reflexivity | reflexivity] | reflexivity]
      | exists (texts ++ [b]);
        apply laid_out_text; [exact H | reflexivity | reflexivity] ].
Qed.

Lemma ensure_final_linebreak_cases (d : GenericDocument) :
  ensure_final_linebreak d = d
  \/ ensure_final_linebreak d
     = mkDoc (tokens d ++ [mkToken TokenType.LINEBREAK f_zero]) (string_pool d).
Proof.
  unfold ensure_final_linebreak.
  destruct (tokens_empty (tokens d) || negb (back_is_linebreak (tokens d))); auto.
Qed.

(** X4: in every loaded document the string pool is a row of texts, each
    followed by one NUL, one text for each COMMENT, STRING and KEYWORD token
    in the order of the tokens, and the payload of such a token is the
    float of the offset at which its text starts. *)
Theorem X4_pool_layout (s : list ascii) (opt : BitMask_t) :
  exists texts : list (list ascii),
    string_pool (LoadFromDataStream s opt) = flat texts
    /\ map data (filter textual (tokens (LoadFromDataStream s opt)))
       = map float_of_size (starts texts 0).
Proof.
  rewrite LoadFromDataStream_eq.
  assert (H : exists texts,
             laid_out (doc (parse_buffer s (new_parser opt))) texts).
  { apply (parse_buffer_invariant
             (fun p => exists texts, laid_out (doc p) texts)).
    - apply dispatch_laid_out.
    - exists []. split; reflexivity. }
  destruct H as [texts H]. exists texts.
  destruct (doc (parse_buffer s (new_parser opt))) as [tk pool].
  destruct (ensure_final_linebreak_cases (mkDoc tk pool)) as [-> | ->].
  - exact H.
  - now apply laid_out_other.
Qed.

Lemma dispatch_appends (c : ascii) (p : DocumentParser) :
  exists ts ps,
    tokens (doc (dispatch c p)) = tokens (doc p) ++ ts
    /\ string_pool (doc (dispatch c p)) = string_pool (doc p) ++ ps.
Proof.
  destruct p as [[tk pool] o b ln lp st tf cs].
  destruct st; handler_step; cbn [doc tokens string_pool];
    rewrite <- ?app_assoc;
    eexists; eexists;
    (split; first [reflexivity | symmetry; apply app_nil_r]).
Qed.

Lemma parse_buffer_appends (s : list ascii) :
  forall p, exists ts ps,
    tokens (doc (parse_buffer s p)) = tokens (doc p) ++ ts
    /\ string_pool (doc (parse_buffer s p)) = string_pool (doc p) ++ ps.
Proof.
  induction s as [|c s IH]; intro p.
  - exists [], []. now rewrite !app_nil_r.
  - rewrite parse_buffer_cons.
    destruct (IH (dispatch c p)) as (t2 & p2 & E1 & E2).
    destruct (dispatch_appends c p) as (t1 & p1 & F1 & F2).
    exists (t1 ++ t2), (p1 ++ p2). rewrite E1, E2, F1, F2, !app_assoc. auto.
Qed.

(** X2: the size of the read buffer does not matter.  Reading a stream in
    chunks of any size, a token may well lie across two chunks, gives the
    parser that the source's chunks give, and reading two streams one after
    the other gives the parser of their concatenation. *)
Theorem X2_chunks_do_not_matter
    (chunk : nat) (s1 s2 : list ascii) (p : DocumentParser) :
  (0 < chunk)%nat ->
  parse_chunks chunk (length (s1 ++ s2)) (s1 ++ s2) p = parse_stream (s1 ++ s2) p
  /\ parse_stream (s1 ++ s2) p = parse_stream s2 (parse_stream s1 p).
Proof.
  intro H. rewrite !parse_stream_all, parse_buffer_app.
  split; [|reflexivity].
  rewrite parse_chunks_all, parse_buffer_app by (assumption || lia). reflexivity.
Qed.

Lemma X2_chunks_do_not_matter_witness :
  parse_chunks 2 5 (text "se" ++ text "t 1") (new_parser 0)
  = parse_stream (text "se" ++ text "t 1") (new_parser 0).
Proof.
  refine (proj1 (X2_chunks_do_not_matter 2 (text "se") (text "t 1")
                   (new_parser 0) _)).
  repeat constructor.
Defined.

(** X3: more input only appends.  The tokens and the pool that the parser
    holds after a part of the input are a prefix of those it holds after
    any longer input. *)
Theorem X3_document_only_grows (s1 s2 : list ascii) (opt : BitMask_t) :
  exists ts ps,
    tokens (doc (parse_buffer (s1 ++ s2) (new_parser opt)))
    = tokens (doc (parse_buffer s1 (new_parser opt))) ++ ts
    /\ string_pool (doc (parse_buffer (s1 ++ s2) (new_parser opt)))
       = string_pool (doc (parse_buffer s1 (new_parser opt))) ++ ps.
Proof. rewrite parse_buffer_app. apply parse_buffer_appends. Qed.

Lemma size_incr_mod (n : Z) : size_incr (n mod SIZE_MAX1) = (n + 1) mod SIZE_MAX1.
Proof.
  unfold size_incr. rewrite Z.add_mod_idemp_l; [reflexivity|].
  unfold SIZE_MAX1. lia.
Qed.

Lemma linebreaks_app (l : list Token) (t : Token) :
  linebreaks (l ++ [t]) =
  (linebreaks l + if TokenType.eqb (type t) TokenType.LINEBREAK then 1 else 0)%nat.
Proof.
  unfold linebreaks. rewrite filter_app, length_app. cbn [filter].
  now destruct (TokenType.eqb (type t) TokenType.LINEBREAK).
Qed.

Lemma dispatch_line_counted (c : ascii) (p : DocumentParser) :
  line_counted p -> line_counted (dispatch c p).
Proof.
  destruct p as [[tk pool] o b ln lp st tf cs].
  unfold line_counted. cbn [line_num doc tokens]. intros ->.
  destruct st; handler_step; cbn [line_num doc tokens];
    rewrite ?size_incr_mod, ?linebreaks_app; cbn [type TokenType.eqb];
    rewrite ?Nat.add_0_r; try reflexivity; f_equal; lia.
Qed.

(** X5: the line number of the parser, which its warnings report, is the
    number of LINEBREAK tokens it has pushed (modulo the range of [size_t]). *)
Theorem X5_line_number_counts_linebreaks (s : list ascii) (opt : BitMask_t) :
  line_num (parse_buffer s (new_parser opt))
  = Z.of_nat (linebreaks (tokens (doc (parse_buffer s (new_parser opt)))))
    mod SIZE_MAX1.
Proof.
  apply (parse_buffer_invariant line_counted).
  - apply dispatch_line_counted.
  - reflexivity.
Qed.

Lemma dispatch_idle_buffer (c : ascii) (p : DocumentParser) :
  (partial_tok_type p = PartialToken.NONE -> tok p = []) ->
  partial_tok_type (dispatch c p) = PartialToken.NONE -> tok (dispatch c p) = [].
Proof.
  destruct p as [[tk pool] o b ln lp st tf cs].
  cbn [partial_tok_type tok]. intro H.
  destruct st; try (rewrite (H eq_refl)); handler_step;
    cbn [partial_tok_type tok]; intro E; first [reflexivity | discriminate E].
Qed.

Lemma dispatch_no_naked (c : ascii) (p : DocumentParser) :
  has_option (options p) OPTION_ALLOW_NAKED_STRINGS = false ->
  partial_tok_type p <> PartialToken.STRING_NAKED ->
  partial_tok_type (dispatch c p) <> PartialToken.STRING_NAKED.
Proof.
  destruct p as [[tk pool] o b ln lp st tf cs].
  cbn [partial_tok_type options]. intros Ho H.
  destruct st; try congruence; handler_step; cbn [partial_tok_type]; discriminate.
Qed.

Lemma dispatch_no_slash (c : ascii) (p : DocumentParser) :
  has_option (options p) OPTION_ALLOW_SLASH_COMMENTS = false ->
  partial_tok_type p <> PartialToken.COMMENT_SLASH ->
  partial_tok_type (dispatch c p) <> PartialToken.COMMENT_SLASH.
Proof.
  destruct p as [[tk pool] o b ln lp st tf cs].
  cbn [partial_tok_type options]. intros Ho H.
  destruct st; try congruence; handler_step; cbn [partial_tok_type]; discriminate.
Qed.

Lemma dispatch_no_title (c : ascii) (p : DocumentParser) :
  has_option (options p) OPTION_FIRST_LINE_IS_TITLE = false ->
  partial_tok_type p <> PartialToken.TITLE_STRING /\ title_found p = false ->
  partial_tok_type (dispatch c p) <> PartialToken.TITLE_STRING
  /\ title_found (dispatch c p) = false.
Proof.
  destruct p as [[tk pool] o b ln lp st tf cs].
  cbn [partial_tok_type options title_found]. intros Ho [H ->].
  destruct st; try congruence; handler_step; cbn [partial_tok_type title_found];
    (split; [discriminate | reflexivity]).
Qed.

(** X6: whenever the parser is between tokens, its buffer is empty: no
    character of a finished or discarded token is left for the next one. *)
Theorem X6_buffer_empty_between_tokens (s : list ascii) (opt : BitMask_t) :
  partial_tok_type (parse_buffer s (new_parser opt)) = PartialToken.NONE ->
  tok (parse_buffer s (new_parser opt)) = [].
Proof.
  apply (parse_buffer_invariant
           (fun p => partial_tok_type p = PartialToken.NONE -> tok p = [])).
  - apply dispatch_idle_buffer.
  - reflexivity.
Qed.

Lemma X6_buffer_empty_between_tokens_witness :
  tok (parse_buffer (text "set 1 ") (new_parser 0)) = [].
Proof. exact (X6_buffer_empty_between_tokens (text "set 1 ") 0 eq_refl). Defined.

(** X7: a state that belongs to an option is not reached without it.
    Without naked strings the parser is never in STRING_NAKED, without
    slash comments never in COMMENT_SLASH, and without the title option
    never in TITLE_STRING, nor is a title ever marked as found. *)
Theorem X7_states_need_their_option (s : list ascii) (opt : BitMask_t) :
  (has_option opt OPTION_ALLOW_NAKED_STRINGS = false ->
   partial_tok_type (parse_buffer s (new_parser opt)) <> PartialToken.STRING_NAKED)
  /\ (has_option opt OPTION_ALLOW_SLASH_COMMENTS = false ->
      partial_tok_type (parse_buffer s (new_parser opt))
      <> PartialToken.COMMENT_SLASH)
  /\ (has_option opt OPTION_FIRST_LINE_IS_TITLE = false ->
      partial_tok_type (parse_buffer s (new_parser opt))
      <> PartialToken.TITLE_STRING
      /\ title_found (parse_buffer s (new_parser opt)) = false).
Proof.
  repeat match goal with |- _ /\ _ => split end; intro Ho.
  - apply (parse_buffer_invariant
             (fun p => options p = opt
                       /\ partial_tok_type p <> PartialToken.STRING_NAKED)).
    + intros c p [E H]. split; [now rewrite dispatch_options|].
      apply dispatch_no_naked; [now rewrite E | exact H].
    + split; [reflexivity | discriminate].
  - apply (parse_buffer_invariant
             (fun p => options p = opt
                       /\ partial_tok_type p <> PartialToken.COMMENT_SLASH)).
    + intros c p [E H]. split; [now rewrite dispatch_options|].
      apply dispatch_no_slash; [now rewrite E | exact H].
    + split; [reflexivity | discriminate].
  - apply (parse_buffer_invariant
             (fun p => options p = opt
                       /\ partial_tok_type p <> PartialToken.TITLE_STRING
                       /\ title_found p = false)).
    + intros c p [E H]. split; [now rewrite dispatch_options|].
      apply dispatch_no_title; [now rewrite E | exact H].
    + split; [reflexivity | split; [discriminate | reflexivity]].
Qed.

Lemma X7_states_need_their_option_witness :
  partial_tok_type (parse_buffer (text "set foo/") (new_parser 0))
  <> PartialToken.STRING_NAKED.
Proof.
  exact (proj1 (X7_states_need_their_option (text "set foo/") 0) eq_refl).
Defined.

Lemma dispatch_payloads (c : ascii) (p : DocumentParser) :
  Forall payload_ok (tokens (doc p)) ->
  Forall payload_ok (tokens (doc (dispatch c p))).
Proof.
  destruct p as [[tk pool] o b ln lp st tf cs]. cbn [doc tokens]. intro H.
  destruct st; handler_step; cbn [doc tokens];
    repeat (apply Forall_app; split); try exact H;
    (apply Forall_cons; [|apply Forall_nil]);
    unfold payload_ok; cbn [type data]; auto.
Qed.

(** X8: in every loaded document a LINEBREAK token has the payload 0 and
    a BOOL token the payload 1 or 0. *)
Theorem X8_payloads_of_linebreak_and_bool (s : list ascii) (opt : BitMask_t) :
  forall t : Token,
    In t (tokens (LoadFromDataStream s opt)) ->
    (type t = TokenType.LINEBREAK -> data t = f_zero)
    /\ (type t = TokenType.BOOL -> data t = f_one \/ data t = f_zero).
Proof.
  assert (H : Forall payload_ok (tokens (LoadFromDataStream s opt))).
  { rewrite LoadFromDataStream_eq.
    assert (H : Forall payload_ok (tokens (doc (parse_buffer s (new_parser opt))))).
    { apply (parse_buffer_invariant
               (fun p => Forall payload_ok (tokens (doc p)))).
      - apply dispatch_payloads.
      - constructor. }
    destruct (ensure_final_linebreak_cases (doc (parse_buffer s (new_parser opt))))
      as [-> | ->]; [exact H|].
    cbn [tokens]. apply Forall_app. split; [exact H|].
    apply Forall_cons; [reflexivity | apply Forall_nil]. }
  intros t Hin. rewrite Forall_forall in H. specialize (H t Hin).
  unfold payload_ok in H. split; intro E; rewrite E in H; exact H.
Qed.

Lemma X8_payloads_of_linebreak_and_bool_witness :
  data (mkToken TokenType.BOOL f_one) = f_one
  \/ data (mkToken TokenType.BOOL f_one) = f_zero.
Proof.
  refine (proj2 (X8_payloads_of_linebreak_and_bool
                   (text "set true") 0 (mkToken TokenType.BOOL f_one) _)
                eq_refl).
  vm_compute. right. left. reflexivity.
Defined.

Lemma comment_begins (p : DocumentParser) :
  partial_tok_type p = PartialToken.NONE ->
  (partial_tok_type (dispatch ";"%char p) = PartialToken.COMMENT_SEMICOLON
   /\ tok (dispatch ";"%char p) = tok p
   /\ doc (dispatch ";"%char p) = doc p
   /\ console (dispatch ";"%char p) = console p)
  /\ (has_option (options p) OPTION_ALLOW_SLASH_COMMENTS = true ->
      partial_tok_type (dispatch "/"%char p) = PartialToken.COMMENT_SLASH
      /\ tok (dispatch "/"%char p) = tok p
      /\ doc (dispatch "/"%char p) = doc p
      /\ console (dispatch "/"%char p) = console p).
Proof.
  destruct p as [[tk pool] o b ln lp st tf cs].
  cbn [partial_tok_type options]. intros ->. split; [|intro Ho];
    pick_handler; repeat known_char; cbv beta iota; settle;
    repeat split; reflexivity.
Qed.

Lemma comment_char (c : ascii) (p : DocumentParser) :
  in_comment p = true -> Ascii.eqb c LF = false ->
  partial_tok_type (dispatch c p) = partial_tok_type p
  /\ doc (dispatch c p) = doc p
  /\ console (dispatch c p) = console p
  /\ tok (dispatch c p) =
     if Ascii.eqb c CR then tok p
     else if Ascii.eqb c "/"
             && PartialToken.eqb (partial_tok_type p) PartialToken.COMMENT_SLASH
             && Nat.eqb (length (tok p)) 0
          then tok p
          else tok p ++ [c].
Proof.
  destruct p as [[tk pool] o b ln lp st tf cs].
  unfold in_comment, partial_is. cbn [partial_tok_type tok]. intros H Hc.
  destruct st; try discriminate H; clear H; destruct b;
    cbn [length Nat.eqb PartialToken.eqb]; rewrite ?andb_false_r, ?andb_true_r;
    handler_step;
    try match goal with
        | E : Nat.ltb _ _ = _ |- _ => cbn in E; discriminate E
        end;
    repeat split; reflexivity.
Qed.

Lemma drop_cr_snoc (s : list ascii) (c : ascii) :
  drop_cr (s ++ [c]) = drop_cr s ++ drop_cr [c].
Proof. unfold drop_cr. apply filter_app. Qed.

(** The buffer of a comment that has text already, or that began with a
    semicolon, takes every character but the carriage returns. *)
Lemma comment_run (s : list ascii) :
  no_newline s = true ->
  forall p, in_comment p = true ->
    (partial_tok_type p = PartialToken.COMMENT_SEMICOLON \/ tok p <> []) ->
    partial_tok_type (parse_buffer s p) = partial_tok_type p
    /\ doc (parse_buffer s p) = doc p
    /\ console (parse_buffer s p) = console p
    /\ tok (parse_buffer s p) = tok p ++ drop_cr s.
Proof.
  induction s as [|c s IH]; intros Hs p Hp Hk.
  - cbn. now rewrite app_nil_r.
  - cbn in Hs. apply andb_true_iff in Hs. destruct Hs as [Hc Hs].
    apply negb_true_iff in Hc.
    destruct (comment_char c p Hp Hc) as (G1 & G2 & G3 & G4).
    assert (G4' : tok (dispatch c p) = tok p ++ drop_cr [c]).
    { rewrite G4. unfold drop_cr. cbn [filter].
      destruct (Ascii.eqb c CR); cbn [negb]; [now rewrite app_nil_r|].
      destruct Hk as [Hk | Hk].
      - rewrite Hk. cbn [PartialToken.eqb]. now rewrite andb_false_r.
      - destruct (tok p); [congruence|]. cbn [length Nat.eqb].
        now rewrite andb_false_r. }
    assert (Hp' : in_comment (dispatch c p) = true).
    { unfold in_comment, partial_is in *. now rewrite G1. }
    assert (Hk' : partial_tok_type (dispatch c p) = PartialToken.COMMENT_SEMICOLON
                  \/ tok (dispatch c p) <> []).
    { destruct Hk as [Hk | Hk]; [left; congruence|].
      right. rewrite G4'. destruct (tok p); [congruence | discriminate]. }
    destruct (IH Hs (dispatch c p) Hp' Hk') as (I1 & I2 & I3 & I4).
    rewrite parse_buffer_cons. repeat split; try congruence.
    rewrite I4, G4', (drop_cr_cons c s), <- app_assoc. reflexivity.
Qed.

(** A comment that began with a slash takes no slash while it is empty. *)
Lemma slash_comment_run (s : list ascii) :
  no_newline s = true ->
  forall p, partial_tok_type p = PartialToken.COMMENT_SLASH -> tok p = [] ->
    partial_tok_type (parse_buffer s p) = PartialToken.COMMENT_SLASH
    /\ doc (parse_buffer s p) = doc p
    /\ console (parse_buffer s p) = console p
    /\ tok (parse_buffer s p) = drop_slashes (drop_cr s).
Proof.
  induction s as [|c s IH]; intros Hs p Hp Hb.
  - cbn. auto.
  - assert (Hall := Hs).
    cbn in Hs. apply andb_true_iff in Hs. destruct Hs as [Hc Hs].
    apply negb_true_iff in Hc.
    assert (Hin : in_comment p = true).
    { unfold in_comment, partial_is. now rewrite Hp. }
    destruct (Ascii.eqb_spec c CR) as [-> | Hcr].
    { rewrite parse_buffer_cons, dispatch_cr.
      destruct (IH Hs p Hp Hb) as (I1 & I2 & I3 & I4).
      repeat split; assumption. }
    apply Ascii.eqb_neq in Hcr.
    destruct (comment_char c p Hin Hc) as (G1 & G2 & G3 & G4).
    rewrite Hcr, Hp, Hb in G4. cbn [PartialToken.eqb length Nat.eqb] in G4.
    rewrite !andb_true_r in G4.
    assert (D : drop_cr (c :: s) = c :: drop_cr s).
    { unfold drop_cr. cbn [filter]. now rewrite Hcr. }
    rewrite D. cbn [drop_slashes].
    destruct (Ascii.eqb c "/") eqn:Es.
    + rewrite parse_buffer_cons.
      destruct (IH Hs (dispatch c p)) as (I1 & I2 & I3 & I4); try congruence.
      repeat split; congruence.
    + assert (Hin' : in_comment (dispatch c p) = true).
      { unfold in_comment, partial_is in *. now rewrite G1. }
      destruct (comment_run s Hs (dispatch c p) Hin') as (I1 & I2 & I3 & I4).
      { right. rewrite G4. discriminate. }
      rewrite parse_buffer_cons. repeat split; try congruence.
      rewrite I4, G4. reflexivity.
Qed.

Lemma comment_flushed (p : DocumentParser) :
  in_comment p = true ->
  tokens (doc (dispatch LF p)) =
    tokens (doc p)
    ++ [mkToken TokenType.COMMENT
          (float_of_size (Z.of_nat (length (string_pool (doc p)))));
        mkToken TokenType.LINEBREAK f_zero]
  /\ string_pool (doc (dispatch LF p)) = string_pool (doc p) ++ tok p ++ [NUL]
  /\ partial_tok_type (dispatch LF p) = PartialToken.NONE
  /\ tok (dispatch LF p) = []
  /\ console (dispatch LF p) = console p.
Proof.
  destruct p as [[tk pool] o b ln lp st tf cs].
  unfold in_comment, partial_is. cbn [partial_tok_type]. intro H.
  destruct st; try discriminate H; clear H;
    pick_handler; repeat known_char; cbv beta iota; settle;
    rewrite <- app_assoc; repeat split; reflexivity.
Qed.

(** X9: a semicolon between tokens starts a comment, whatever the
    options and the place in the line.  The characters up to the newline,
    carriage returns skipped and the blank after the semicolon kept, are
    pooled as one COMMENT token, followed by a LINEBREAK, with no warning. *)
Theorem X9_semicolon_comment (p : DocumentParser) (body : list ascii) :
  partial_tok_type p = PartialToken.NONE ->
  tok p = [] ->
  no_newline body = true ->
  let q := parse_buffer (";"%char :: body ++ [LF]) p in
  tokens (doc q) =
    tokens (doc p)
    ++ [mkToken TokenType.COMMENT
          (float_of_size (Z.of_nat (length (string_pool (doc p)))));
        mkToken TokenType.LINEBREAK f_zero]
  /\ string_pool (doc q) = string_pool (doc p) ++ drop_cr body ++ [NUL]
  /\ partial_tok_type q = PartialToken.NONE
  /\ tok q = []
  /\ console q = console p.
Proof.
  intros Hn Hb Hs q.
  destruct (proj1 (comment_begins p Hn)) as (B1 & B2 & B3 & B4).
  assert (Hin : in_comment (dispatch ";"%char p) = true).
  { unfold in_comment, partial_is. now rewrite B1. }
  destruct (comment_run body Hs _ Hin (or_introl B1)) as (R1 & R2 & R3 & R4).
  assert (Hin' : in_comment (parse_buffer body (dispatch ";"%char p)) = true).
  { unfold in_comment, partial_is in *. now rewrite R1. }
  destruct (comment_flushed _ Hin') as (F1 & F2 & F3 & F4 & F5).
  assert (E : q = dispatch LF (parse_buffer body (dispatch ";"%char p))).
  { subst q. now rewrite parse_buffer_cons, parse_buffer_snoc. }
  rewrite E. repeat split; try assumption.
  - rewrite F1, R2, B3. reflexivity.
  - rewrite F2, R2, B3, R4, B2, Hb. reflexivity.
  - congruence.
Qed.

Lemma X9_semicolon_comment_witness :
  let p := parse_buffer (text "set 1 ") (new_parser 0) in
  string_pool (doc (parse_buffer (";"%char :: text " note" ++ [LF]) p))
  = string_pool (doc p) ++ drop_cr (text " note") ++ [NUL].
Proof.
  intro p.
  exact (proj1 (proj2 (X9_semicolon_comment p (text " note")
                         eq_refl eq_refl eq_refl))).
Defined.

(** X10: with slash comments allowed one slash between tokens starts a
    comment, and the slashes that follow it at once are not part of its
    text: the pooled text is what follows the leading slashes, up to the
    newline, carriage returns skipped. *)
Theorem X10_slash_comment (p : DocumentParser) (body : list ascii) :
  partial_tok_type p = PartialToken.NONE ->
  tok p = [] ->
  has_option (options p) OPTION_ALLOW_SLASH_COMMENTS = true ->
  no_newline body = true ->
  let q := parse_buffer ("/"%char :: body ++ [LF]) p in
  tokens (doc q) =
    tokens (doc p)
    ++ [mkToken TokenType.COMMENT
          (float_of_size (Z.of_nat (length (string_pool (doc p)))));
        mkToken TokenType.LINEBREAK f_zero]
  /\ string_pool (doc q)
     = string_pool (doc p) ++ drop_slashes (drop_cr body) ++ [NUL]
  /\ partial_tok_type q = PartialToken.NONE
  /\ tok q = []
  /\ console q = console p.
Proof.
  intros Hn Hb Ho Hs q.
  destruct (proj2 (comment_begins p Hn) Ho) as (B1 & B2 & B3 & B4).
  assert (Hb' : tok (dispatch "/"%char p) = []) by congruence.
  destruct (slash_comment_run body Hs _ B1 Hb') as (R1 & R2 & R3 & R4).
  assert (Hin' : in_comment (parse_buffer body (dispatch "/"%char p)) = true).
  { unfold in_comment, partial_is in *. now rewrite R1. }
  destruct (comment_flushed _ Hin') as (F1 & F2 & F3 & F4 & F5).
  assert (E : q = dispatch LF (parse_buffer body (dispatch "/"%char p))).
  { subst q. now rewrite parse_buffer_cons, parse_buffer_snoc. }
  rewrite E. repeat split; try assumption.
  - rewrite F1, R2, B3. reflexivity.
  - rewrite F2, R2, B3, R4. reflexivity.
  - congruence.
Qed.

Lemma X10_slash_comment_witness :
  let p := new_parser OPTION_ALLOW_SLASH_COMMENTS in
  string_pool (doc (parse_buffer ("/"%char :: text "// note" ++ [LF]) p))
  = string_pool (doc p) ++ drop_slashes (drop_cr (text "// note")) ++ [NUL].
Proof.
  intro p.
  exact (proj1 (proj2 (X10_slash_comment p (text "// note")
                         eq_refl eq_refl eq_refl eq_refl))).
Defined.

Lemma alnum_is_no_case (c : ascii) :
  isalnum c = true ->
  Ascii.eqb c CR = false /\ is_separator c = false /\ Ascii.eqb c LF = false.
Proof.
  destruct c as [[] [] [] [] [] [] [] []]; intro H;
    try discriminate H; repeat split; reflexivity.
Qed.

Lemma keyword_start_inv (c : ascii) :
  keyword_start c = true ->
  isalpha c = true /\ isdigit c = false
  /\ Ascii.eqb c CR = false /\ is_separator c = false /\ Ascii.eqb c LF = false
  /\ Ascii.eqb c ";" = false /\ Ascii.eqb c "/" = false
  /\ Ascii.eqb c DQUOTE = false /\ Ascii.eqb c "." = false
  /\ Ascii.eqb c "-" = false /\ Ascii.eqb c "t" = false
  /\ Ascii.eqb c "f" = false.
Proof.
  destruct c as [[] [] [] [] [] [] [] []]; intro H;
    try discriminate H; repeat split; reflexivity.
Qed.

Lemma keyword_begins (c : ascii) (p : DocumentParser) :
  partial_tok_type p = PartialToken.NONE -> tok p = [] ->
  on_line_start (tokens (doc p)) = true ->
  awaiting_title p = false ->
  keyword_start c = true ->
  partial_tok_type (dispatch c p) = PartialToken.KEYWORD
  /\ tok (dispatch c p) = [c]
  /\ doc (dispatch c p) = doc p
  /\ console (dispatch c p) = console p.
Proof.
  destruct p as [[tk pool] o b ln lp st tf cs].
  unfold awaiting_title. cbn [partial_tok_type tok doc tokens options title_found].
  intros -> -> Hl Ha Hc.
  apply keyword_start_inv in Hc.
  destruct Hc as (C1 & C2 & C3 & C4 & C5 & C6 & C7 & C8 & C9 & C10 & C11 & C12).
  destruct (has_option o OPTION_FIRST_LINE_IS_TITLE) eqn:Ho; destruct tf;
    try discriminate Ha; clear Ha;
    handler_step; repeat split; reflexivity.
Qed.

Lemma keyword_continues (c : ascii) (p : DocumentParser) :
  partial_tok_type p = PartialToken.KEYWORD -> isalnum c = true ->
  partial_tok_type (dispatch c p) = PartialToken.KEYWORD
  /\ tok (dispatch c p) = tok p ++ [c]
  /\ doc (dispatch c p) = doc p
  /\ console (dispatch c p) = console p.
Proof.
  destruct p as [[tk pool] o b ln lp st tf cs]. cbn [partial_tok_type].
  intros -> Hc. destruct (alnum_is_no_case c Hc) as (C1 & C2 & C3).
  handler_step; repeat split; reflexivity.
Qed.

Lemma keyword_run (s : list ascii) :
  forallb isalnum s = true ->
  forall p, partial_tok_type p = PartialToken.KEYWORD ->
    partial_tok_type (parse_buffer s p) = PartialToken.KEYWORD
    /\ tok (parse_buffer s p) = tok p ++ s
    /\ doc (parse_buffer s p) = doc p
    /\ console (parse_buffer s p) = console p.
Proof.
  induction s as [|c s IH]; intros Hs p Hp.
  - cbn. now rewrite app_nil_r.
  - cbn in Hs. apply andb_true_iff in Hs. destruct Hs as [Hc Hs].
    destruct (keyword_continues c p Hp Hc) as (G1 & G2 & G3 & G4).
    destruct (IH Hs (dispatch c p) G1) as (I1 & I2 & I3 & I4).
    rewrite parse_buffer_cons. repeat split; try congruence.
    rewrite I2, G2, <- app_assoc. reflexivity.
Qed.

Lemma keyword_flushed (d : ascii) (p : DocumentParser) :
  partial_tok_type p = PartialToken.KEYWORD -> ends_token d = true ->
  tokens (doc (dispatch d p)) =
    tokens (doc p)
    ++ [mkToken TokenType.KEYWORD
          (float_of_size (Z.of_nat (length (string_pool (doc p)))))]
    ++ (if Ascii.eqb d LF then [mkToken TokenType.LINEBREAK f_zero] else [])
  /\ string_pool (doc (dispatch d p)) = string_pool (doc p) ++ tok p ++ [NUL]
  /\ partial_tok_type (dispatch d p) = PartialToken.NONE
  /\ tok (dispatch d p) = []
  /\ console (dispatch d p) = console p.
Proof.
  destruct p as [[tk pool] o b ln lp st tf cs]. cbn [partial_tok_type].
  intros -> Hd. apply ends_token_cases in Hd.
  destruct Hd as [-> | [-> | [-> | ->]]];
    pick_handler; repeat known_char; cbv beta iota; settle;
    rewrite <- ?app_assoc; repeat split; reflexivity.
Qed.

(** X11: at the start of a line, with no title to come, a letter other
    than [t] and [f], the letters and digits after it and the separator or
    newline that ends them push one KEYWORD token with exactly that text
    (and the LINEBREAK of a newline), with no warning. *)
Theorem X11_keyword_line_start (p : DocumentParser) (c d : ascii) (rest : list ascii) :
  partial_tok_type p = PartialToken.NONE ->
  tok p = [] ->
  on_line_start (tokens (doc p)) = true ->
  awaiting_title p = false ->
  keyword_start c = true ->
  forallb isalnum rest = true ->
  ends_token d = true ->
  let q := parse_buffer (c :: rest ++ [d]) p in
  tokens (doc q) =
    tokens (doc p)
    ++ [mkToken TokenType.KEYWORD
          (float_of_size (Z.of_nat (length (string_pool (doc p)))))]
    ++ (if Ascii.eqb d LF then [mkToken TokenType.LINEBREAK f_zero] else [])
  /\ string_pool (doc q) = string_pool (doc p) ++ (c :: rest) ++ [NUL]
  /\ partial_tok_type q = PartialToken.NONE
  /\ tok q = []
  /\ console q = console p.
Proof.
  intros Hn Hb Hl Ha Hc Hr Hd q.
  destruct (keyword_begins c p Hn Hb Hl Ha Hc) as (B1 & B2 & B3 & B4).
  destruct (keyword_run rest Hr _ B1) as (R1 & R2 & R3 & R4).
  destruct (keyword_flushed d _ R1 Hd) as (F1 & F2 & F3 & F4 & F5).
  assert (E : q = dispatch d (parse_buffer rest (dispatch c p))).
  { subst q. now rewrite parse_buffer_cons, parse_buffer_snoc. }
  rewrite E. repeat split; try assumption.
  - rewrite F1, R3, B3. reflexivity.
  - rewrite F2, R3, B3, R2, B2. reflexivity.
  - congruence.
Qed.

Lemma X11_keyword_line_start_witness :
  let p := parse_buffer (text "; head" ++ [LF]) (new_parser 0) in
  string_pool (doc (parse_buffer ("s"%char :: text "et2" ++ [" "%char]) p))
  = string_pool (doc p) ++ ("s"%char :: text "et2") ++ [NUL].
Proof.
  intro p.
  exact (proj1 (proj2 (X11_keyword_line_start p "s"%char " "%char (text "et2")
                         eq_refl eq_refl eq_refl eq_refl eq_refl eq_refl
                         eq_refl))).
Defined.

Lemma title_pending_cases (o : BitMask_t) (tf : bool) (tk : list Token) :
  has_option o OPTION_FIRST_LINE_IS_TITLE && negb tf && on_line_start tk = false ->
  has_option o OPTION_FIRST_LINE_IS_TITLE = false
  \/ tf = true
  \/ on_line_start tk = false.
Proof.
  destruct (has_option o OPTION_FIRST_LINE_IS_TITLE), tf, (on_line_start tk);
    cbn; auto.
Qed.

Lemma quoted_begins (p : DocumentParser) :
  partial_tok_type p = PartialToken.NONE -> tok p = [] ->
  title_pending p = false ->
  partial_tok_type (dispatch DQUOTE p) = PartialToken.STRING_QUOTED
  /\ tok (dispatch DQUOTE p) = []
  /\ doc (dispatch DQUOTE p) = doc p
  /\ console (dispatch DQUOTE p) = console p
  /\ line_num (dispatch DQUOTE p) = line_num p.
Proof.
  destruct p as [[tk pool] o b ln lp st tf cs].
  unfold title_pending. cbn [partial_tok_type tok doc tokens options title_found].
  intros -> -> Ht.
  destruct (title_pending_cases _ _ _ Ht) as [H | [-> | H]]; clear Ht;
    pick_handler; repeat known_char; cbv beta iota; settle;
    repeat split; reflexivity.
Qed.

Lemma quotable_inv (c : ascii) :
  quotable c = true ->
  Ascii.eqb c LF = false /\ Ascii.eqb c DQUOTE = false /\ is_separator c = false.
Proof.
  unfold quotable. intro H.
  repeat (apply andb_true_iff in H; destruct H as [H ?]).
  repeat match goal with
         | E : negb _ = true |- _ => apply negb_true_iff in E
         end.
  auto.
Qed.

Lemma quoted_continues (c : ascii) (p : DocumentParser) :
  partial_tok_type p = PartialToken.STRING_QUOTED -> quotable c = true ->
  partial_tok_type (dispatch c p) = PartialToken.STRING_QUOTED
  /\ tok (dispatch c p) = tok p ++ drop_cr [c]
  /\ doc (dispatch c p) = doc p
  /\ console (dispatch c p) = console p
  /\ line_num (dispatch c p) = line_num p.
Proof.
  destruct p as [[tk pool] o b ln lp st tf cs]. cbn [partial_tok_type].
  intros -> Hc. destruct (quotable_inv c Hc) as (C1 & C2 & C3).
  unfold drop_cr. cbn [filter].
  handler_step; rewrite ?app_nil_r; repeat split; reflexivity.
Qed.

Lemma quoted_run (s : list ascii) :
  forallb quotable s = true ->
  forall p, partial_tok_type p = PartialToken.STRING_QUOTED ->
    partial_tok_type (parse_buffer s p) = PartialToken.STRING_QUOTED
    /\ tok (parse_buffer s p) = tok p ++ drop_cr s
    /\ doc (parse_buffer s p) = doc p
    /\ console (parse_buffer s p) = console p
    /\ line_num (parse_buffer s p) = line_num p.
Proof.
  induction s as [|c s IH]; intros Hs p Hp.
  - cbn. now rewrite app_nil_r.
  - cbn in Hs. apply andb_true_iff in Hs. destruct Hs as [Hc Hs].
    destruct (quoted_continues c p Hp Hc) as (G1 & G2 & G3 & G4 & G5).
    destruct (IH Hs (dispatch c p) G1) as (I1 & I2 & I3 & I4 & I5).
    rewrite parse_buffer_cons. repeat split; try congruence.
    rewrite I2, G2, (drop_cr_cons c s), <- app_assoc. reflexivity.
Qed.

Lemma quoted_ended (p : DocumentParser) :
  partial_tok_type p = PartialToken.STRING_QUOTED ->
  (tokens (doc (dispatch DQUOTE p)) =
     tokens (doc p)
     ++ [mkToken TokenType.STRING
           (float_of_size (Z.of_nat (length (string_pool (doc p)))))]
   /\ string_pool (doc (dispatch DQUOTE p)) = string_pool (doc p) ++ tok p ++ [NUL]
   /\ partial_tok_type (dispatch DQUOTE p) = PartialToken.NONE
   /\ tok (dispatch DQUOTE p) = []
   /\ console (dispatch DQUOTE p) = console p)
  /\ (tokens (doc (dispatch LF p)) =
        tokens (doc p)
        ++ [mkToken TokenType.STRING
              (float_of_size (Z.of_nat (length (string_pool (doc p)))));
            mkToken TokenType.LINEBREAK f_zero]
      /\ string_pool (doc (dispatch LF p)) = string_pool (doc p) ++ tok p ++ [NUL]
      /\ partial_tok_type (dispatch LF p) = PartialToken.NONE
      /\ tok (dispatch LF p) = []
      /\ console (dispatch LF p) =
         console p ++ [quoted_string_interrupted (line_num p) (line_pos p)]).
Proof.
  destruct p as [[tk pool] o b ln lp st tf cs]. cbn [partial_tok_type].
  intros ->.
  split; pick_handler; repeat known_char; cbv beta iota; settle;
    rewrite <- ?app_assoc; repeat split; reflexivity.
Qed.

(** X12: a quoted string that holds no separator is pooled as it is,
    carriage returns skipped.  The closing quote pushes the STRING token
    with no warning; a newline in place of the closing quote pushes the
    same token and a LINEBREAK, with one warning that the string was
    interrupted. *)
Theorem X12_quoted_string (p : DocumentParser) (body : list ascii) :
  partial_tok_type p = PartialToken.NONE ->
  tok p = [] ->
  title_pending p = false ->
  forallb quotable body = true ->
  let off := float_of_size (Z.of_nat (length (string_pool (doc p)))) in
  let closed := parse_buffer (DQUOTE :: body ++ [DQUOTE]) p in
  let broken := parse_buffer (DQUOTE :: body ++ [LF]) p in
  (tokens (doc closed) = tokens (doc p) ++ [mkToken TokenType.STRING off]
   /\ string_pool (doc closed) = string_pool (doc p) ++ drop_cr body ++ [NUL]
   /\ partial_tok_type closed = PartialToken.NONE
   /\ console closed = console p)
  /\ (tokens (doc broken) =
        tokens (doc p)
        ++ [mkToken TokenType.STRING off; mkToken TokenType.LINEBREAK f_zero]
      /\ string_pool (doc broken) = string_pool (doc p) ++ drop_cr body ++ [NUL]
      /\ partial_tok_type broken = PartialToken.NONE
      /\ exists pos,
           console broken =
           console p ++ [quoted_string_interrupted (line_num p) pos]).
Proof.
  intros Hn Hb Ht Hs off closed broken.
  destruct (quoted_begins p Hn Hb Ht) as (B1 & B2 & B3 & B4 & B5).
  destruct (quoted_run body Hs _ B1) as (R1 & R2 & R3 & R4 & R5).
  destruct (quoted_ended _ R1) as [(F1 & F2 & F3 & F4 & F5) (G1 & G2 & G3 & G4 & G5)].
  assert (E1 : closed = dispatch DQUOTE (parse_buffer body (dispatch DQUOTE p))).
  { subst closed. now rewrite parse_buffer_cons, parse_buffer_snoc. }
  assert (E2 : broken = dispatch LF (parse_buffer body (dispatch DQUOTE p))).
  { subst broken. now rewrite parse_buffer_cons, parse_buffer_snoc. }
  rewrite E1, E2. subst off. repeat split; try assumption.
  - rewrite F1, R3, B3. reflexivity.
  - rewrite F2, R3, B3, R2, B2. reflexivity.
  - congruence.
  - rewrite G1, R3, B3. reflexivity.
  - rewrite G2, R3, B3, R2, B2. reflexivity.
  - exists (line_pos (parse_buffer body (dispatch DQUOTE p))).
    rewrite G5, R4, B4, R5, B5. reflexivity.
Qed.

Lemma X12_quoted_string_witness :
  let p := parse_buffer (text "set ") (new_parser 0) in
  string_pool (doc (parse_buffer (DQUOTE :: text "a-b" ++ [DQUOTE]) p))
  = string_pool (doc p) ++ drop_cr (text "a-b") ++ [NUL].
Proof.
  intro p.
  exact (proj1 (proj2 (proj1 (X12_quoted_string p (text "a-b")
                                eq_refl eq_refl eq_refl eq_refl)))).
Defined.

(** ** Booleans *)

Lemma bool_begins (p : DocumentParser) :
  partial_tok_type p = PartialToken.NONE -> tok p = [] ->
  title_pending p = false ->
  (partial_tok_type (dispatch "t"%char p) = PartialToken.BOOL_TRUE
   /\ tok (dispatch "t"%char p) = ["t"%char]
   /\ doc (dispatch "t"%char p) = doc p
   /\ console (dispatch "t"%char p) = console p
   /\ line_num (dispatch "t"%char p) = line_num p)
  /\ (partial_tok_type (dispatch "f"%char p) = PartialToken.BOOL_FALSE
      /\ tok (dispatch "f"%char p) = ["f"%char]
      /\ doc (dispatch "f"%char p) = doc p
      /\ console (dispatch "f"%char p) = console p
      /\ line_num (dispatch "f"%char p) = line_num p).
Proof.
  destruct p as [[tk pool] o b ln lp st tf cs].
  unfold title_pending. cbn [partial_tok_type tok doc tokens options title_found].
  intros -> -> Ht.
  destruct (title_pending_cases _ _ _ Ht) as [H | [-> | H]]; clear Ht;
    (split; pick_handler; repeat known_char; cbv beta iota; settle;
     repeat split; reflexivity).
Qed.

(** The letters that follow the first complete the literal, whatever the
    options are. *)
Lemma bool_completes (p : DocumentParser) :
  (partial_tok_type p = PartialToken.BOOL_TRUE -> tok p = ["t"%char] ->
   let q := parse_buffer (text "rue") p in
   tokens (doc q) = tokens (doc p) ++ [mkToken TokenType.BOOL f_one]
   /\ string_pool (doc q) = string_pool (doc p)
   /\ partial_tok_type q = PartialToken.NONE /\ tok q = []
   /\ console q = console p)
  /\ (partial_tok_type p = PartialToken.BOOL_FALSE -> tok p = ["f"%char] ->
      let q := parse_buffer (text "alse") p in
      tokens (doc q) = tokens (doc p) ++ [mkToken TokenType.BOOL f_zero]
      /\ string_pool (doc q) = string_pool (doc p)
      /\ partial_tok_type q = PartialToken.NONE /\ tok q = []
      /\ console q = console p).
Proof.
  destruct p as [[tk pool] o b ln lp st tf cs].
  cbn [partial_tok_type tok doc tokens string_pool console].
  split; intros -> ->; cbv zeta.
  - let l := eval vm_compute in (text "rue") in change (text "rue") with l.
    do 3 feed_sizes. change (parse_buffer [] ?x) with x.
    cbn [doc tokens string_pool partial_tok_type tok console].
    repeat split; reflexivity.
  - let l := eval vm_compute in (text "alse") in change (text "alse") with l.
    do 4 feed_sizes. change (parse_buffer [] ?x) with x.
    cbn [doc tokens string_pool partial_tok_type tok console].
    repeat split; reflexivity.
Qed.

(** X13: between tokens, where no title is to come, [true] pushes
    BOOL(1) and [false] pushes BOOL(0) at their last letter: the pool and
    the console stay as they are, and the parser is between tokens again
    without a separator. *)
Theorem X13_boolean_literals (p : DocumentParser) :
  partial_tok_type p = PartialToken.NONE ->
  tok p = [] ->
  title_pending p = false ->
  let t := parse_buffer (text "true") p in
  let f := parse_buffer (text "false") p in
  (tokens (doc t) = tokens (doc p) ++ [mkToken TokenType.BOOL f_one]
   /\ string_pool (doc t) = string_pool (doc p)
   /\ partial_tok_type t = PartialToken.NONE /\ tok t = []
   /\ console t = console p)
  /\ (tokens (doc f) = tokens (doc p) ++ [mkToken TokenType.BOOL f_zero]
      /\ string_pool (doc f) = string_pool (doc p)
      /\ partial_tok_type f = PartialToken.NONE /\ tok f = []
      /\ console f = console p).
Proof.
  intros Hn Hb Ht t f.
  destruct (bool_begins p Hn Hb Ht) as [(T1 & T2 & T3 & T4 & _) (F1 & F2 & F3 & F4 & _)].
  destruct (proj1 (bool_completes _) T1 T2) as (A1 & A2 & A3 & A4 & A5).
  destruct (proj2 (bool_completes _) F1 F2) as (B1 & B2 & B3 & B4 & B5).
  assert (Et : t = parse_buffer (text "rue") (dispatch "t"%char p)) by reflexivity.
  assert (Ef : f = parse_buffer (text "alse") (dispatch "f"%char p)) by reflexivity.
  rewrite Et, Ef. repeat split; try assumption; congruence.
Qed.

Lemma X13_boolean_literals_witness :
  let p := parse_buffer (text "set ") (new_parser 0) in
  tokens (doc (parse_buffer (text "true") p))
  = tokens (doc p) ++ [mkToken TokenType.BOOL f_one].
Proof.
  intro p.
  exact (proj1 (proj1 (X13_boolean_literals p eq_refl eq_refl eq_refl))).
Defined.

Lemma bool_discarded (d : ascii) (p : DocumentParser) :
  partial_tok_type p = PartialToken.BOOL_TRUE
  \/ partial_tok_type p = PartialToken.BOOL_FALSE ->
  ends_token d = true ->
  tokens (doc (dispatch d p)) =
    tokens (doc p)
    ++ (if Ascii.eqb d LF then [mkToken TokenType.LINEBREAK f_zero] else [])
  /\ string_pool (doc (dispatch d p)) = string_pool (doc p)
  /\ partial_tok_type (dispatch d p) = PartialToken.NONE
  /\ tok (dispatch d p) = []
  /\ console (dispatch d p) =
     console p ++ [discarding_incomplete_boolean (line_num p) (line_pos p)
                     (c_str (tok p))].
Proof.
  destruct p as [[tk pool] o b ln lp st tf cs]. cbn [partial_tok_type].
  intros Hst Hd. apply ends_token_cases in Hd.
  destruct Hst as [-> | ->]; destruct Hd as [-> | [-> | [-> | ->]]];
    pick_handler; repeat known_char; cbv beta iota; settle;
    rewrite ?c_str_terminated, ?app_nil_r; repeat split; reflexivity.
Qed.

Lemma bool_prefix_continues (p : DocumentParser) (w : list ascii) :
  (partial_tok_type p = PartialToken.BOOL_TRUE -> tok p = ["t"%char] ->
   In w (map text [""; "r"; "ru"]%string) ->
   partial_tok_type (parse_buffer w p) = PartialToken.BOOL_TRUE
   /\ tok (parse_buffer w p) = "t"%char :: w
   /\ doc (parse_buffer w p) = doc p
   /\ console (parse_buffer w p) = console p
   /\ line_num (parse_buffer w p) = line_num p)
  /\ (partial_tok_type p = PartialToken.BOOL_FALSE -> tok p = ["f"%char] ->
      In w (map text [""; "a"; "al"; "als"]%string) ->
      partial_tok_type (parse_buffer w p) = PartialToken.BOOL_FALSE
      /\ tok (parse_buffer w p) = "f"%char :: w
      /\ doc (parse_buffer w p) = doc p
      /\ console (parse_buffer w p) = console p
      /\ line_num (parse_buffer w p) = line_num p).
Proof.
  destruct p as [[tk pool] o b ln lp st tf cs].
  cbn [partial_tok_type tok doc console line_num].
  split; intros -> -> Hw; unfold text in Hw;
    cbn [map In list_ascii_of_string] in Hw;
    repeat (destruct Hw as [<- | Hw]); try contradiction;
    repeat feed_sizes; change (parse_buffer [] ?x) with x;
    cbn [partial_tok_type tok doc console line_num app];
    repeat split; reflexivity.
Qed.

Lemma bool_prefix_kept (w : list ascii) (p : DocumentParser) :
  partial_tok_type p = PartialToken.NONE -> tok p = [] ->
  title_pending p = false ->
  In w bool_prefixes ->
  (partial_tok_type (parse_buffer w p) = PartialToken.BOOL_TRUE
   \/ partial_tok_type (parse_buffer w p) = PartialToken.BOOL_FALSE)
  /\ tok (parse_buffer w p) = w
  /\ doc (parse_buffer w p) = doc p
  /\ console (parse_buffer w p) = console p
  /\ line_num (parse_buffer w p) = line_num p.
Proof.
  intros Hn Hb Ht Hw.
  destruct (bool_begins p Hn Hb Ht)
    as [(T1 & T2 & T3 & T4 & T5) (F1 & F2 & F3 & F4 & F5)].
  unfold bool_prefixes, text in Hw. cbn [map In list_ascii_of_string] in Hw.
  destruct Hw as [<- | [<- | [<- | Hw]]].
  4: destruct Hw as [<- | [<- | [<- | [<- | []]]]].
  1-3: rewrite parse_buffer_cons;
    match goal with
    | |- context [parse_buffer ?w _] =>
        destruct (proj1 (bool_prefix_continues (dispatch "t"%char p) w) T1 T2)
          as (A1 & A2 & A3 & A4 & A5);
        [cbn; auto | repeat split; [left; exact A1 | congruence ..]]
    end.
  all: rewrite parse_buffer_cons;
    match goal with
    | |- context [parse_buffer ?w _] =>
        destruct (proj2 (bool_prefix_continues (dispatch "f"%char p) w) F1 F2)
          as (A1 & A2 & A3 & A4 & A5);
        [cbn; auto | repeat split; [right; exact A1 | congruence ..]]
    end.
Qed.

(** X14: a beginning of [true] or [false] that a separator or newline
    cuts short pushes no token (but the LINEBREAK of a newline) and is
    reported once as an incomplete boolean, with the text read so far. *)
Theorem X14_incomplete_boolean (p : DocumentParser) (w : list ascii) (d : ascii) :
  partial_tok_type p = PartialToken.NONE ->
  tok p = [] ->
  title_pending p = false ->
  In w bool_prefixes ->
  ends_token d = true ->
  let q := parse_buffer (w ++ [d]) p in
  tokens (doc q) =
    tokens (doc p)
    ++ (if Ascii.eqb d LF then [mkToken TokenType.LINEBREAK f_zero] else [])
  /\ string_pool (doc q) = string_pool (doc p)
  /\ partial_tok_type q = PartialToken.NONE
  /\ tok q = []
  /\ exists pos,
       console q =
       console p ++ [discarding_incomplete_boolean (line_num p) pos w].
Proof.
  intros Hn Hb Ht Hw Hd q.
  destruct (bool_prefix_kept w p Hn Hb Ht Hw) as (K1 & K2 & K3 & K4 & K5).
  destruct (bool_discarded d _ K1 Hd) as (D1 & D2 & D3 & D4 & D5).
  assert (E : q = dispatch d (parse_buffer w p)).
  { subst q. apply parse_buffer_snoc. }
  rewrite E. repeat split; try assumption; try congruence.
  exists (line_pos (parse_buffer w p)).
  rewrite D5, K4, K5, K2. f_equal. f_equal. f_equal.
  unfold bool_prefixes, text in Hw. cbn [map In list_ascii_of_string] in Hw.
  repeat (destruct Hw as [<- | Hw]); try contradiction; reflexivity.
Qed.

Lemma X14_incomplete_boolean_witness :
  let p := parse_buffer (text "set ") (new_parser 0) in
  string_pool (doc (parse_buffer (text "tru" ++ [" "%char]) p))
  = string_pool (doc p).
Proof.
  intro p.
  refine (proj1 (proj2 (X14_incomplete_boolean p (text "tru") " "%char
                          eq_refl eq_refl eq_refl _ eq_refl))).
  vm_compute. right. right. left. reflexivity.
Defined.

(** ** Bare words *)

Lemma word_begins (c : ascii) (p : DocumentParser) :
  partial_tok_type p = PartialToken.NONE -> tok p = [] ->
  not_on_line_start (tokens (doc p)) = true ->
  keyword_start c = true ->
  (has_option (options p) OPTION_ALLOW_NAKED_STRINGS = true ->
   partial_tok_type (dispatch c p) = PartialToken.STRING_NAKED
   /\ tok (dispatch c p) = [c]
   /\ doc (dispatch c p) = doc p
   /\ console (dispatch c p) = console p)
  /\ (has_option (options p) OPTION_ALLOW_NAKED_STRINGS = false ->
      partial_tok_type (dispatch c p) = PartialToken.GARBAGE
      /\ tok (dispatch c p) = [c]
      /\ doc (dispatch c p) = doc p
      /\ console (dispatch c p) =
         console p ++ [stray_character InNone (line_num p)
                         (size_incr (line_pos p)) c]
      /\ line_num (dispatch c p) = line_num p).
Proof.
  destruct p as [[tk pool] o b ln lp st tf cs].
  cbn [partial_tok_type tok doc tokens options console line_num line_pos].
  intros -> -> Hl Hc.
  assert (L0 : on_line_start tk = false).
  { rewrite not_on_line_start_negb in Hl. now apply negb_true_iff in Hl. }
  apply keyword_start_inv in Hc.
  destruct Hc as (C1 & C2 & C3 & C4 & C5 & C6 & C7 & C8 & C9 & C10 & C11 & C12).
  split; intro Ho; handler_step; repeat split; reflexivity.
Qed.

Lemma naked_char_inv (c : ascii) :
  naked_char c = true ->
  is_separator c = false /\ Ascii.eqb c LF = false /\ Ascii.eqb c DQUOTE = false.
Proof.
  unfold naked_char. intro H. apply andb_true_iff in H. destruct H as [H1 H2].
  apply negb_true_iff in H1, H2. apply ends_token_false in H1. tauto.
Qed.

Lemma naked_continues (c : ascii) (p : DocumentParser) :
  partial_tok_type p = PartialToken.STRING_NAKED -> naked_char c = true ->
  partial_tok_type (dispatch c p) = PartialToken.STRING_NAKED
  /\ tok (dispatch c p) = tok p ++ drop_cr [c]
  /\ doc (dispatch c p) = doc p
  /\ console (dispatch c p) = console p.
Proof.
  destruct p as [[tk pool] o b ln lp st tf cs]. cbn [partial_tok_type].
  intros -> Hc. destruct (naked_char_inv c Hc) as (C1 & C2 & C3).
  unfold drop_cr. cbn [filter].
  handler_step; rewrite ?app_nil_r; repeat split; reflexivity.
Qed.

Lemma naked_run (s : list ascii) :
  forallb naked_char s = true ->
  forall p, partial_tok_type p = PartialToken.STRING_NAKED ->
    partial_tok_type (parse_buffer s p) = PartialToken.STRING_NAKED
    /\ tok (parse_buffer s p) = tok p ++ drop_cr s
    /\ doc (parse_buffer s p) = doc p
    /\ console (parse_buffer s p) = console p.
Proof.
  induction s as [|c s IH]; intros Hs p Hp.
  - cbn. now rewrite app_nil_r.
  - cbn in Hs. apply andb_true_iff in Hs. destruct Hs as [Hc Hs].
    destruct (naked_continues c p Hp Hc) as (G1 & G2 & G3 & G4).
    destruct (IH Hs (dispatch c p) G1) as (I1 & I2 & I3 & I4).
    rewrite parse_buffer_cons. repeat split; try congruence.
    rewrite I2, G2, (drop_cr_cons c s), <- app_assoc. reflexivity.
Qed.

Lemma naked_ended (d : ascii) (p : DocumentParser) :
  partial_tok_type p = PartialToken.STRING_NAKED -> ends_token d = true ->
  tokens (doc (dispatch d p)) =
    tokens (doc p)
    ++ [mkToken TokenType.STRING
          (float_of_size (Z.of_nat (length (string_pool (doc p)))))]
    ++ (if Ascii.eqb d LF then [mkToken TokenType.LINEBREAK f_zero] else [])
  /\ string_pool (doc (dispatch d p)) = string_pool (doc p) ++ tok p ++ [NUL]
  /\ partial_tok_type (dispatch d p) = PartialToken.NONE
  /\ tok (dispatch d p) = []
  /\ console (dispatch d p) = console p.
Proof.
  destruct p as [[tk pool] o b ln lp st tf cs]. cbn [partial_tok_type].
  intros -> Hd. apply ends_token_cases in Hd.
  destruct Hd as [-> | [-> | [-> | ->]]];
    pick_handler; repeat known_char; cbv beta iota; settle;
    rewrite <- ?app_assoc; repeat split; reflexivity.
Qed.

(** X15: without naked strings a bare word after the first token of a
    line (a letter other than [t] and [f], then anything up to a separator
    or newline) is dropped: the document stays as it was, and the console
    gets a stray-character warning for the first letter and a
    discarded-garbage message with the word. *)
Theorem X15_bare_word_without_naked_strings
    (p : DocumentParser) (c d : ascii) (rest : list ascii) :
  partial_tok_type p = PartialToken.NONE ->
  tok p = [] ->
  not_on_line_start (tokens (doc p)) = true ->
  has_option (options p) OPTION_ALLOW_NAKED_STRINGS = false ->
  keyword_start c = true ->
  no_token_end rest = true ->
  ends_token d = true ->
  let q := parse_buffer (c :: rest ++ [d]) p in
  doc q = doc p
  /\ partial_tok_type q = PartialToken.NONE
  /\ tok q = []
  /\ exists pos,
       console q =
       console p
       ++ [stray_character InNone (line_num p) (size_incr (line_pos p)) c;
           discarding_garbage (line_num p) pos (c_str (c :: drop_cr rest))].
Proof.
  intros Hn Hb Hl Ho Hc Hr Hd q.
  destruct (proj2 (word_begins c p Hn Hb Hl Hc) Ho) as (B1 & B2 & B3 & B4 & B5).
  destruct (garbage_run rest Hr _ B1) as (R1 & R2 & R3 & R4 & R5).
  destruct (garbage_discarded d _ R1 Hd) as (D1 & D2 & D3 & D4).
  assert (E : q = dispatch d (parse_buffer rest (dispatch c p))).
  { subst q. now rewrite parse_buffer_cons, parse_buffer_snoc. }
  rewrite E. repeat split; try assumption; try congruence.
  exists (line_pos (parse_buffer rest (dispatch c p))).
  rewrite D4, R4, B4, R5, B5, R3, B2, <- app_assoc. reflexivity.
Qed.

Lemma X15_bare_word_without_naked_strings_witness :
  let p := parse_buffer (text "set ") (new_parser 0) in
  doc (parse_buffer ("w"%char :: text "ord" ++ [" "%char]) p) = doc p.
Proof.
  intro p.
  exact (proj1 (X15_bare_word_without_naked_strings p "w"%char " "%char
                  (text "ord") eq_refl eq_refl eq_refl eq_refl eq_refl eq_refl
                  eq_refl)).
Defined.

(** X16: with naked strings the same bare word, free of double quotes,
    is pushed as one STRING token with the word as its text, carriage
    returns skipped (and the LINEBREAK of a newline), with no warning. *)
Theorem X16_bare_word_with_naked_strings
    (p : DocumentParser) (c d : ascii) (rest : list ascii) :
  partial_tok_type p = PartialToken.NONE ->
  tok p = [] ->
  not_on_line_start (tokens (doc p)) = true ->
  has_option (options p) OPTION_ALLOW_NAKED_STRINGS = true ->
  keyword_start c = true ->
  forallb naked_char rest = true ->
  ends_token d = true ->
  let q := parse_buffer (c :: rest ++ [d]) p in
  tokens (doc q) =
    tokens (doc p)
    ++ [mkToken TokenType.STRING
          (float_of_size (Z.of_nat (length (string_pool (doc p)))))]
    ++ (if Ascii.eqb d LF then [mkToken TokenType.LINEBREAK f_zero] else [])
  /\ string_pool (doc q) = string_pool (doc p) ++ (c :: drop_cr rest) ++ [NUL]
  /\ partial_tok_type q = PartialToken.NONE
  /\ tok q = []
  /\ console q = console p.
Proof.
  intros Hn Hb Hl Ho Hc Hr Hd q.
  destruct (proj1 (word_begins c p Hn Hb Hl Hc) Ho) as (B1 & B2 & B3 & B4).
  destruct (naked_run rest Hr _ B1) as (R1 & R2 & R3 & R4).
  destruct (naked_ended d _ R1 Hd) as (F1 & F2 & F3 & F4 & F5).
  assert (E : q = dispatch d (parse_buffer rest (dispatch c p))).
  { subst q. now rewrite parse_buffer_cons, parse_buffer_snoc. }
  rewrite E. repeat split; try assumption.
  - rewrite F1, R3, B3. reflexivity.
  - rewrite F2, R3, B3, R2, B2. reflexivity.
  - congruence.
Qed.

Lemma X16_bare_word_with_naked_strings_witness :
  let p := parse_buffer (text "set ") (new_parser OPTION_ALLOW_NAKED_STRINGS) in
  string_pool (doc (parse_buffer ("w"%char :: text "ord" ++ [" "%char]) p))
  = string_pool (doc p) ++ ("w"%char :: drop_cr (text "ord")) ++ [NUL].
Proof.
  intro p.
  exact (proj1 (proj2 (X16_bare_word_with_naked_strings p "w"%char " "%char
                         (text "ord") eq_refl eq_refl eq_refl eq_refl eq_refl
                         eq_refl eq_refl))).
Defined.

Lemma save_token_written (pf : Platform) (pool : list ascii) (w : Writer) (t : Token) :
  save_token pf pool w t =
  mkWriter (written w
            ++ written (save_token pf pool (mkWriter [] (separator w)) t))
           (separator (save_token pf pool (mkWriter [] (separator w)) t)).
Proof.
  unfold save_token, write, set_separator.
  destruct (type t); cbn [written separator app]; rewrite <- ?app_assoc;
    reflexivity.
Qed.

(** What is written depends on the writer through its separator only. *)
Lemma save_tokens_written (pf : Platform) (pool : list ascii) (l : list Token) :
  forall w,
    save_tokens pf pool l w =
    mkWriter (written w
              ++ written (save_tokens pf pool l (mkWriter [] (separator w))))
             (separator (save_tokens pf pool l (mkWriter [] (separator w)))).
Proof.
  unfold save_tokens.
  induction l as [|t l IH]; intro w.
  - cbn. rewrite app_nil_r. now destruct w.
  - cbn [fold_left].
    rewrite (IH (save_token pf pool w t)).
    rewrite (IH (save_token pf pool (mkWriter [] (separator w)) t)).
    rewrite (save_token_written pf pool w t).
    cbn [written separator]. now rewrite app_assoc.
Qed.

Lemma save_splits_at_linebreak
    (pf : Platform) (pool : list ascii) (l1 l2 : list Token) (t : Token) :
  type t = TokenType.LINEBREAK ->
  SaveToDataStream pf (mkDoc (l1 ++ t :: l2) pool)
  = SaveToDataStream pf (mkDoc l1 pool) ++ EOL_STR pf
    ++ SaveToDataStream pf (mkDoc l2 pool).
Proof.
  intro Ht. unfold SaveToDataStream. cbn [tokens string_pool].
  rewrite fold_left_app. cbn [fold_left].
  fold (save_tokens pf pool l1 (mkWriter [] [])).
  fold (save_tokens pf pool l2 (mkWriter [] [])).
  fold (save_tokens pf pool l2
          (save_token pf pool (save_tokens pf pool l1 (mkWriter [] [])) t)).
  rewrite save_tokens_written.
  unfold save_token at 1 2. rewrite Ht.
  unfold write, set_separator. cbn [written separator].
  now rewrite <- app_assoc.
Qed.

(** X17: the writer starts afresh after each LINEBREAK: what is saved
    for tokens, a LINEBREAK and more tokens is what is saved for the first
    tokens, the line terminator, and what is saved for the others alone. *)
Theorem X17_lines_are_saved_one_by_one
    (pf : Platform) (pool : list ascii) (l1 l2 : list Token) (t : Token) :
  type t = TokenType.LINEBREAK ->
  SaveToDataStream pf (mkDoc (l1 ++ t :: l2) pool)
  = SaveToDataStream pf (mkDoc l1 pool) ++ EOL_STR pf
    ++ SaveToDataStream pf (mkDoc l2 pool).
Proof. apply save_splits_at_linebreak. Qed.

Lemma X17_lines_are_saved_one_by_one_witness :
  let pool := text "set" ++ [NUL] in
  let l1 := [mkToken TokenType.KEYWORD (float_of_size 0)] in
  let l2 := [mkToken TokenType.BOOL f_one] in
  let t := mkToken TokenType.LINEBREAK f_zero in
  SaveToDataStream PLATFORM_OTHER (mkDoc (l1 ++ t :: l2) pool)
  = SaveToDataStream PLATFORM_OTHER (mkDoc l1 pool) ++ EOL_STR PLATFORM_OTHER
    ++ SaveToDataStream PLATFORM_OTHER (mkDoc l2 pool).
Proof.
  intros pool l1 l2 t.
  exact (X17_lines_are_saved_one_by_one PLATFORM_OTHER pool l1 l2 t eq_refl).
Defined.

Lemma save_values (pf : Platform) (pool : list ascii) (args : list Token) :
  forallb is_value args = true ->
  forall w,
    written (save_tokens pf pool args w)
    = written w ++ joined (separator w) pool args
    /\ (args <> [] -> separator (save_tokens pf pool args w) = [","%char]).
Proof.
  unfold save_tokens.
  induction args as [|a r IH]; intros Hv w.
  - cbn. rewrite app_nil_r. split; [reflexivity | congruence].
  - cbn in Hv. apply andb_true_iff in Hv. destruct Hv as [Ha Hr].
    cbn [fold_left].
    assert (S1 : save_token pf pool w a
                 = mkWriter ((written w ++ separator w) ++ render pool a)
                            [","%char]).
    { unfold save_token, render, is_value, write, set_separator in *.
      destruct (type a); try discriminate Ha; reflexivity. }
    rewrite S1. destruct (IH Hr (mkWriter ((written w ++ separator w)
                                            ++ render pool a) [","%char]))
      as [I1 I2].
    split.
    + rewrite I1. cbn [written separator joined].
      destruct r as [|b r']; cbn [joined map concat];
        rewrite <- ?app_assoc; cbn [app]; rewrite ?app_nil_r; reflexivity.
    + intros _. destruct r as [|b r']; [reflexivity|].
      apply I2. discriminate.
Qed.

(** X18: a keyword followed by values is saved as the keyword, a space,
    and the values with a comma between neighbours; values with no keyword
    before them are saved with commas only. *)
Theorem X18_keyword_line_is_saved_with_separators
    (pf : Platform) (pool : list ascii) (k : Token) (args : list Token) :
  type k = TokenType.KEYWORD ->
  forallb is_value args = true ->
  SaveToDataStream pf (mkDoc (k :: args) pool)
  = pool_str pool (data k) ++ joined [" "%char] pool args
  /\ SaveToDataStream pf (mkDoc args pool) = joined [] pool args.
Proof.
  intros Hk Hv. unfold SaveToDataStream. cbn [tokens string_pool fold_left].
  split.
  - fold (save_tokens pf pool args (save_token pf pool (mkWriter [] []) k)).
    rewrite (proj1 (save_values pf pool args Hv _)).
    unfold save_token. rewrite Hk. reflexivity.
  - fold (save_tokens pf pool args (mkWriter [] [])).
    now rewrite (proj1 (save_values pf pool args Hv _)).
Qed.

Lemma X18_keyword_line_is_saved_with_separators_witness :
  SaveToDataStream PLATFORM_OTHER
    (mkDoc [mkToken TokenType.KEYWORD (float_of_size 0);
            mkToken TokenType.BOOL f_one; mkToken TokenType.BOOL f_zero]
           (text "set" ++ [NUL]))
  = text "set true,false".
Proof.
  exact (proj1 (X18_keyword_line_is_saved_with_separators PLATFORM_OTHER
                  (text "set" ++ [NUL]) (mkToken TokenType.KEYWORD (float_of_size 0))
                  [mkToken TokenType.BOOL f_one; mkToken TokenType.BOOL f_zero]
                  eq_refl eq_refl)).
Defined.



Lemma reader_step (d : GenericDocument) (pos : nat) :
  (EndOfFile (reader_at d pos) 0 = true /\ skipn pos (tokens d) = [])
  \/ (exists t, EndOfFile (reader_at d pos) 0 = false
                /\ GetTokType (reader_at d pos) 0 = Some (type t)
                /\ skipn pos (tokens d) = t :: skipn (S pos) (tokens d)).
Proof.
  unfold GetTokType, EndOfFile, reader_at. cbn [reader_doc token_pos].
  destruct (Z.of_nat (length (tokens d)) <=? Z.of_N (N.of_nat pos) + 0) eqn:E.
  - left. apply Z.leb_le in E. split; [reflexivity|].
    apply skipn_all2. lia.
  - right. apply Z.leb_gt in E.
    replace (Z.to_nat (Z.of_N (N.of_nat pos) + 0)) with pos by lia.
    destruct (nth_error (tokens d) pos) as [t|] eqn:En.
    + exists t. repeat split. now apply skipn_nth_error.
    + apply nth_error_None in En. lia.
Qed.

Lemma MoveNext_at (d : GenericDocument) (pos : nat) :
  MoveNext (reader_at d pos) = reader_at d (S pos).
Proof. unfold MoveNext, reader_at. cbn. f_equal. lia. Qed.

Lemma skip_current_line_at (d : GenericDocument) :
  forall (rounds pos : nat),
    (length (skipn pos (tokens d)) <= rounds)%nat ->
    skip_current_line rounds (reader_at d pos)
    = reader_at d (pos + length (line_prefix (skipn pos (tokens d)))).
Proof.
  induction rounds as [|n IH]; intros pos Hlen.
  - assert (E : skipn pos (tokens d) = []) by (apply length_zero_iff_nil; lia).
    rewrite E. cbn. now rewrite Nat.add_0_r.
  - cbn [skip_current_line].
    destruct (reader_step d pos) as [[E1 E2] | (t & E1 & E2 & E3)].
    + rewrite E1, E2. cbn. now rewrite Nat.add_0_r.
    + rewrite E1, E2, E3. cbn [negb andb is_linebreak line_prefix].
      destruct (TokenType.eqb (type t) TokenType.LINEBREAK).
      * cbn. now rewrite Nat.add_0_r.
      * cbn [negb length]. rewrite MoveNext_at, IH.
        -- f_equal. lia.
        -- rewrite E3 in Hlen. cbn [length] in Hlen. lia.
Qed.

Lemma content_tests (d : GenericDocument) (pos : nat) (t : Token) :
  GetTokType (reader_at d pos) 0 = Some (type t) ->
  negb (IsTokString (reader_at d pos)) && negb (IsTokFloat (reader_at d pos))
  && negb (IsTokBool (reader_at d pos)) && negb (IsTokKeyword (reader_at d pos))
  = negb (is_content t).
Proof.
  unfold IsTokString, IsTokFloat, IsTokBool, IsTokKeyword, tok_type_is, is_content.
  intros ->. now destruct (type t).
Qed.

Lemma skip_comments_at (d : GenericDocument) :
  forall (rounds pos : nat),
    (length (skipn pos (tokens d)) <= rounds)%nat ->
    skip_comments rounds (reader_at d pos)
    = reader_at d (pos + length (blank_prefix (skipn pos (tokens d)))).
Proof.
  induction rounds as [|n IH]; intros pos Hlen.
  - assert (E : skipn pos (tokens d) = []) by (apply length_zero_iff_nil; lia).
    rewrite E. cbn. now rewrite Nat.add_0_r.
  - cbn [skip_comments].
    destruct (reader_step d pos) as [[E1 E2] | (t & E1 & E2 & E3)].
    + rewrite E1, E2. cbn. now rewrite Nat.add_0_r.
    + rewrite <- !andb_assoc, E1. cbn [negb andb].
      rewrite !andb_assoc, (content_tests d pos t E2), E3.
      cbn [blank_prefix].
      destruct (is_content t).
      * cbn. now rewrite Nat.add_0_r.
      * cbn [negb length]. rewrite MoveNext_at, IH.
        -- f_equal. lia.
        -- rewrite E3 in Hlen. cbn [length] in Hlen. lia.
Qed.

Lemma blank_prefix_spec (l : list Token) :
  forallb (fun t => negb (is_content t)) (blank_prefix l) = true
  /\ exists rest, l = blank_prefix l ++ rest
       /\ match rest with
          | [] => True
          | t :: _ => is_content t = true
          end.
Proof.
  induction l as [|t l [IH1 (rest & IH2 & IH3)]].
  - split; [reflexivity | exists []; split; [reflexivity | exact I]].
  - cbn [blank_prefix]. destruct (is_content t) eqn:E.
    + split; [reflexivity|]. exists (t :: l). split; [reflexivity | exact E].
    + split; [cbn; now rewrite E, IH1|].
      exists rest. split; [cbn; now rewrite <- IH2 | exact IH3].
Qed.

Lemma line_prefix_split (l : list Token) :
  l = line_prefix l ++ skipn (length (line_prefix l)) l.
Proof.
  induction l as [|t l IH]; [reflexivity|].
  cbn [line_prefix].
  destruct (TokenType.eqb (type t) TokenType.LINEBREAK); [reflexivity|].
  cbn [length skipn app]. now rewrite <- IH.
Qed.

(** X20: [SeekNextLine] leaves the document alone and moves the cursor
    over the rest of the current line and then over every token without
    content (line breaks and comments), so that it rests on the first
    token with content after the current line, or at the end of the
    tokens; it answers whether it is at the end.  When the rest of the
    current line is no more than an [int] can count, [CountLineArgs]
    returns its length, so that [SeekNextLine] moves at least as far as
    [CountLineArgs] counts. *)
Theorem X20_seek_next_line (d : GenericDocument) (pos : nat) :
  let rest := skipn pos (tokens d) in
  let line := line_prefix rest in
  let blank := blank_prefix (skipn (length line) rest) in
  let pos' := (pos + length line + length blank)%nat in
  SeekNextLine (reader_at d pos)
  = (Nat.leb (length (tokens d)) pos', reader_at d pos')
  /\ (exists after, rest = line ++ blank ++ after
        /\ match after with
           | [] => (length (tokens d) <= pos')%nat
           | t :: _ => is_content t = true
                       /\ nth_error (tokens d) pos' = Some t
           end)
  /\ forallb (fun t => negb (is_content t)) blank = true
  /\ (Z.of_nat (length line) <= INT_MAX ->
      CountLineArgs (reader_at d pos)
      = Some (Z.of_nat (length line), reader_at d pos)).
Proof.
  intros rest line blank pos'.
  assert (Hskip : skipn (pos + length line) (tokens d) = skipn (length line) rest).
  { subst rest. now rewrite skipn_skipn, Nat.add_comm. }
  split; [|split; [|split]].
  - unfold SeekNextLine. cbn [reader_at reader_doc].
    fold (reader_at d pos).
    rewrite skip_current_line_at by (rewrite length_skipn; lia).
    rewrite skip_comments_at by (rewrite length_skipn; lia).
    fold rest. fold line. rewrite Hskip. fold blank.
    replace (pos + length line + length blank)%nat with pos' by reflexivity.
    f_equal. unfold EndOfFile, reader_at. cbn [reader_doc token_pos].
    destruct (Nat.leb_spec (length (tokens d)) pos');
      [apply Z.leb_le | apply Z.leb_gt]; lia.
  - destruct (blank_prefix_spec (skipn (length line) rest)) as [_ (after & B1 & B2)].
    fold blank in B1. exists after.
    assert (E : rest = line ++ blank ++ after).
    { rewrite <- B1. subst line. apply line_prefix_split. }
    split; [exact E|].
    destruct after as [|t after'].
    + assert (L : length rest = (length line + length blank)%nat).
      { rewrite E at 1. rewrite !length_app. cbn. lia. }
      subst rest. rewrite length_skipn in L. subst pos'. lia.
    + split; [exact B2|].
      subst pos'. rewrite <- Nat.add_assoc, <- nth_error_skipn. fold rest.
      rewrite E, nth_error_app2 by lia.
      replace (length line + length blank - length line)%nat
        with (length blank) by lia.
      rewrite nth_error_app2 by lia. now rewrite Nat.sub_diag.
  - apply blank_prefix_spec.
  - intro Hfit. rewrite CountLineArgs_result.
    cbn [reader_at reader_doc token_pos]. rewrite Nnat.Nat2N.id.
    fold rest. fold line. cbv zeta.
    apply Z.leb_le in Hfit. now rewrite Hfit.
Qed.

Lemma X20_seek_next_line_witness :
  let d := LoadFromDataStream
             (text "set 1 2" ++ [LF] ++ text "; note" ++ [LF; LF]
              ++ text "end" ++ [LF]) 0 in
  CountLineArgs (reader_at d 1) = Some (2, reader_at d 1)
  /\ SeekNextLine (reader_at d 1) = (false, reader_at d 7).
Proof.
  intro d. split.
  - refine (proj2 (proj2 (proj2 (X20_seek_next_line d 1))) _).
    vm_compute. discriminate.
  - exact (proj1 (X20_seek_next_line d 1)).
Defined.

Lemma dispatch_same_tokens_ahead (c : ascii) (p q : DocumentParser) :
  same_tokens_ahead p q -> same_tokens_ahead (dispatch c p) (dispatch c q).
Proof.
  destruct p as [[tk pool] o b ln lp st tf cs].
  destruct q as [d2 o2 b2 ln2 lp2 st2 tf2 cs2].
  unfold same_tokens_ahead.
  cbn [doc options tok partial_tok_type title_found].
  intros (<- & <- & <- & <- & <-).
  destruct st; handler_step; repeat split; reflexivity.
Qed.

Lemma parse_buffer_same_tokens_ahead (s : list ascii) :
  forall p q, same_tokens_ahead p q ->
              same_tokens_ahead (parse_buffer s p) (parse_buffer s q).
Proof.
  induction s as [|c s IH]; intros p q H; [exact H|].
  rewrite !parse_buffer_cons. now apply IH, dispatch_same_tokens_ahead.
Qed.

Lemma separator_between_tokens (c : ascii) (p : DocumentParser) :
  partial_tok_type p = PartialToken.NONE -> is_separator c = true ->
  same_tokens_ahead (dispatch c p) p.
Proof.
  destruct p as [[tk pool] o b ln lp st tf cs]. cbn [partial_tok_type].
  intros -> Hc.
  assert (Hcr : Ascii.eqb c CR = false).
  { destruct (Ascii.eqb_spec c CR) as [->|]; [discriminate Hc | reflexivity]. }
  unfold same_tokens_ahead. handler_step; repeat split; reflexivity.
Qed.

Lemma separators_between_tokens (seps : list ascii) :
  forallb is_separator seps = true ->
  forall p, partial_tok_type p = PartialToken.NONE ->
            same_tokens_ahead (parse_buffer seps p) p.
Proof.
  induction seps as [|c s IH]; intros Hs p Hp.
  - repeat split.
  - cbn in Hs. apply andb_true_iff in Hs. destruct Hs as [Hc Hs].
    pose proof (separator_between_tokens c p Hp Hc) as H1.
    rewrite parse_buffer_cons.
    assert (Hp' : partial_tok_type (dispatch c p) = PartialToken.NONE).
    { destruct H1 as (_ & _ & _ & E & _). congruence. }
    specialize (IH Hs (dispatch c p) Hp').
    unfold same_tokens_ahead in *.
    destruct IH as (A1 & A2 & A3 & A4 & A5), H1 as (B1 & B2 & B3 & B4 & B5).
    repeat split; congruence.
Qed.

(** X21: separators between tokens do not show in the document: spaces,
    commas and tabs put in where the parser is between tokens leave the
    loaded document as it is. *)
Theorem X21_separators_between_tokens
    (s1 seps s2 : list ascii) (opt : BitMask_t) :
  partial_tok_type (parse_buffer s1 (new_parser opt)) = PartialToken.NONE ->
  forallb is_separator seps = true ->
  LoadFromDataStream (s1 ++ seps ++ s2) opt = LoadFromDataStream (s1 ++ s2) opt.
Proof.
  intros Hn Hs. rewrite !LoadFromDataStream_eq, !parse_buffer_app.
  f_equal.
  apply (parse_buffer_same_tokens_ahead s2).
  now apply separators_between_tokens.
Qed.

Lemma X21_separators_between_tokens_witness :
  LoadFromDataStream (text "set " ++ text " ,  " ++ text "true" ++ [LF]) 0
  = LoadFromDataStream (text "set " ++ text "true" ++ [LF]) 0.
Proof.
  exact (X21_separators_between_tokens (text "set ") (text " ,  ")
           (text "true" ++ [LF]) 0 eq_refl eq_refl).
Defined.

